(** * StimVision: the aggregation-and-ranking pipeline of [dbs_analysis_library]

    A shallow embedding of [analysis.py] (with [sort_condition_key] of
    [processing.py] and [parameter_directions] of [utils.py]) and the
    properties its specification states about it, followed by the code
    around it: the loader and the name table of [processing.py] and the
    baseline selection of [run_ismr_analyzer.py], with properties read off
    that code.

    Conventions of the embedding.
    - A Python float is an exact real number or [NaN]; rounding, overflow
      and infinities are outside the model, so "equal" means equal as
      reals.  The one exception is the mean of the aggregator, which is
      also given in binary64 ([Binary64]), to show what the rounding of
      the program does to it.
    - pandas objects are label-keyed: a [Series] indexed by parameter name
      is a finite map from names to cells, a [DataFrame] is an ordered list
      of labelled rows over a set of column names.  The order of rows is
      modelled (the ranking depends on it); the order of columns is not
      observable by any label-based operation of the pipeline and is not
      modelled.
    - One trial table has distinct attribute names, so that it is a finite
      map from attribute to raw value.
    - Condition names, file names and typed lines are ASCII strings.
    - The loader does not touch the file system here: it is given the base
      names of the CSV files of the directory and what reading each one
      gives, a table as its rows (attribute, value) with strings for
      attributes.  The lines typed at the prompt are given as a list.
    - [Series.sort_values] is called with pandas' default [kind], which
      pandas documents as not stable.  It is a parameter of the pipeline,
      known by its documented contract only: what is proved of the ranking
      holds for every sort that meets the contract.  How numpy orders
      entries with equal scores is not modelled. *)

From Stdlib Require Import Reals Lra ZArith String Ascii List Permutation Sorted.
From Stdlib Require Floats Uint63.
From stdpp Require Import gmap strings list fin_maps sorting.

Open Scope string_scope.

(** ** Strings: what [sort_condition_key] needs of [str] and [re] *)

Module Str.

Definition is_upper (c : ascii) : bool :=
  (65 <=? nat_of_ascii c)%nat && (nat_of_ascii c <=? 90)%nat.

Definition lower_ascii (c : ascii) : ascii :=
  if is_upper c then ascii_of_nat (nat_of_ascii c + 32) else c.

(** [s.lower()] *)
Fixpoint lower (s : string) : string :=
  match s with
  | EmptyString => EmptyString
  | String c s' => String (lower_ascii c) (lower s')
  end.

(** [pat in s] *)
Fixpoint contains (pat s : string) : bool :=
  String.prefix pat s ||
  match s with
  | EmptyString => false
  | String _ s' => contains pat s'
  end.

(** [s] without the prefix [pat], when it starts with it. *)
Fixpoint strip_prefix (pat s : string) : option string :=
  match pat, s with
  | EmptyString, _ => Some s
  | String a pat', String b s' =>
      if Ascii.eqb a b then strip_prefix pat' s' else None
  | String _ _, EmptyString => None
  end.

(** [\s] on ASCII: tab, newline, vertical tab, form feed, carriage
    return, the four separators 28-31 and the space. *)
Definition is_space (c : ascii) : bool :=
  let n := nat_of_ascii c in
  ((9 <=? n)%nat && (n <=? 13)%nat) || ((28 <=? n)%nat && (n <=? 32)%nat).

(** [\d] on ASCII. *)
Definition is_digit (c : ascii) : bool :=
  (48 <=? nat_of_ascii c)%nat && (nat_of_ascii c <=? 57)%nat.

Definition digit_value (c : ascii) : Z := Z.of_nat (nat_of_ascii c - 48).

(** The longest run of digits at the head of [s], as [\d+] takes it. *)
Fixpoint leading_digits (s : string) : list ascii :=
  match s with
  | String c s' => if is_digit c then c :: leading_digits s' else []
  | EmptyString => []
  end.

(** [int(ds)] for a run of decimal digits. *)
Definition int_of_digits (ds : list ascii) : Z :=
  fold_left (fun acc c => (10 * acc + digit_value c)%Z) ds 0%Z.

(** [\s?(\d+)] anchored at the head of [s]: the optional blank is taken
    when present (giving it back cannot help, the next character is then
    no digit), and the group is the longest run of digits. *)
Definition blank_then_number (s : string) : option Z :=
  let s' := match s with
            | String c rest => if is_space c then rest else s
            | EmptyString => s
            end in
  match leading_digits s' with
  | [] => None
  | ds => Some (int_of_digits ds)
  end.

(** [(?:pr|level)\s?(\d+)] anchored at the head of [s]. *)
Definition program_number_at (s : string) : option Z :=
  match strip_prefix "pr" s with
  | Some rest => blank_then_number rest
  | None =>
      match strip_prefix "level" s with
      | Some rest => blank_then_number rest
      | None => None
      end
  end.

(** [re.search(r'(?:pr|level)\s?(\d+)', s)], the value of group 1 of the
    leftmost match. *)
Fixpoint search_program_number (s : string) : option Z :=
  match program_number_at s with
  | Some n => Some n
  | None =>
      match s with
      | EmptyString => None
      | String _ s' => search_program_number s'
      end
  end.

End Str.

(** ** processing.py *)

(** [sort_condition_key(condition)] *)
Definition sort_condition_key (condition : string) : Z :=
  let condition_lower := Str.lower condition in
  if Str.contains "dbs off" condition_lower then 0%Z
  else match Str.search_program_number condition_lower with
       | Some n => n
       | None =>
           if Str.contains "dbs on" condition_lower then 100%Z
           else if Str.contains "med on" condition_lower then 200%Z
           else 500%Z
       end.

(** ** Numbers and cells *)

Open Scope R_scope.

(** A float cell of a pandas object. *)
Inductive cell : Type :=
| Num (x : R)
| NaN.

Definition is_nan (c : cell) : bool :=
  match c with NaN => true | Num _ => false end.

Definition cell_sub (a b : cell) : cell :=
  match a, b with Num x, Num y => Num (x - y) | _, _ => NaN end.

Definition cell_add (a b : cell) : cell :=
  match a, b with Num x, Num y => Num (x + y) | _, _ => NaN end.

Definition cell_mul (a b : cell) : cell :=
  match a, b with Num x, Num y => Num (x * y) | _, _ => NaN end.

(** [fillna(v)] on one cell. *)
Definition fillna (v : R) (c : cell) : R :=
  match c with Num x => x | NaN => v end.

(** The defined values of a list of cells, in order ([skipna]). *)
Definition defined (cs : list cell) : list R :=
  omap (fun c => match c with Num x => Some x | NaN => None end) cs.

Definition total (xs : list R) : R := fold_right Rplus 0 xs.

(** [mean(skipna=True)] of the defined values: NaN when there is none. *)
Definition mean (xs : list R) : cell :=
  match xs with
  | [] => NaN
  | _ => Num (total xs / INR (length xs))
  end.

(** [std(ddof=1, skipna=True)] of the defined values: the square root of
    the squared deviations from the mean over [n - 1]; NaN for fewer than
    two values. *)
Definition std (xs : list R) : cell :=
  match xs with
  | [] | [_] => NaN
  | _ =>
      let avg := total xs / INR (length xs) in
      Num (sqrt (total (map (fun x => (avg - x) * (avg - x)) xs)
                 / (INR (length xs) - 1)))
  end.

#[global] Instance Rlt_decision (x y : R) : Decision (x < y) := Rlt_dec x y.
#[global] Instance Req_decision : EqDecision R := Req_dec_T.

(** ** pandas objects *)

(** A Series indexed by parameter name. *)
Abbreviation Series := (gmap string cell).
(** A Series of plain floats (no NaN), indexed by parameter name. *)
Abbreviation RSeries := (gmap string R).

(** The cell under a label; a label that is missing reads as NaN, as after
    pandas' alignment. *)
Definition cell_at (s : Series) (p : string) : cell := default NaN (s !! p).

(** The Series with index [labels] and the value [f p] under each label
    [p]. *)
Definition tabulate {A} (labels : gset string) (f : string -> A) : gmap string A :=
  map_imap (fun p _ => Some (f p)) (gset_to_gmap tt labels).

(** [s.reindex(labels)] *)
Definition reindex_series (labels : gset string) (s : Series) : Series :=
  tabulate labels (cell_at s).

Record DataFrame : Type := mkDataFrame {
  columns : gset string;
  rows : list (string * Series)
}.

(** [pd.DataFrame()] *)
Definition empty_frame : DataFrame := {| columns := ∅; rows := [] |}.

(** [df.index] *)
Definition index (df : DataFrame) : list string := map fst (rows df).

(** [df.empty]: an axis of length 0. *)
Definition frame_empty (df : DataFrame) : bool :=
  bool_decide (rows df = []) || bool_decide (columns df = ∅).

(** [label in df.index] *)
Definition in_index (label : string) (df : DataFrame) : bool :=
  bool_decide (label ∈ index df).

(** [df.loc[label]] for a label of the index (the first row that bears
    it). *)
Fixpoint loc_rows (label : string) (rs : list (string * Series)) : option Series :=
  match rs with
  | [] => None
  | (l, r) :: rs' => if String.eqb l label then Some r else loc_rows label rs'
  end.

Definition loc (df : DataFrame) (label : string) : option Series :=
  loc_rows label (rows df).

(** The column of [df] under [p], in row order. *)
Definition column (df : DataFrame) (p : string) : list cell :=
  map (fun r => cell_at r.2 p) (rows df).

(** A Python dict with string keys, in insertion order. *)
Abbreviation pydict A := (list (string * A)).

(** [d[k] = v]: an existing key keeps its place, a new one goes last. *)
Fixpoint dict_set {A} (k : string) (v : A) (d : pydict A) : pydict A :=
  match d with
  | [] => [(k, v)]
  | (k', v') :: d' =>
      if String.eqb k' k then (k, v) :: d' else (k', v') :: dict_set k v d'
  end.

(** [pd.DataFrame(d).T] for a dict of Series: one row per key, in
    insertion order, over the union of the indexes. *)
Definition frame_of_dict (d : pydict Series) : DataFrame :=
  let cols : gset string := ⋃ (map (fun kv => dom kv.2) d) in
  {| columns := cols;
     rows := map (fun kv => (kv.1, reindex_series cols kv.2)) d |}.

(** The rows of [df] under [labels], in the order of [labels]:
    [df.reindex(labels)], and [df.loc[labels]] for labels of the index. *)
Definition reindex (labels : list string) (df : DataFrame) : DataFrame :=
  {| columns := columns df;
     rows := map (fun l => (l, default (tabulate (columns df) (fun _ => NaN)) (loc df l)))
                 labels |}.

Definition all_nan (r : Series) : bool :=
  bool_decide (map_Forall (fun _ c => is_nan c = true) r).

(** [df.dropna(axis=0, how='all')] *)
Definition dropna_all (df : DataFrame) : DataFrame :=
  {| columns := columns df;
     rows := List.filter (fun r => negb (all_nan r.2)) (rows df) |}.

(** [sorted(labels, key=key)]: Python's sort is stable, and the stable
    result is this insertion sort's. *)
Fixpoint insert_by_key (key : string -> Z) (x : string) (l : list string) : list string :=
  match l with
  | [] => [x]
  | y :: l' =>
      if (key x <=? key y)%Z then x :: y :: l' else y :: insert_by_key key x l'
  end.

Definition sorted (key : string -> Z) (l : list string) : list string :=
  fold_right (insert_by_key key) [] l.

(** ** analysis.py: [aggregate_task_data_by_hand] *)

(** A value of the [Value] column as [pd.to_numeric] sees it. *)
Inductive raw_value : Type :=
| Numeric (x : R)
| NonNumeric (text : string).

(** [pd.to_numeric(v, errors='coerce')] *)
Definition to_numeric (v : raw_value) : cell :=
  match v with Numeric x => Num x | NonNumeric _ => NaN end.

(** An element of a trial list: a DataFrame with the columns [Attribute]
    and [Value], or anything else. *)
Inductive trial : Type :=
| Table (values : gmap string raw_value)
| NotATable.

(** A value of the outer dict: a dict from hand to trial list, or anything
    else. *)
Inductive hand_entry : Type :=
| HandDict (trials : gmap string (list trial))
| NotAHandDict.

Inductive task_data : Type :=
| TaskDict (items : pydict hand_entry)
| NotADict.

(** The body of the inner loop: the Series of the well-formed tables. *)
Definition series_of_trials (trials : list trial) : list Series :=
  omap (fun df => match df with
                  | Table values => Some (to_numeric <$> values)
                  | NotATable => None
                  end) trials.

(** [pd.concat(series_list, axis=1).mean(axis=1)]: over the union of the
    indexes, the mean of the values that are present and defined. *)
Definition concat_mean (series_list : list Series) : Series :=
  let labels : gset string := ⋃ (map dom series_list) in
  tabulate labels
    (fun p => mean (defined (map (fun s => cell_at s p) series_list))).

(** What one iteration of the outer loop stores, if anything. *)
Definition aggregate_condition (hand : string) (hand_dict : hand_entry) : option Series :=
  match hand_dict with
  | HandDict d =>
      match d !! hand with
      | Some trials =>
          match series_of_trials trials with
          | [] => None
          | series_list => Some (concat_mean series_list)
          end
      | None => None
      end
  | NotAHandDict => None
  end.

(** One iteration of the outer loop on [aggregated_data]. *)
Definition store_condition (hand : string) (aggregated_data : pydict Series)
    (item : string * hand_entry) : pydict Series :=
  match aggregate_condition hand item.2 with
  | Some s => dict_set item.1 s aggregated_data
  | None => aggregated_data
  end.

Definition aggregate_items (hand : string) (items : pydict hand_entry) : pydict Series :=
  fold_left (store_condition hand) items [].

Definition aggregate_task_data_by_hand (data_for_task : task_data) (hand : string) : DataFrame :=
  match data_for_task with
  | NotADict => empty_frame
  | TaskDict items =>
      match aggregate_items hand items with
      | [] => empty_frame
      | aggregated_data =>
          let summary_df := frame_of_dict aggregated_data in
          dropna_all (reindex (sorted sort_condition_key (index summary_df)) summary_df)
      end
  end.

(** ** utils.py *)

(** [parameter_directions] *)
Definition parameter_directions : pydict string :=
  [ ("MeanAmplitude", "higher"); ("StdAmplitude", "lower");
    ("MeanSpeed", "higher"); ("StdSpeed", "lower");
    ("MeanRMSVelocity", "higher"); ("StdRMSVelocity", "lower");
    ("MeanOpeningSpeed", "higher"); ("StdOpeningSpeed", "lower");
    ("MeanClosingSpeed", "higher"); ("StdClosingSpeed", "lower");
    ("MeanCycleDuration", "lower"); ("StdCycleDuration", "lower");
    ("RangeCycleDuration", "lower"); ("Frequency", "higher");
    ("AmplitudeDecay", "lower"); ("VelocityDecay", "lower");
    ("RateDecay", "lower"); ("CVAmplitude", "lower");
    ("CVCycleDuration", "lower"); ("CVSpeed", "lower");
    ("CVRMSVelocity", "lower"); ("CVOpeningSpeed", "lower");
    ("CVClosingSpeed", "lower") ].

(** [d.get(k)] *)
Fixpoint dict_get {A} (k : string) (d : pydict A) : option A :=
  match d with
  | [] => None
  | (k', v) :: d' => if String.eqb k' k then Some v else dict_get k d'
  end.

(** ** analysis.py: [perform_full_hand_analysis] *)

(** [index.drop(label, errors='ignore')] *)
Definition drop_label (label : string) (labels : list string) : list string :=
  List.filter (fun l => negb (String.eqb l label)) labels.

(** [df.subtract(s, axis=1)]: [s] is taken from every row, label by
    label. *)
Definition subtract (df : DataFrame) (s : Series) : DataFrame :=
  {| columns := columns df;
     rows := map (fun r => (r.1, tabulate (columns df)
                                   (fun p => cell_sub (cell_at r.2 p) (cell_at s p))))
                 (rows df) |}.

(** [df[param] *= k] *)
Definition scale_column (param : string) (k : R) (df : DataFrame) : DataFrame :=
  {| columns := columns df;
     rows := map (fun r => (r.1, alter (fun c => cell_mul c (Num k)) param r.2))
                 (rows df) |}.

(** The loop over [parameter_directions.items()]. *)
Definition correct_directions (directions : pydict string) (raw_change_df : DataFrame) : DataFrame :=
  fold_left (fun improvement_df item =>
               if bool_decide (item.1 ∈ columns improvement_df) && String.eqb item.2 "lower"
               then scale_column item.1 (-1) improvement_df
               else improvement_df)
            directions raw_change_df.

(** [df.std().fillna(0)] *)
Definition std_filled (df : DataFrame) : RSeries :=
  tabulate (columns df) (fun p => fillna 0 (std (defined (column df p)))).

(** [s[s > 1e-9]] *)
Definition above_epsilon (s : RSeries) : RSeries :=
  filter (fun kv => 1e-9 < kv.2) s.

(** [s.sum()] *)
Definition series_sum (s : RSeries) : R :=
  map_fold (fun _ v acc => v + acc) 0 s.

(** [k * s] and [s / k] *)
Definition series_scale (k : R) (s : RSeries) : RSeries := (fun v => k * v) <$> s.
Definition series_div (s : RSeries) (k : R) : RSeries := (fun v => v / k) <$> s.

(** [a + b] for two Series over the same index. *)
Definition series_add (a b : RSeries) : RSeries := map_zip_with Rplus a b.

(** [pd.Series(v, index=s.index)] *)
Definition series_const (v : R) (s : RSeries) : RSeries := (fun _ => v) <$> s.

(** The regularized dynamic weighting. *)
Definition regularized_weights (shrinkage_lambda : R) (responsiveness_scores : RSeries) : RSeries :=
  let data_driven_weights := series_div responsiveness_scores (series_sum responsiveness_scores) in
  let n_responsive_params := size data_driven_weights in
  let uniform_weights := series_const (1 / INR n_responsive_params) data_driven_weights in
  series_add (series_scale (1 - shrinkage_lambda) data_driven_weights)
             (series_scale shrinkage_lambda uniform_weights).

(** [s[labels]] *)
Definition restrict (labels : gset string) (s : RSeries) : RSeries :=
  filter (fun kv => kv.1 ∈ labels) s.

(** One entry of [df.dot(w)]: the sum over the labels of [w] of cell
    times weight; a NaN cell makes the sum NaN. *)
Definition row_dot (row : Series) (w : RSeries) : cell :=
  map_fold (fun p wp acc => cell_add (cell_mul (cell_at row p) (Num wp)) acc) (Num 0) w.

(** [df[common].dot(w[common])], a Series indexed by condition. *)
Definition dot (df : DataFrame) (common : gset string) (w : RSeries) : list (string * cell) :=
  map (fun r => (r.1, row_dot r.2 (restrict common w))) (rows df).

Record ranking : Type := mkRanking {
  ranked_names : list string;
  ranked_scores : list cell
}.

Record results : Type := mkResults {
  summary_df : DataFrame;
  improvement_df : DataFrame;
  responsiveness_scores : RSeries;
  final_dynamic_weights : RSeries;
  dynamic_scores : list (string * cell);
  dynamic_ranking_results : ranking
}.

Definition default_shrinkage_lambda : R := 0.1.

Section Pipeline.

(** [Series.sort_values(ascending=False)] with pandas' default [kind]
    (quicksort) and [na_position] (last).  pandas documents the default
    kind as not stable, so the function is a parameter of the pipeline,
    known by its contract [sort_values_contract] below. *)
Variable sort_values : list (string * cell) -> list (string * cell).

Definition perform_full_hand_analysis
    (data_by_condition : task_data) (hand baseline : string)
    (shrinkage_lambda : R) : results :=
  let summary_df := aggregate_task_data_by_hand data_by_condition hand in
  let results :=
    {| summary_df := summary_df; improvement_df := empty_frame;
       responsiveness_scores := ∅; final_dynamic_weights := ∅;
       dynamic_scores := [];
       dynamic_ranking_results := {| ranked_names := []; ranked_scores := [] |} |} in
  if frame_empty summary_df || negb (in_index baseline summary_df) then results
  else
    let on_conditions := drop_label baseline (index summary_df) in
    match on_conditions with
    | [] => results
    | _ =>
      let baseline_series := default ∅ (loc summary_df baseline) in
      let raw_change_df := subtract (reindex on_conditions summary_df) baseline_series in
      let improvement_df := correct_directions parameter_directions raw_change_df in
      let responsiveness_scores := above_epsilon (std_filled improvement_df) in
      let results :=
        {| summary_df := summary_df; improvement_df := improvement_df;
           responsiveness_scores := responsiveness_scores;
           final_dynamic_weights := ∅; dynamic_scores := [];
           dynamic_ranking_results := {| ranked_names := []; ranked_scores := [] |} |} in
      if bool_decide (responsiveness_scores = ∅)
         || bool_decide (series_sum responsiveness_scores = 0)
      then results
      else
        let final_dynamic_weights := regularized_weights shrinkage_lambda responsiveness_scores in
        let common_params := columns improvement_df ∩ dom final_dynamic_weights in
        let dynamic_scores := dot improvement_df common_params final_dynamic_weights in
        let ranked_scores := sort_values dynamic_scores in
        {| summary_df := summary_df; improvement_df := improvement_df;
           responsiveness_scores := responsiveness_scores;
           final_dynamic_weights := final_dynamic_weights;
           dynamic_scores := dynamic_scores;
           dynamic_ranking_results :=
             {| ranked_names := map fst ranked_scores;
                ranked_scores := map snd ranked_scores |} |}
    end.

End Pipeline.

(** The result order of [sort_values(ascending=False)]: a cell that may
    stand before another one.  Defined scores descend, NaN comes last. *)
Definition may_precede (a b : cell) : Prop :=
  match a, b with
  | Num x, Num y => y <= x
  | Num _, NaN => True
  | NaN, NaN => True
  | NaN, Num _ => False
  end.

(** What pandas documents of [sort_values(ascending=False)]: the entries
    are rearranged into descending order with the NaN entries last. *)
Definition sort_values_contract (sort_values : list (string * cell) -> list (string * cell)) : Prop :=
  forall s, Permutation (sort_values s) s /\
            StronglySorted (fun a b => may_precede a.2 b.2) (sort_values s).

(** A sort that meets the contract: a stable insertion sort.  It serves
    to run the pipeline on the scenarios. *)
Definition must_precede (a b : cell) : bool :=
  match a, b with
  | Num x, Num y => bool_decide (y < x)
  | Num _, NaN => true
  | NaN, _ => false
  end.

Fixpoint insert_desc (x : string * cell) (l : list (string * cell)) : list (string * cell) :=
  match l with
  | [] => [x]
  | y :: l' => if must_precede y.2 x.2 then y :: insert_desc x l' else x :: y :: l'
  end.

Definition stable_sort_values (s : list (string * cell)) : list (string * cell) :=
  fold_right insert_desc [] s.

(** ** The stages of the pipeline, as the specification names them

    Each is the expression [perform_full_hand_analysis] computes at that
    point; [perform_full_hand_analysis_stages] below proves the function
    is their composition. *)

(** The three early exits. *)
Definition aborts_early (summary : DataFrame) (baseline : string) : bool :=
  frame_empty summary || negb (in_index baseline summary)
  || match drop_label baseline (index summary) with [] => true | _ => false end.

(** Baseline-Relative Improvement Calculator. *)
Definition raw_change_of (summary : DataFrame) (baseline : string) : DataFrame :=
  subtract (reindex (drop_label baseline (index summary)) summary)
           (default ∅ (loc summary baseline)).

Definition improvement_of (summary : DataFrame) (baseline : string) : DataFrame :=
  correct_directions parameter_directions (raw_change_of summary baseline).

(** Responsiveness Estimator. *)
Definition responsiveness_of (improvement : DataFrame) : RSeries :=
  above_epsilon (std_filled improvement).

(** Composite Scorer. *)
Definition scores_of (improvement : DataFrame) (weights : RSeries) : list (string * cell) :=
  dot improvement (columns improvement ∩ dom weights) weights.

(** The result of an early exit, and of the exit for want of a responsive
    parameter. *)
Definition result_without_improvement (summary : DataFrame) : results :=
  {| summary_df := summary; improvement_df := empty_frame;
     responsiveness_scores := ∅; final_dynamic_weights := ∅;
     dynamic_scores := [];
     dynamic_ranking_results := {| ranked_names := []; ranked_scores := [] |} |}.

Definition result_without_weights (summary improvement : DataFrame) (responsiveness : RSeries) : results :=
  {| summary_df := summary; improvement_df := improvement;
     responsiveness_scores := responsiveness;
     final_dynamic_weights := ∅; dynamic_scores := [];
     dynamic_ranking_results := {| ranked_names := []; ranked_scores := [] |} |}.

(** The result of a complete run. *)
Definition result_complete (sort_values : list (string * cell) -> list (string * cell))
    (summary improvement : DataFrame) (responsiveness : RSeries) (lam : R) : results :=
  let weights := regularized_weights lam responsiveness in
  let scores := scores_of improvement weights in
  {| summary_df := summary; improvement_df := improvement;
     responsiveness_scores := responsiveness;
     final_dynamic_weights := weights;
     dynamic_scores := scores;
     dynamic_ranking_results :=
       {| ranked_names := map fst (sort_values scores);
          ranked_scores := map snd (sort_values scores) |} |}.

(** The loop of the direction correction, on one row. *)
Definition correct_row (directions : pydict string) (cols : gset string) (row : Series) : Series :=
  fold_left (fun row item =>
               if bool_decide (item.1 ∈ cols) && String.eqb item.2 "lower"
               then alter (fun c => cell_mul c (Num (-1))) item.1 row
               else row)
            directions row.

(** Whether a direction table marks [param] as lower-is-better. *)
Definition marked_lower (directions : pydict string) (param : string) : bool :=
  match dict_get param directions with
  | Some direction => String.eqb direction "lower"
  | None => false
  end.

Definition lower_is_better (param : string) : bool :=
  marked_lower parameter_directions param.

(** The specification's reading of one summary cell: the values of
    parameter [p] in the trial tables, a value that is not numeric or not
    there counting as missing. *)
Definition present_values (trials : list trial) (p : string) : list R :=
  omap (fun df => match df with
                  | Table values =>
                      match values !! p with
                      | Some (Numeric x) => Some x
                      | _ => None
                      end
                  | NotATable => None
                  end) trials.

(** What the outer loop stores for one item of a dict. *)
Definition stored (hand : string) (item : string * hand_entry) : option (string * Series) :=
  match aggregate_condition hand item.2 with
  | Some s => Some (item.1, s)
  | None => None
  end.

(** ** The domain ordering, as the specification words it

    Baseline-like conditions first, then numbered programs ascending, then
    the other "on" conditions, then everything else. *)

Inductive tier : Type :=
| Baseline_like
| Numbered (n : Z)
| Other_on
| Catch_all.

Definition tier_of (condition : string) : tier :=
  let condition_lower := Str.lower condition in
  if Str.contains "dbs off" condition_lower then Baseline_like
  else match Str.search_program_number condition_lower with
       | Some n => Numbered n
       | None =>
           if Str.contains "dbs on" condition_lower
              || Str.contains "med on" condition_lower
           then Other_on
           else Catch_all
       end.

Definition tier_rank (t : tier) : Z :=
  match t with
  | Baseline_like => 0
  | Numbered _ => 1
  | Other_on => 2
  | Catch_all => 3
  end.

(** [a] may stand before [b]. *)
Definition domain_order (a b : string) : Prop :=
  match tier_of a, tier_of b with
  | Numbered n, Numbered m => (n <= m)%Z
  | ta, tb => (tier_rank ta <= tier_rank tb)%Z
  end.

(** A row that has a defined cell. *)
Definition has_defined_cell (row : Series) : Prop :=
  exists (p : string) (x : R), row !! p = Some (Num x).

(** The responsiveness of one column before the threshold. *)
Definition deviation (improvement : DataFrame) (p : string) : R :=
  fillna 0 (std (defined (column improvement p))).

(** ** The scenarios of the specification

    Scenario A: one parameter, one condition besides the baseline.
    Scenario B: [StdSpeed] is 5 at the baseline, 3 under program 1 and 6
    under program 2. *)

Definition baseline_name : string := "Med Off - DBS Off".
Definition program_1 : string := "Med Off - DBS On - Pr1".
Definition program_2 : string := "Med Off - DBS On - Pr2".

Definition one_value (param : string) (x : R) : trial :=
  Table {[ param := Numeric x ]}.

Definition scenario_a : task_data :=
  TaskDict
    [ (program_1, HandDict {[ "Right" := [one_value "MeanSpeed" 10; one_value "MeanSpeed" 12] ]});
      (baseline_name, HandDict {[ "Right" := [one_value "MeanSpeed" 8; one_value "MeanSpeed" 8] ]}) ].

(** A program numbered beyond the constant the sort key gives to the plain
    "DBS On" condition. *)
Definition scenario_program_150 : task_data :=
  TaskDict
    [ ("Med Off - DBS On - Pr150", HandDict {[ "Right" := [one_value "StdSpeed" 4] ]});
      ("Med Off - DBS On", HandDict {[ "Right" := [one_value "StdSpeed" 3] ]}) ].

(** One condition with three trials: a table with a numeric and a
    non-numeric value, a table with one value, and an object that is no
    table. *)
Definition partial_trials : list trial :=
  [ Table {[ "StdSpeed" := Numeric 4; "MeanSpeed" := NonNumeric "n/a" ]};
    Table {[ "StdSpeed" := Numeric 6 ]};
    NotATable ].

Definition partial_items : pydict hand_entry :=
  [ (baseline_name, HandDict {[ "Right" := partial_trials ]}) ].

(** Scenario B with a third program whose [StdSpeed] is not numeric. *)
Definition program_3 : string := "Med Off - DBS On - Pr3".

Definition scenario_nan : task_data :=
  TaskDict
    [ (baseline_name, HandDict {[ "Right" := [one_value "StdSpeed" 5] ]});
      (program_1, HandDict {[ "Right" := [one_value "StdSpeed" 3] ]});
      (program_2, HandDict {[ "Right" := [one_value "StdSpeed" 6] ]});
      (program_3, HandDict {[ "Right" :=
         [Table {[ "StdSpeed" := NonNumeric "n/a"; "MeanSpeed" := Numeric 7 ]}] ]}) ].

Definition scenario_b : task_data :=
  TaskDict
    [ (program_2, HandDict {[ "Right" := [one_value "StdSpeed" 6] ]});
      (baseline_name, HandDict {[ "Right" := [one_value "StdSpeed" 5; one_value "StdSpeed" 5] ]});
      (program_1, HandDict {[ "Right" := [one_value "StdSpeed" 3] ]}) ].

(** ** processing.py: [standardize_parameter_names] *)

(** [name_map] *)
Definition name_map : pydict string :=
  [ ("meanamplitude", "MeanAmplitude"); ("stdamplitude", "StdAmplitude");
    ("meanspeed", "MeanSpeed"); ("stdspeed", "StdSpeed");
    ("meanrmsvelocity", "MeanRMSVelocity"); ("stdrmsvelocity", "StdRMSVelocity");
    ("meanopeningspeed", "MeanOpeningSpeed"); ("stdopeningspeed", "StdOpeningSpeed");
    ("meanclosingspeed", "MeanClosingSpeed"); ("stdclosingspeed", "StdClosingSpeed");
    ("meancycleduration", "MeanCycleDuration"); ("stdcycleduration", "StdCycleDuration");
    ("rangecycleduration", "RangeCycleDuration"); ("rate", "Frequency");
    ("amplitudedecay", "AmplitudeDecay"); ("velocitydecay", "VelocityDecay");
    ("ratedecay", "RateDecay"); ("cvamplitude", "CVAmplitude");
    ("cvcycleduration", "CVCycleDuration"); ("cvspeed", "CVSpeed");
    ("cvrmsvelocity", "CVRMSVelocity"); ("cvopeningspeed", "CVOpeningSpeed");
    ("cvclosingspeed", "CVClosingSpeed") ].

(** One entry of [df['Attribute'].str.lower().map(name_map).fillna(df['Attribute'])] *)
Definition standardize_name (attribute : string) : string :=
  match dict_get (Str.lower attribute) name_map with
  | Some name => name
  | None => attribute
  end.

(** [standardize_parameter_names(df)] on the rows (attribute, value) of a
    table read from a CSV file. *)
Definition standardize_parameter_names {V} (df : list (string * V)) : list (string * V) :=
  map (fun row => (standardize_name row.1, row.2)) df.

(** ** run_ismr_analyzer.py: [get_user_baseline_selection] *)

(** [s.strip()] on ASCII. *)
Fixpoint lstrip (s : string) : string :=
  match s with
  | String c s' => if Str.is_space c then lstrip s' else s
  | EmptyString => EmptyString
  end.

Fixpoint rstrip (s : string) : string :=
  match s with
  | String c s' =>
      match rstrip s' with
      | EmptyString => if Str.is_space c then EmptyString else String c EmptyString
      | r => String c r
      end
  | EmptyString => EmptyString
  end.

Definition strip (s : string) : string := rstrip (lstrip s).

(** [l.index(x) if x in l else -1], the -1 as [None]. *)
Fixpoint index_of (x : string) (l : list string) : option nat :=
  match l with
  | [] => None
  | y :: l' => if String.eqb y x then Some 0%nat else S <$> index_of x l'
  end.

Section Baseline_selection.

(** [int(s)]: [None] is its [ValueError]. *)
Variable int_of : string -> option Z.

(** The [while True] loop, fed with the lines that [input] returns one
    after the other.  The outer [None] is the [EOFError] of [input] when
    there is no line left; [Some None] is the function returning [None]. *)
Fixpoint selection_loop (available_conditions : list string) (default_idx : option nat)
    (lines : list string) : option (option string) :=
  match lines with
  | [] => None
  | line :: lines' =>
      let user_input := Str.lower (strip line) in
      if String.eqb user_input "skip" then Some None
      else
        match String.eqb user_input EmptyString, default_idx with
        | true, Some i => Some (Some (nth i available_conditions EmptyString))
        | _, _ =>
            match int_of user_input with
            | Some selected_num =>
                if (1 <=? selected_num)%Z
                   && (selected_num <=? Z.of_nat (length available_conditions))%Z
                then Some (Some (nth (Z.to_nat (selected_num - 1)) available_conditions EmptyString))
                else selection_loop available_conditions default_idx lines'
            | None => selection_loop available_conditions default_idx lines'
            end
        end
  end.

Definition get_user_baseline_selection (available_conditions : list string)
    (lines : list string) : option (option string) :=
  match available_conditions with
  | [] => Some None
  | _ =>
      let default_baseline_name := "Med Off - DBS Off" in
      let default_idx := index_of default_baseline_name available_conditions in
      selection_loop available_conditions default_idx lines
  end.

End Baseline_selection.

(** ** processing.py: [load_csv_files_by_hand] *)

(** [[_\s]] *)
Definition is_gap (c : ascii) : bool := Ascii.eqb c "_" || Str.is_space c.

(** The rest of [s] after [[_\s]*], which takes the longest run of such
    characters: giving one back cannot help, the pattern goes on with a
    letter. *)
Fixpoint skip_gaps (s : string) : string :=
  match s with
  | String c s' => if is_gap c then skip_gaps s' else s
  | EmptyString => EmptyString
  end.

(** [word1[_\s]*word2] anchored at the head of [s]. *)
Definition gap_pattern_at (word1 word2 s : string) : bool :=
  match Str.strip_prefix word1 s with
  | Some rest => String.prefix word2 (skip_gaps rest)
  | None => false
  end.

(** Whether [word1[_\s]*word2] matches somewhere in [s]. *)
Fixpoint search_gap_pattern (word1 word2 s : string) : bool :=
  gap_pattern_at word1 word2 s ||
  match s with
  | EmptyString => false
  | String _ s' => search_gap_pattern word1 word2 s'
  end.

(** The lower-case word [pat] at the head of [s] whatever the case of the
    letters of [s], as [re.IGNORECASE] has it: the text matched and the
    rest of [s]. *)
Fixpoint strip_prefix_ignorecase (pat s : string) : option (string * string) :=
  match pat, s with
  | EmptyString, _ => Some (EmptyString, s)
  | String a pat', String b s' =>
      if Ascii.eqb a (Str.lower_ascii b) then
        match strip_prefix_ignorecase pat' s' with
        | Some (text, rest) => Some (String b text, rest)
        | None => None
        end
      else None
  | String _ _, EmptyString => None
  end.

(** The text of [\d+] at the head of [s]. *)
Definition digits_text (s : string) : option string :=
  match Str.leading_digits s with
  | [] => None
  | ds => Some (string_of_list_ascii ds)
  end.

(** [Pr\d+] anchored at the head of [s]: the text matched. *)
Definition pr_at (s : string) : option string :=
  match strip_prefix_ignorecase "pr" s with
  | Some (letters, rest) =>
      match digits_text rest with
      | Some digits => Some (letters ++ digits)
      | None => None
      end
  | None => None
  end.

(** [Level[_\s]?\d+] anchored at the head of [s]: the text matched.  The
    optional character is taken when present; giving it back cannot help,
    it is no digit. *)
Definition level_at (s : string) : option string :=
  match strip_prefix_ignorecase "level" s with
  | Some (letters, rest) =>
      match rest with
      | String c rest' =>
          if is_gap c then
            match digits_text rest' with
            | Some digits => Some (letters ++ String c digits)
            | None => None
            end
          else
            match digits_text rest with
            | Some digits => Some (letters ++ digits)
            | None => None
            end
      | EmptyString => None
      end
  | None => None
  end.

(** [(Pr\d+|Level[_\s]?\d+)] anchored at the head of [s]. *)
Definition extra_cond_at (s : string) : option string :=
  match pr_at s with
  | Some text => Some text
  | None => level_at s
  end.

(** [extra_cond_re.search(filename)]: group 1 of the leftmost match. *)
Fixpoint search_extra_cond (s : string) : option string :=
  match extra_cond_at s with
  | Some text => Some text
  | None =>
      match s with
      | EmptyString => None
      | String _ s' => search_extra_cond s'
      end
  end.

(** [s.replace('_', ' ')] *)
Fixpoint replace_underscores (s : string) : string :=
  match s with
  | String c s' =>
      String (if Ascii.eqb c "_" then " "%char else c) (replace_underscores s')
  | EmptyString => EmptyString
  end.

(** The condition that the loop reads off a file name.  The patterns are
    compiled with [re.IGNORECASE]: those without a group are searched in
    the lower-case file name. *)
Definition condition_of_filename (filename : string) : string :=
  let med_cond :=
    if search_gap_pattern "med" "on" (Str.lower filename) then "Med On" else "Med Off" in
  let dbs_cond :=
    if search_gap_pattern "dbs" "on" (Str.lower filename) then "DBS On" else "DBS Off" in
  let extra_condition :=
    match search_extra_cond filename with
    | Some text => strip (replace_underscores text)
    | None => EmptyString
    end in
  let condition := med_cond ++ " - " ++ dbs_cond in
  match extra_condition with
  | EmptyString => condition
  | _ => condition ++ " - " ++ extra_condition
  end.

(** The hand that the loop reads off a file name. *)
Definition hand_of_filename (filename : string) : string :=
  if Str.contains "left" (Str.lower filename) then "Left"
  else if Str.contains "right" (Str.lower filename) then "Right"
  else "Unknown".

(** [file_dict.setdefault(condition, {}).setdefault(hand, []).append(df)] *)
Definition setdefault_append {T} (condition hand : string) (df : T)
    (file_dict : pydict (pydict (list T))) : pydict (pydict (list T)) :=
  let hands := default [] (dict_get condition file_dict) in
  let dfs := default [] (dict_get hand hands) in
  dict_set condition (dict_set hand (dfs ++ [df])%list hands) file_dict.

(** A file of the directory: its base name and the rows (attribute, value)
    of its table, or [None] when the file cannot be read or parsed or has
    no column 'Attribute' or no column 'Value'. *)
Definition csv_file (V : Type) : Type := string * option (list (string * V)).

(** One turn of the loop over [csv_files]. *)
Definition load_file {V} (file_dict : pydict (pydict (list (list (string * V)))))
    (file : csv_file V) : pydict (pydict (list (list (string * V)))) :=
  match file.2 with
  | None => file_dict
  | Some df =>
      let df := standardize_parameter_names df in
      let condition := condition_of_filename file.1 in
      let hand := hand_of_filename file.1 in
      if String.eqb hand "Unknown" then file_dict
      else setdefault_append condition hand df file_dict
  end.

(** [load_csv_files_by_hand(directory)]: [directory] is [None] when it is
    no directory, and the CSV files that [glob] finds in it otherwise, in
    the order in which [glob] returns them. *)
Definition load_csv_files_by_hand {V} (directory : option (list (csv_file V)))
    : pydict (pydict (list (list (string * V)))) :=
  match directory with
  | None => []
  | Some csv_files => fold_left load_file csv_files []
  end.

(** The tables filed under a condition and a hand. *)
Definition tables_at {T} (condition hand : string) (file_dict : pydict (pydict (list T)))
    : list T :=
  default [] (dict_get hand (default [] (dict_get condition file_dict))).

(** The standardized tables of the readable files whose names bear a
    condition and a hand, in the order of the files. *)
Definition tables_of {V} (condition hand : string) (csv_files : list (csv_file V))
    : list (list (string * V)) :=
  omap (fun file : csv_file V =>
          match file.2 with
          | Some df =>
              if String.eqb (condition_of_filename file.1) condition
                 && String.eqb (hand_of_filename file.1) hand
              then Some (standardize_parameter_names df)
              else None
          | None => None
          end) csv_files.

(** The digits of a string, in order. *)
Definition digits_of (s : string) : list ascii :=
  List.filter Str.is_digit (list_ascii_of_string s).

(** ** analysis.py: the mean of the aggregator in binary64

    [concat_mean] above is the mean as an exact number.  What the program
    stores is its binary64 value: [pd.concat(series_list, axis=1)] makes one
    column per Series, in the order of the trial list, and [mean(axis=1)]
    (pandas' [nanmean]) puts 0 in place of the undefined cells of a row, adds
    the cells of the row in column order, and divides by the number of
    defined cells.  Fewer than eight numbers are added one after the
    other, as [float_mean] does; numpy may group the additions of longer
    rows differently, and the definition is not meant for those. *)

Module Binary64.
Import PrimFloat.

(** A Series of binary64 numbers, NaN among them, indexed by parameter
    name. *)
Definition FloatSeries : Type := gmap string float.

(** The cell under a label; a label that is missing reads as NaN. *)
Definition float_cell_at (s : FloatSeries) (p : string) : float :=
  default nan (s !! p).

(** [mean(axis=1)] on the cells of one row, in column order. *)
Definition float_mean (cells : list float) : float :=
  let count := length (List.filter (fun c => negb (PrimFloat.is_nan c)) cells) in
  let the_sum :=
    fold_left (fun acc c => (acc + (if PrimFloat.is_nan c then 0 else c))%float)
              cells 0%float in
  match count with
  | O => nan
  | _ => (the_sum / of_uint63 (Uint63.of_Z (Z.of_nat count)))%float
  end.

(** [pd.concat(series_list, axis=1).mean(axis=1)] in binary64: what the
    loop stores under a condition, and so the row of that condition in the
    summary. *)
Definition float_concat_mean (series_list : list FloatSeries) : FloatSeries :=
  let labels : gset string := ⋃ (map dom series_list) in
  tabulate labels (fun p => float_mean (map (fun s => float_cell_at s p) series_list)).

(** The numeric [Value] column of a trial table with the one attribute
    [MeanSpeed]. *)
Definition mean_speed (x : float) : FloatSeries := {[ "MeanSpeed" := x ]}.

End Binary64.

(* ================================================================== *)
(** * Properties *)
(* ================================================================== *)

(** ** The sort key on the names the loader builds *)

Example key_baseline : sort_condition_key "Med Off - DBS Off" = 0%Z.
Proof. reflexivity. Qed.

Example key_program : sort_condition_key "Med Off - DBS On - Pr2" = 2%Z.
Proof. reflexivity. Qed.

Example key_level : sort_condition_key "Med On - DBS On - Level 12" = 12%Z.
Proof. reflexivity. Qed.

Example key_dbs_on : sort_condition_key "Med On - DBS On" = 100%Z.
Proof. reflexivity. Qed.

Example key_med_on : sort_condition_key "Med On" = 200%Z.
Proof. reflexivity. Qed.

Example key_other : sort_condition_key "Sham" = 500%Z.
Proof. reflexivity. Qed.

(** ** Sums, means and finite maps *)

Lemma lookup_tabulate {A} (labels : gset string) (f : string -> A) (p : string) :
  tabulate labels f !! p = if decide (p ∈ labels) then Some (f p) else None.
Proof.
  unfold tabulate. rewrite map_lookup_imap, lookup_gset_to_gmap.
  destruct (decide (p ∈ labels)) as [Hin|Hin].
  - rewrite option_guard_True by done. reflexivity.
  - rewrite option_guard_False by done. reflexivity.
Qed.

Lemma dom_tabulate {A} (labels : gset string) (f : string -> A) :
  dom (tabulate labels f) = labels.
Proof.
  apply set_eq. intros p. rewrite elem_of_dom, lookup_tabulate.
  destruct (decide (p ∈ labels)); split; intros H; done.
Qed.

Lemma cell_at_tabulate (labels : gset string) (f : string -> cell) (p : string) :
  p ∈ labels -> cell_at (tabulate labels f) p = f p.
Proof.
  intros Hin. unfold cell_at. rewrite lookup_tabulate.
  destruct (decide (p ∈ labels)); [reflexivity | contradiction].
Qed.

Lemma total_app (xs ys : list R) : total (xs ++ ys) = total xs + total ys.
Proof. induction xs as [|x xs IH]; simpl; [lra | rewrite IH; lra]. Qed.

Lemma total_permutation (xs ys : list R) :
  Permutation xs ys -> total xs = total ys.
Proof. induction 1; simpl; lra. Qed.

Lemma series_sum_empty : series_sum ∅ = 0.
Proof. unfold series_sum. apply map_fold_empty. Qed.

Lemma series_sum_insert (s : RSeries) (p : string) (v : R) :
  s !! p = None -> series_sum (<[p:=v]> s) = v + series_sum s.
Proof.
  intros Hnone. unfold series_sum.
  rewrite map_fold_insert_L; [reflexivity | | assumption].
  intros. lra.
Qed.

(** The sum of an affine image of a Series. *)
Lemma series_sum_affine (a b : R) (s : RSeries) :
  series_sum ((fun v => a * v + b) <$> s) = a * series_sum s + b * INR (size s).
Proof.
  induction s as [|p v s Hnone IH] using map_ind.
  - rewrite fmap_empty, series_sum_empty, map_size_empty. simpl. lra.
  - rewrite fmap_insert, series_sum_insert by (by rewrite lookup_fmap, Hnone).
    rewrite IH, series_sum_insert, map_size_insert_None by assumption.
    rewrite S_INR. lra.
Qed.

Lemma series_sum_positive (s : RSeries) :
  s <> ∅ -> (forall p v, s !! p = Some v -> 0 < v) -> 0 < series_sum s.
Proof.
  induction s as [|p v s Hnone IH] using map_ind; [done|].
  intros _ Hpos. rewrite series_sum_insert by assumption.
  assert (0 < v) by (apply (Hpos p); apply lookup_insert_eq).
  destruct (decide (s = ∅)) as [->|Hne].
  - rewrite series_sum_empty. lra.
  - assert (0 < series_sum s); [|lra].
    apply IH; [assumption|]. intros q w Hq. apply (Hpos q).
    rewrite lookup_insert_ne; [assumption|]. intros ->. congruence.
Qed.

(** ** The weight blender *)

(** The blend, label by label. *)
Lemma regularized_weights_fmap (lam : R) (rs : RSeries) :
  regularized_weights lam rs =
  (fun r => (1 - lam) * (r / series_sum rs) + lam * (1 / INR (size rs))) <$> rs.
Proof.
  unfold regularized_weights, series_add, series_scale, series_const, series_div.
  apply map_eq. intros p.
  rewrite map_lookup_zip_with, !lookup_fmap, map_size_fmap.
  destruct (rs !! p); reflexivity.
Qed.

Lemma regularized_weights_lookup (lam : R) (rs : RSeries) (p : string) :
  regularized_weights lam rs !! p =
  (fun r => (1 - lam) * (r / series_sum rs) + lam * (1 / INR (size rs))) <$> rs !! p.
Proof. rewrite regularized_weights_fmap. apply lookup_fmap. Qed.

Lemma dom_regularized_weights (lam : R) (rs : RSeries) :
  dom (regularized_weights lam rs) = dom rs.
Proof. rewrite regularized_weights_fmap. apply dom_fmap_L. Qed.

Lemma size_nonzero (rs : RSeries) : rs <> ∅ -> INR (size rs) <> 0.
Proof.
  intros Hne. apply not_0_INR. intros Hz. apply Hne. by apply map_size_empty_iff.
Qed.

Lemma regularized_weights_sum (lam : R) (rs : RSeries) :
  rs <> ∅ -> series_sum rs <> 0 -> series_sum (regularized_weights lam rs) = 1.
Proof.
  intros Hne Hsum. rewrite regularized_weights_fmap.
  pose proof (size_nonzero rs Hne) as Hn.
  transitivity (series_sum ((fun v => ((1 - lam) / series_sum rs) * v
                                      + lam / INR (size rs)) <$> rs)).
  - f_equal. apply map_fmap_ext. intros p v _. field. split; assumption.
  - rewrite series_sum_affine. field. split; assumption.
Qed.

(** ** The pipeline as a composition of its stages *)

Lemma above_epsilon_lookup (s : RSeries) (p : string) (v : R) :
  above_epsilon s !! p = Some v <-> s !! p = Some v /\ 1e-9 < v.
Proof. unfold above_epsilon. apply map_lookup_filter_Some. Qed.

Lemma responsiveness_of_lookup (improvement : DataFrame) (p : string) (v : R) :
  responsiveness_of improvement !! p = Some v <->
  p ∈ columns improvement /\
  v = fillna 0 (std (defined (column improvement p))) /\ 1e-9 < v.
Proof.
  unfold responsiveness_of, std_filled.
  rewrite above_epsilon_lookup, lookup_tabulate.
  destruct (decide (p ∈ columns improvement)); split.
  - intros [[= <-] Hlt]. done.
  - intros (_ & -> & Hlt). done.
  - intros [[=] _].
  - intros (Hin & _). contradiction.
Qed.

Lemma responsiveness_of_positive (improvement : DataFrame) (p : string) (v : R) :
  responsiveness_of improvement !! p = Some v -> 0 < v.
Proof. intros (_ & _ & Hlt)%responsiveness_of_lookup. lra. Qed.

Lemma responsiveness_of_sum (improvement : DataFrame) :
  responsiveness_of improvement <> ∅ -> 0 < series_sum (responsiveness_of improvement).
Proof.
  intros Hne. apply series_sum_positive; [assumption|].
  intros p v. apply responsiveness_of_positive.
Qed.

Lemma perform_full_hand_analysis_stages
    (sort_values : list (string * cell) -> list (string * cell))
    (data : task_data) (hand baseline : string) (lam : R) :
  perform_full_hand_analysis sort_values data hand baseline lam =
  let summary := aggregate_task_data_by_hand data hand in
  if aborts_early summary baseline then result_without_improvement summary
  else
    let improvement := improvement_of summary baseline in
    let responsiveness := responsiveness_of improvement in
    if bool_decide (responsiveness = ∅)
    then result_without_weights summary improvement responsiveness
    else result_complete sort_values summary improvement responsiveness lam.
Proof.
  unfold perform_full_hand_analysis, aborts_early. cbv zeta.
  generalize (aggregate_task_data_by_hand data hand). intros summary.
  destruct (frame_empty summary || negb (in_index baseline summary)); [reflexivity|].
  rewrite orb_false_l.
  fold (raw_change_of summary baseline).
  destruct (drop_label baseline (index summary)) as [|c on] eqn:Hon.
  - reflexivity.
  - cbv iota. unfold improvement_of.
    pose proof (responsiveness_of_sum
                  (correct_directions parameter_directions (raw_change_of summary baseline)))
      as Hpos.
    unfold responsiveness_of in *.
    revert Hpos.
    generalize (correct_directions parameter_directions (raw_change_of summary baseline)).
    intros improvement.
    generalize (above_epsilon (std_filled improvement)).
    intros responsiveness Hpos.
    destruct (decide (responsiveness = ∅)) as [Hempty|Hne].
    + rewrite !(bool_decide_eq_true_2 _ Hempty). reflexivity.
    + rewrite !(bool_decide_eq_false_2 _ Hne).
      assert (Hsum : series_sum responsiveness <> 0).
      { specialize (Hpos Hne). lra. }
      rewrite (bool_decide_eq_false_2 _ Hsum). reflexivity.
Qed.

(** The three ways a run can end. *)
Lemma perform_full_hand_analysis_cases
    (sort_values : list (string * cell) -> list (string * cell))
    (data : task_data) (hand baseline : string) (lam : R) :
  let summary := aggregate_task_data_by_hand data hand in
  let improvement := improvement_of summary baseline in
  let responsiveness := responsiveness_of improvement in
  let r := perform_full_hand_analysis sort_values data hand baseline lam in
  (aborts_early summary baseline = true /\ r = result_without_improvement summary)
  \/ (aborts_early summary baseline = false /\ responsiveness = ∅ /\
      r = result_without_weights summary improvement responsiveness)
  \/ (aborts_early summary baseline = false /\ responsiveness <> ∅ /\
      r = result_complete sort_values summary improvement responsiveness lam).
Proof.
  cbv zeta. rewrite perform_full_hand_analysis_stages. cbv zeta.
  generalize (aggregate_task_data_by_hand data hand). intros summary.
  destruct (aborts_early summary baseline); [left; done|right].
  generalize (responsiveness_of (improvement_of summary baseline)).
  intros responsiveness.
  destruct (decide (responsiveness = ∅)) as [Hempty|Hne].
  - left. rewrite (bool_decide_eq_true_2 _ Hempty). done.
  - right. rewrite (bool_decide_eq_false_2 _ Hne). done.
Qed.

(** Reading a field of one of the three results. *)
Ltac project :=
  unfold result_complete, result_without_weights, result_without_improvement;
  cbn [summary_df improvement_df responsiveness_scores final_dynamic_weights
       dynamic_scores dynamic_ranking_results ranked_names ranked_scores].

(** ** C1, C6: the regularized weights *)

(** C1.  Whenever the responsiveness vector of a run is not empty, the
    final blended weights [(1 - lambda) * data-driven + lambda * uniform]
    of that run sum to 1, for every lambda in [[0, 1]]. *)
Theorem final_weights_sum_to_one
    (sort_values : list (string * cell) -> list (string * cell))
    (data : task_data) (hand baseline : string) (lam : R) :
  0 <= lam <= 1 ->
  responsiveness_scores (perform_full_hand_analysis sort_values data hand baseline lam) <> ∅ ->
  series_sum (final_dynamic_weights
                (perform_full_hand_analysis sort_values data hand baseline lam)) = 1.
Proof.
  intros _.
  destruct (perform_full_hand_analysis_cases sort_values data hand baseline lam)
    as [[_ ->]|[(_ & Hempty & ->)|(_ & Hne & ->)]]; project.
  - done.
  - intros Hne. contradiction.
  - intros _. apply regularized_weights_sum; [assumption|].
    pose proof (responsiveness_of_sum _ Hne). lra.
Qed.

(** C6.  With lambda = 0 the final weight of each responsive parameter is
    its responsiveness over the total responsiveness; with lambda = 1 it is
    1/k, k being the number of responsive parameters.  In both cases the
    weights are indexed by the responsive parameters. *)
Theorem shrinkage_extremes
    (sort_values : list (string * cell) -> list (string * cell))
    (data : task_data) (hand baseline : string) :
  let at_0 := perform_full_hand_analysis sort_values data hand baseline 0 in
  let at_1 := perform_full_hand_analysis sort_values data hand baseline 1 in
  forall (p : string) (r : R),
    (responsiveness_scores at_0 !! p = Some r ->
     final_dynamic_weights at_0 !! p =
     Some (r / series_sum (responsiveness_scores at_0))) /\
    (responsiveness_scores at_1 !! p = Some r ->
     final_dynamic_weights at_1 !! p =
     Some (1 / INR (size (responsiveness_scores at_1)))).
Proof.
  intros at_0 at_1 p r. split.
  - subst at_0.
    destruct (perform_full_hand_analysis_cases sort_values data hand baseline 0)
      as [[_ ->]|[(_ & Hempty & ->)|(_ & Hne & ->)]]; project.
    + rewrite lookup_empty. done.
    + rewrite Hempty, lookup_empty. done.
    + intros Hp. rewrite regularized_weights_lookup, Hp. cbn [fmap option_fmap option_map]. f_equal. lra.
  - subst at_1.
    destruct (perform_full_hand_analysis_cases sort_values data hand baseline 1)
      as [[_ ->]|[(_ & Hempty & ->)|(_ & Hne & ->)]]; project.
    + rewrite lookup_empty. done.
    + rewrite Hempty, lookup_empty. done.
    + intros Hp. rewrite regularized_weights_lookup, Hp. cbn [fmap option_fmap option_map]. f_equal. lra.
Qed.

(** ** C4: the early exits *)

Lemma in_index_false (label : string) (df : DataFrame) :
  in_index label df = false <-> label ∉ index df.
Proof. unfold in_index. apply bool_decide_eq_false. Qed.

Lemma drop_label_nil (label : string) (labels : list string) :
  drop_label label labels = [] <-> forall c, c ∈ labels -> c = label.
Proof.
  unfold drop_label. induction labels as [|l labels IH]; simpl.
  - split; [|done]. intros _ c Hc. by apply elem_of_nil in Hc.
  - destruct (String.eqb_spec l label) as [->|Hne]; simpl.
    + rewrite IH. split.
      * intros H c [->|Hc]%elem_of_cons; [done|by apply H].
      * intros H c Hc. apply H. by right.
    + split; [done|]. intros H. exfalso. apply Hne, H. by left.
Qed.

Lemma aborts_early_true (summary : DataFrame) (baseline : string) :
  aborts_early summary baseline = true <->
  frame_empty summary = true \/ baseline ∉ index summary
  \/ (forall c, c ∈ index summary -> c = baseline).
Proof.
  unfold aborts_early. rewrite !orb_true_iff, negb_true_iff, in_index_false.
  rewrite <- drop_label_nil.
  destruct (drop_label baseline (index summary)); intuition congruence.
Qed.

(** C4.  When the summary is empty, or the baseline is not in its index,
    or it has no row but the baseline's, the analysis returns the result
    with all six fields, the five later ones empty. *)
Theorem abort_paths_return_empty_shape
    (sort_values : list (string * cell) -> list (string * cell))
    (data : task_data) (hand baseline : string) (lam : R) :
  let summary := aggregate_task_data_by_hand data hand in
  frame_empty summary = true \/ baseline ∉ index summary
  \/ (forall c, c ∈ index summary -> c = baseline) ->
  perform_full_hand_analysis sort_values data hand baseline lam =
  {| summary_df := summary;
     improvement_df := empty_frame;
     responsiveness_scores := ∅;
     final_dynamic_weights := ∅;
     dynamic_scores := [];
     dynamic_ranking_results := {| ranked_names := []; ranked_scores := [] |} |}.
Proof.
  intros summary Habort. apply aborts_early_true in Habort.
  rewrite perform_full_hand_analysis_stages. cbv zeta.
  fold summary. rewrite Habort. reflexivity.
Qed.

(** ** C5: the responsiveness estimator *)

Lemma responsiveness_of_empty_frame : responsiveness_of empty_frame = ∅.
Proof.
  apply map_eq. intros p. rewrite lookup_empty.
  apply eq_None_not_Some. intros [v Hv].
  apply responsiveness_of_lookup in Hv as (Hin & _).
  by apply not_elem_of_empty in Hin.
Qed.

(** The responsiveness vector of a run is the estimator's value on the
    improvement matrix of that run. *)
Lemma responsiveness_scores_run
    (sort_values : list (string * cell) -> list (string * cell))
    (data : task_data) (hand baseline : string) (lam : R) :
  let r := perform_full_hand_analysis sort_values data hand baseline lam in
  responsiveness_scores r = responsiveness_of (improvement_df r).
Proof.
  cbv zeta.
  destruct (perform_full_hand_analysis_cases sort_values data hand baseline lam)
    as [[_ ->]|[(_ & Hempty & ->)|(_ & Hne & ->)]]; project.
  - symmetry. apply responsiveness_of_empty_frame.
  - reflexivity.
  - reflexivity.
Qed.

Lemma sample_deviation_above_epsilon (xs : list R) (v : R) :
  v = fillna 0 (std xs) /\ 1e-9 < v <->
  (2 <= length xs)%nat
  /\ v = sqrt (total (map (fun x => (x - total xs / INR (length xs))
                                   * (x - total xs / INR (length xs))) xs)
               / (INR (length xs) - 1))
  /\ 1e-9 < v.
Proof.
  destruct xs as [|a [|b xs]].
  - cbn [std fillna length]. split; [intros [-> Hlt]; lra|intros [Hlen _]; lia].
  - cbn [std fillna length]. split; [intros [-> Hlt]; lra|intros [Hlen _]; lia].
  - assert (Hstd : std (a :: b :: xs)
                   = Num (sqrt (total (map (fun x =>
                                              (x - total (a :: b :: xs)
                                                   / INR (length (a :: b :: xs)))
                                              * (x - total (a :: b :: xs)
                                                     / INR (length (a :: b :: xs))))
                                           (a :: b :: xs))
                                / (INR (length (a :: b :: xs)) - 1)))).
    { unfold std. cbv zeta. do 3 f_equal. f_equal. apply map_ext. intros x. ring. }
    rewrite Hstd. cbn [fillna]. split.
    + intros [-> Hlt]. split; [cbn [length]; lia|]. by split.
    + intros (_ & -> & Hlt). by split.
Qed.

(** C5.  The responsiveness vector holds a parameter exactly when it is a
    column of the improvement matrix with at least two defined cells whose
    sample standard deviation exceeds 1e-9, and it holds that deviation:
    with [xs] the defined cells of the column (the undefined ones are left
    out, not counted as zero), [n] their number and [avg] their mean, the
    square root of the sum of the [(x - avg)^2] over [n - 1].  A column with
    fewer than two defined cells has no deviation; 0 is put in its place and
    does not pass the threshold.  When the vector is empty or sums to zero,
    the weights, the scores and the ranking stay empty. *)
Theorem responsiveness_estimator
    (sort_values : list (string * cell) -> list (string * cell))
    (data : task_data) (hand baseline : string) (lam : R) :
  let r := perform_full_hand_analysis sort_values data hand baseline lam in
  (forall (p : string) (v : R),
      responsiveness_scores r !! p = Some v <->
      p ∈ columns (improvement_df r) /\
      let xs := defined (column (improvement_df r) p) in
      let n := INR (length xs) in
      let avg := total xs / n in
      (2 <= length xs)%nat /\
      v = sqrt (total (map (fun x => (x - avg) * (x - avg)) xs) / (n - 1)) /\
      1e-9 < v)
  /\ (responsiveness_scores r = ∅ \/ series_sum (responsiveness_scores r) = 0 ->
      final_dynamic_weights r = ∅ /\ dynamic_scores r = [] /\
      dynamic_ranking_results r = {| ranked_names := []; ranked_scores := [] |}).
Proof.
  intros r. split.
  - intros p v. subst r. rewrite responsiveness_scores_run.
    rewrite responsiveness_of_lookup. cbv zeta.
    by rewrite sample_deviation_above_epsilon.
  - subst r.
    destruct (perform_full_hand_analysis_cases sort_values data hand baseline lam)
      as [[_ ->]|[(_ & Hempty & ->)|(_ & Hne & ->)]]; project; [done|done|].
    pose proof (responsiveness_of_sum _ Hne) as Hpos.
    intros [Hempty|Hzero]; [contradiction|lra].
Qed.

(** ** Running the pipeline on given data *)

Lemma sqrt_above_epsilon (v : R) : 1 <= v -> 1e-9 < sqrt v.
Proof.
  intros Hv. apply Rlt_le_trans with 1; [lra|].
  rewrite <- sqrt_1. apply sqrt_le_1_alt. assumption.
Qed.

(** After [vm_compute] on both sides of an equation between lists of
    cells: what is left is equations between closed real expressions. *)
Ltac real_leaves :=
  lazymatch goal with
  | |- @eq R _ _ => lra
  | |- _ => first [reflexivity | f_equal; real_leaves]
  end.

Section Run.

Variable sort_values : list (string * cell) -> list (string * cell).
Variables (data : task_data) (hand baseline : string) (lam : R).

Let summary := aggregate_task_data_by_hand data hand.
Let improvement := improvement_of summary baseline.
Let r := perform_full_hand_analysis sort_values data hand baseline lam.

Hypothesis not_aborted : aborts_early summary baseline = false.

Lemma run_improvement : improvement_df r = improvement.
Proof.
  subst r.
  destruct (perform_full_hand_analysis_cases sort_values data hand baseline lam)
    as [[Hab _]|[(_ & _ & ->)|(_ & _ & ->)]]; [|reflexivity..].
  subst summary. congruence.
Qed.

Lemma run_summary : summary_df r = summary.
Proof.
  subst r.
  destruct (perform_full_hand_analysis_cases sort_values data hand baseline lam)
    as [[_ ->]|[(_ & _ & ->)|(_ & _ & ->)]]; reflexivity.
Qed.

Lemma run_responsiveness : responsiveness_scores r = responsiveness_of improvement.
Proof.
  pose proof (responsiveness_scores_run sort_values data hand baseline lam) as Hrun.
  cbv zeta in Hrun. fold r in Hrun. rewrite Hrun. by rewrite run_improvement.
Qed.

(** A column whose deviation exceeds the threshold is responsive. *)
Lemma run_responsive (p : string) :
  p ∈ columns improvement ->
  1e-9 < fillna 0 (std (defined (column improvement p))) ->
  responsiveness_scores r !! p =
  Some (fillna 0 (std (defined (column improvement p)))).
Proof.
  intros Hin Hlt. rewrite run_responsiveness.
  apply responsiveness_of_lookup. done.
Qed.

Lemma run_complete :
  responsiveness_of improvement <> ∅ ->
  r = result_complete sort_values summary improvement
        (responsiveness_of improvement) lam.
Proof.
  intros Hne. subst r.
  destruct (perform_full_hand_analysis_cases sort_values data hand baseline lam)
    as [[Hab _]|[(_ & Hempty & _)|(_ & _ & ->)]]; [| |reflexivity].
  - subst summary. congruence.
  - contradiction.
Qed.

End Run.

(** *** Scenario B *)

Lemma scenario_b_not_aborted :
  aborts_early (aggregate_task_data_by_hand scenario_b "Right") baseline_name = false.
Proof. vm_compute. reflexivity. Qed.

Lemma scenario_b_column :
  column (improvement_of (aggregate_task_data_by_hand scenario_b "Right") baseline_name)
         "StdSpeed"
  = [Num 2; Num (-1)].
Proof. vm_compute. real_leaves. Qed.

Lemma scenario_b_in_columns :
  "StdSpeed" ∈ columns (improvement_of (aggregate_task_data_by_hand scenario_b "Right")
                                        baseline_name).
Proof. vm_compute. reflexivity. Qed.

Lemma scenario_b_deviation :
  1e-9 < fillna 0 (std (defined (column
           (improvement_of (aggregate_task_data_by_hand scenario_b "Right") baseline_name)
           "StdSpeed"))).
Proof.
  rewrite scenario_b_column. cbn [defined omap list_omap std fillna total length map fold_right INR].
  apply sqrt_above_epsilon. lra.
Qed.

Lemma scenario_b_responsive
    (sort_values : list (string * cell) -> list (string * cell)) (lam : R) :
  is_Some (responsiveness_scores
             (perform_full_hand_analysis sort_values scenario_b "Right" baseline_name lam)
           !! "StdSpeed").
Proof.
  eexists. apply run_responsive.
  - apply scenario_b_not_aborted.
  - apply scenario_b_in_columns.
  - apply scenario_b_deviation.
Qed.

Lemma final_weights_sum_to_one_witness :
  series_sum (final_dynamic_weights
                (perform_full_hand_analysis stable_sort_values scenario_b "Right"
                   baseline_name default_shrinkage_lambda)) = 1.
Proof.
  apply final_weights_sum_to_one.
  - unfold default_shrinkage_lambda. lra.
  - intros Hempty.
    destruct (scenario_b_responsive stable_sort_values default_shrinkage_lambda) as [v Hv].
    rewrite Hempty, lookup_empty in Hv. discriminate.
Defined.

Lemma shrinkage_extremes_witness :
  let r := fillna 0 (std (defined (column
             (improvement_of (aggregate_task_data_by_hand scenario_b "Right") baseline_name)
             "StdSpeed"))) in
  let at_0 := perform_full_hand_analysis stable_sort_values scenario_b "Right" baseline_name 0 in
  let at_1 := perform_full_hand_analysis stable_sort_values scenario_b "Right" baseline_name 1 in
  final_dynamic_weights at_0 !! "StdSpeed" = Some (r / series_sum (responsiveness_scores at_0))
  /\ final_dynamic_weights at_1 !! "StdSpeed" = Some (1 / INR (size (responsiveness_scores at_1))).
Proof.
  intros r at_0 at_1.
  destruct (shrinkage_extremes stable_sort_values scenario_b "Right" baseline_name
              "StdSpeed" r) as [H0 H1].
  split; [apply H0 | apply H1];
    (apply run_responsive;
     [ apply scenario_b_not_aborted
     | apply scenario_b_in_columns
     | apply scenario_b_deviation ]).
Defined.

(** *** A baseline that was not recorded *)

Lemma abort_paths_return_empty_shape_witness :
  perform_full_hand_analysis stable_sort_values scenario_b "Right" "Med On - DBS Off"
    default_shrinkage_lambda =
  {| summary_df := aggregate_task_data_by_hand scenario_b "Right";
     improvement_df := empty_frame;
     responsiveness_scores := ∅;
     final_dynamic_weights := ∅;
     dynamic_scores := [];
     dynamic_ranking_results := {| ranked_names := []; ranked_scores := [] |} |}.
Proof.
  apply abort_paths_return_empty_shape.
  right. left. apply in_index_false. vm_compute. reflexivity.
Defined.

(** *** Scenario A *)

Lemma scenario_a_not_aborted :
  aborts_early (aggregate_task_data_by_hand scenario_a "Right") baseline_name = false.
Proof. vm_compute. reflexivity. Qed.

Lemma scenario_a_columns :
  columns (improvement_of (aggregate_task_data_by_hand scenario_a "Right") baseline_name)
  = {[ "MeanSpeed" ]}.
Proof. vm_compute. reflexivity. Qed.

Lemma scenario_a_column :
  column (improvement_of (aggregate_task_data_by_hand scenario_a "Right") baseline_name)
         "MeanSpeed"
  = [Num 3].
Proof. vm_compute. real_leaves. Qed.

(** The one improvement value has no deviation: nothing is responsive. *)
Lemma scenario_a_unresponsive :
  responsiveness_of
    (improvement_of (aggregate_task_data_by_hand scenario_a "Right") baseline_name) = ∅.
Proof.
  apply map_eq. intros p. rewrite lookup_empty.
  apply eq_None_not_Some. intros [v Hv].
  apply responsiveness_of_lookup in Hv as (Hin & Hv & Hlt).
  rewrite scenario_a_columns in Hin. apply elem_of_singleton in Hin. subst p.
  rewrite scenario_a_column in Hv. cbn [defined omap list_omap std fillna] in Hv.
  lra.
Qed.

(** Scenario A ends on the exit for want of a responsive parameter, with
    the improvement of +3 recorded. *)
Lemma scenario_a_result :
  perform_full_hand_analysis stable_sort_values scenario_a "Right" baseline_name
    default_shrinkage_lambda =
  result_without_weights
    (aggregate_task_data_by_hand scenario_a "Right")
    (improvement_of (aggregate_task_data_by_hand scenario_a "Right") baseline_name)
    ∅.
Proof.
  destruct (perform_full_hand_analysis_cases stable_sort_values scenario_a "Right"
              baseline_name default_shrinkage_lambda)
    as [[Hab _]|[(_ & Hempty & ->)|(_ & Hne & _)]].
  - rewrite scenario_a_not_aborted in Hab. discriminate.
  - rewrite Hempty. reflexivity.
  - destruct Hne. apply scenario_a_unresponsive.
Qed.

(** ** C2: the improvement calculator *)

Lemma dict_get_None {A} (k : string) (d : pydict A) :
  k ∉ map fst d -> dict_get k d = None.
Proof.
  induction d as [|[k' v] d IH]; [reflexivity|].
  intros Hnotin. cbn [dict_get].
  destruct (String.eqb_spec k' k) as [->|Hne].
  - exfalso. apply Hnotin. cbn. by left.
  - apply IH. intros Hin. apply Hnotin. cbn. by right.
Qed.

Lemma loc_rows_is_Some (label : string) (rs : list (string * Series)) :
  label ∈ map fst rs -> is_Some (loc_rows label rs).
Proof.
  induction rs as [|[l r] rs IH]; cbn [map fst loc_rows].
  - intros H. by apply elem_of_nil in H.
  - intros [->|Hin]%elem_of_cons.
    + rewrite String.eqb_refl. by eexists.
    + destruct (String.eqb l label); [by eexists | by apply IH].
Qed.

Lemma cell_at_alter (f : cell -> cell) (p q : string) (row : Series) :
  f NaN = NaN ->
  cell_at (alter f p row) q = if decide (p = q) then f (cell_at row q) else cell_at row q.
Proof.
  intros Hnan. unfold cell_at. destruct (decide (p = q)) as [->|Hne].
  - rewrite lookup_alter_eq. destruct (row !! q); cbn; congruence.
  - rewrite lookup_alter_ne by assumption. reflexivity.
Qed.

Lemma correct_directions_cons (item : string * string) (directions : pydict string)
    (df : DataFrame) :
  correct_directions (item :: directions) df =
  correct_directions directions
    (if bool_decide (item.1 ∈ columns df) && String.eqb item.2 "lower"
     then scale_column item.1 (-1) df else df).
Proof. reflexivity. Qed.

Lemma correct_row_cons (item : string * string) (directions : pydict string)
    (cols : gset string) (row : Series) :
  correct_row (item :: directions) cols row =
  correct_row directions cols
    (if bool_decide (item.1 ∈ cols) && String.eqb item.2 "lower"
     then alter (fun c => cell_mul c (Num (-1))) item.1 row else row).
Proof. reflexivity. Qed.

Lemma correct_directions_rows (directions : pydict string) (df : DataFrame) :
  correct_directions directions df =
  {| columns := columns df;
     rows := map (fun r => (r.1, correct_row directions (columns df) r.2)) (rows df) |}.
Proof.
  revert df. induction directions as [|item directions IH]; intros df.
  - destruct df as [cols rs]. cbn [correct_directions correct_row fold_left columns rows].
    f_equal. induction rs as [|[l r] rs IHrs]; cbn; [reflexivity|]. by rewrite <- IHrs.
  - rewrite correct_directions_cons, IH.
    destruct (bool_decide (item.1 ∈ columns df) && String.eqb item.2 "lower") eqn:Hcond.
    + unfold scale_column. cbn [columns rows]. f_equal. rewrite map_map.
      apply map_ext. intros [l r]. cbn [fst snd].
      by rewrite correct_row_cons, Hcond.
    + f_equal. apply map_ext. intros [l r]. cbn [fst snd].
      by rewrite correct_row_cons, Hcond.
Qed.

Lemma cell_at_correct_row (directions : pydict string) (cols : gset string)
    (row : Series) (p : string) :
  NoDup (map fst directions) ->
  cell_at (correct_row directions cols row) p =
  if bool_decide (p ∈ cols) && marked_lower directions p
  then cell_mul (cell_at row p) (Num (-1))
  else cell_at row p.
Proof.
  unfold marked_lower.
  revert row. induction directions as [|[k d] directions IH]; intros row Hnodup.
  - cbn. by rewrite andb_false_r.
  - apply NoDup_cons in Hnodup as [Hfresh Hnodup].
    rewrite correct_row_cons, IH by assumption. cbn [dict_get fst snd].
    destruct (String.eqb_spec k p) as [->|Hne].
    + rewrite (dict_get_None p directions Hfresh), andb_false_r.
      destruct (bool_decide (p ∈ cols) && String.eqb d "lower"); [|reflexivity].
      rewrite cell_at_alter by reflexivity.
      destruct (decide (p = p)); [reflexivity|contradiction].
    + assert (Hsame : cell_at
                (if bool_decide (k ∈ cols) && String.eqb d "lower"
                 then alter (fun c => cell_mul c (Num (-1))) k row else row) p
              = cell_at row p).
      { destruct (bool_decide (k ∈ cols) && String.eqb d "lower"); [|reflexivity].
        rewrite cell_at_alter by reflexivity.
        destruct (decide (k = p)); [contradiction|reflexivity]. }
      rewrite Hsame. reflexivity.
Qed.

Lemma parameter_directions_NoDup : NoDup (map fst parameter_directions).
Proof. compute_done. Qed.

Lemma improvement_of_columns (summary : DataFrame) (baseline : string) :
  columns (improvement_of summary baseline) = columns summary.
Proof.
  unfold improvement_of. rewrite correct_directions_rows.
  reflexivity.
Qed.

Lemma elem_of_drop_label (c label : string) (labels : list string) :
  c ∈ drop_label label labels <-> c ∈ labels /\ c <> label.
Proof.
  unfold drop_label. rewrite !list_elem_of_In, filter_In, negb_true_iff.
  destruct (String.eqb_spec c label); intuition congruence.
Qed.

(** The cells of the corrected difference to the baseline row, for any
    direction table. *)
Lemma corrected_cell (directions : pydict string) (summary : DataFrame)
    (baseline c : string) (row : Series) :
  NoDup (map fst directions) ->
  (c, row) ∈ rows (correct_directions directions (raw_change_of summary baseline)) ->
  in_index baseline summary = true ->
  exists on_row base_row : Series,
    c <> baseline /\ loc summary c = Some on_row /\ loc summary baseline = Some base_row /\
    forall p, p ∈ columns summary ->
      cell_at row p =
      if marked_lower directions p
      then cell_mul (cell_sub (cell_at on_row p) (cell_at base_row p)) (Num (-1))
      else cell_sub (cell_at on_row p) (cell_at base_row p).
Proof.
  intros Hnodup Hin Hbase. rewrite correct_directions_rows in Hin.
  unfold raw_change_of, subtract, reindex in Hin. cbn [columns rows] in Hin.
  rewrite !map_map in Hin. cbn [fst snd] in Hin.
  apply list_elem_of_In, in_map_iff in Hin as (l & Heq & Hl).
  apply list_elem_of_In, elem_of_drop_label in Hl as [Hl Hne].
  pose proof (f_equal fst Heq) as Hc. pose proof (f_equal snd Heq) as Hrow.
  cbn [fst snd] in Hc, Hrow. clear Heq. subst l row.
  destruct (loc_rows_is_Some c (rows summary) Hl) as [on_row Hon].
  apply bool_decide_eq_true in Hbase.
  destruct (loc_rows_is_Some baseline (rows summary) Hbase) as [base_row Hb].
  exists on_row, base_row. repeat split; try assumption.
  intros p Hp. unfold loc. rewrite Hon, Hb. cbn [default].
  rewrite (cell_at_correct_row _ _ _ _ Hnodup).
  rewrite (bool_decide_eq_true_2 _ Hp), andb_true_l.
  rewrite cell_at_tabulate by assumption. reflexivity.
Qed.

Lemma improvement_of_cell (summary : DataFrame) (baseline c : string) (row : Series) :
  (c, row) ∈ rows (improvement_of summary baseline) ->
  in_index baseline summary = true ->
  exists on_row base_row : Series,
    c <> baseline /\ loc summary c = Some on_row /\ loc summary baseline = Some base_row /\
    forall p, p ∈ columns summary ->
      cell_at row p =
      if lower_is_better p
      then cell_mul (cell_sub (cell_at on_row p) (cell_at base_row p)) (Num (-1))
      else cell_sub (cell_at on_row p) (cell_at base_row p).
Proof.
  unfold improvement_of, lower_is_better.
  apply corrected_cell. apply parameter_directions_NoDup.
Qed.

Lemma marked_lower_value (directions : pydict string) (p direction : string) :
  dict_get p directions = Some direction ->
  marked_lower directions p = String.eqb direction "lower".
Proof. unfold marked_lower. by intros ->. Qed.

Lemma lower_is_better_lower (p : string) :
  dict_get p parameter_directions = Some "lower" -> lower_is_better p = true.
Proof. apply marked_lower_value. Qed.

Lemma lower_is_better_higher (p : string) :
  dict_get p parameter_directions = Some "higher" -> lower_is_better p = false.
Proof. apply marked_lower_value. Qed.

Lemma lower_is_better_absent (p : string) :
  dict_get p parameter_directions = None -> lower_is_better p = false.
Proof. unfold lower_is_better, marked_lower. by intros ->. Qed.

Lemma aborts_early_false (summary : DataFrame) (baseline : string) :
  aborts_early summary baseline = false ->
  frame_empty summary = false /\ in_index baseline summary = true.
Proof.
  unfold aborts_early. intros H.
  apply orb_false_iff in H as [H _]. apply orb_false_iff in H as [H1 H2].
  split; [assumption|]. by apply negb_false_iff.
Qed.

(** C2.  Each row of the improvement matrix belongs to a condition other
    than the baseline, and each of its cells is the difference "condition
    row minus baseline row" of the summary, times -1 when the parameter is
    marked "lower" in the direction table, unchanged when it is marked
    "higher" or is not in the table.  Hence a decrease of a "lower"
    parameter and an increase of a "higher" parameter are both positive
    improvements. *)
Theorem improvement_direction_corrected
    (sort_values : list (string * cell) -> list (string * cell))
    (data : task_data) (hand baseline : string) (lam : R) :
  let r := perform_full_hand_analysis sort_values data hand baseline lam in
  forall (c : string) (row : Series),
    (c, row) ∈ rows (improvement_df r) ->
    exists on_row base_row : Series,
      c <> baseline /\
      loc (summary_df r) c = Some on_row /\
      loc (summary_df r) baseline = Some base_row /\
      forall p, p ∈ columns (summary_df r) ->
        let raw := cell_sub (cell_at on_row p) (cell_at base_row p) in
        (dict_get p parameter_directions = Some "lower" ->
         cell_at row p = cell_mul raw (Num (-1))) /\
        (dict_get p parameter_directions = Some "higher" -> cell_at row p = raw) /\
        (dict_get p parameter_directions = None -> cell_at row p = raw) /\
        forall x b : R,
          cell_at on_row p = Num x -> cell_at base_row p = Num b ->
          (dict_get p parameter_directions = Some "lower" -> x < b ->
           exists v, cell_at row p = Num v /\ 0 < v) /\
          (dict_get p parameter_directions = Some "higher" -> b < x ->
           exists v, cell_at row p = Num v /\ 0 < v).
Proof.
  intros r c row Hin.
  assert (Hrun : aborts_early (aggregate_task_data_by_hand data hand) baseline = false).
  { subst r.
    destruct (perform_full_hand_analysis_cases sort_values data hand baseline lam)
      as [[_ Heq]|[(Hab & _)|(Hab & _)]]; [|assumption..].
    rewrite Heq in Hin. by apply elem_of_nil in Hin. }
  subst r.
  rewrite (run_improvement _ _ _ _ _ Hrun) in Hin.
  rewrite (run_summary sort_values data hand baseline lam).
  apply aborts_early_false in Hrun as [_ Hbase].
  destruct (improvement_of_cell _ _ _ _ Hin Hbase)
    as (on_row & base_row & Hne & Hon & Hb & Hcell).
  exists on_row, base_row. repeat split; try assumption.
  - intros Hdir. rewrite (Hcell p H). by rewrite (lower_is_better_lower p Hdir).
  - intros Hdir. rewrite (Hcell p H). by rewrite (lower_is_better_higher p Hdir).
  - intros Hdir. rewrite (Hcell p H). by rewrite (lower_is_better_absent p Hdir).
  - intros Hdir Hlt. rewrite (Hcell p H), (lower_is_better_lower p Hdir), H0, H1.
    cbn [cell_sub cell_mul]. eexists. split; [reflexivity|lra].
  - intros Hdir Hlt. rewrite (Hcell p H), (lower_is_better_higher p Hdir), H0, H1.
    cbn [cell_sub cell_mul]. eexists. split; [reflexivity|lra].
Qed.

Lemma scenario_b_summary_cells :
  cell_at (default ∅ (loc (aggregate_task_data_by_hand scenario_b "Right") program_1))
          "StdSpeed" = Num 3
  /\ cell_at (default ∅ (loc (aggregate_task_data_by_hand scenario_b "Right") baseline_name))
             "StdSpeed" = Num 5.
Proof. split; vm_compute; real_leaves. Qed.

Lemma scenario_b_first_row :
  (program_1,
   default ∅ (loc (improvement_of (aggregate_task_data_by_hand scenario_b "Right")
                                  baseline_name) program_1))
  ∈ rows (improvement_of (aggregate_task_data_by_hand scenario_b "Right") baseline_name).
Proof. vm_compute. constructor. Qed.

Lemma improvement_direction_corrected_witness :
  exists (row : Series) (v : R),
    (program_1, row)
    ∈ rows (improvement_df
              (perform_full_hand_analysis stable_sort_values scenario_b "Right"
                 baseline_name default_shrinkage_lambda))
    /\ cell_at row "StdSpeed" = Num v /\ 0 < v.
Proof.
  pose (row := default ∅ (loc (improvement_of (aggregate_task_data_by_hand scenario_b "Right")
                                              baseline_name) program_1)).
  assert (Hin : (program_1, row)
                ∈ rows (improvement_df
                          (perform_full_hand_analysis stable_sort_values scenario_b "Right"
                             baseline_name default_shrinkage_lambda))).
  { rewrite (run_improvement _ _ _ _ _ scenario_b_not_aborted).
    apply scenario_b_first_row. }
  destruct (improvement_direction_corrected stable_sort_values scenario_b "Right"
              baseline_name default_shrinkage_lambda program_1 row Hin)
    as (on_row & base_row & _ & Hon & Hb & Hcells).
  rewrite run_summary in Hon, Hb, Hcells.
  destruct scenario_b_summary_cells as [Hx Hy].
  rewrite Hon in Hx. rewrite Hb in Hy. cbn [default] in Hx, Hy.
  assert (Hcol : "StdSpeed" ∈ columns (aggregate_task_data_by_hand scenario_b "Right")).
  { rewrite <- (improvement_of_columns _ baseline_name). apply scenario_b_in_columns. }
  destruct (Hcells "StdSpeed" Hcol) as (_ & _ & _ & Hsign).
  destruct (Hsign 3 5 Hx Hy) as [Hlower _].
  destruct Hlower as (v & Hv & Hpos).
  - vm_compute. reflexivity.
  - lra.
  - exists row, v. split; [exact Hin | split; [exact Hv | exact Hpos]].
Defined.

(** ** Sorting the labels *)

Section Sorted_by_key.

Variable key : string -> Z.

Let key_le (a b : string) : Prop := (key a <= key b)%Z.

Lemma insert_by_key_permutation (x : string) (l : list string) :
  Permutation (insert_by_key key x l) (x :: l).
Proof.
  induction l as [|y l IH]; cbn [insert_by_key]; [reflexivity|].
  destruct (key x <=? key y)%Z; [reflexivity|].
  rewrite IH. apply perm_swap.
Qed.

Lemma sorted_permutation (l : list string) : Permutation (sorted key l) l.
Proof.
  induction l as [|x l IH]; cbn [sorted fold_right]; [reflexivity|].
  fold (sorted key l). rewrite insert_by_key_permutation. by rewrite IH.
Qed.

Lemma insert_by_key_sorted (x : string) (l : list string) :
  StronglySorted key_le l -> StronglySorted key_le (insert_by_key key x l).
Proof.
  induction 1 as [|y l Hsorted IH Hall]; cbn [insert_by_key].
  - repeat constructor.
  - destruct (Z.leb_spec (key x) (key y)) as [Hle|Hgt].
    + constructor; [by constructor|].
      constructor; [exact Hle|].
      eapply Forall_impl; [exact Hall|]. intros z Hz. unfold key_le in *. lia.
    + constructor; [exact IH|].
      eapply Permutation_Forall; [symmetry; apply insert_by_key_permutation|].
      constructor; [unfold key_le; lia | exact Hall].
Qed.

Lemma sorted_is_sorted (l : list string) : StronglySorted key_le (sorted key l).
Proof.
  induction l as [|x l IH]; cbn [sorted fold_right]; [constructor|].
  by apply insert_by_key_sorted.
Qed.

End Sorted_by_key.

Lemma Forall_list_filter {A} (P : A -> Prop) (f : A -> bool) (l : list A) :
  Forall P l -> Forall P (List.filter f l).
Proof.
  induction 1 as [|x l Hx Hl IH]; cbn [List.filter]; [constructor|].
  destruct (f x); [by constructor | exact IH].
Qed.

Lemma StronglySorted_filter {A} (rel : A -> A -> Prop) (f : A -> bool) (l : list A) :
  StronglySorted rel l -> StronglySorted rel (List.filter f l).
Proof.
  induction 1 as [|x l Hsorted IH Hall]; cbn [List.filter]; [constructor|].
  destruct (f x); [|exact IH].
  constructor; [exact IH|]. by apply Forall_list_filter.
Qed.

(** ** C7, C8, C9: the trial aggregator *)

Lemma defined_nil_iff (cs : list cell) :
  defined cs = [] <-> forall c, c ∈ cs -> c = NaN.
Proof.
  unfold defined. induction cs as [|c cs IH]; cbn [omap list_omap].
  - split; [|done]. intros _ c Hc. by apply elem_of_nil in Hc.
  - destruct c as [x|].
    + split; [done|]. intros H. specialize (H (Num x)). discriminate H. by left.
    + fold (omap (fun c => match c with Num x => Some x | NaN => None end) cs).
      rewrite IH. split.
      * intros H c [->|Hc]%elem_of_cons; [done|by apply H].
      * intros H c Hc. apply H. by right.
Qed.

Lemma elem_of_union_list_map {A} (f : A -> gset string) (l : list A) (p : string) :
  p ∈ ⋃ (map f l) <-> exists a, a ∈ l /\ p ∈ f a.
Proof.
  rewrite elem_of_union_list. split.
  - intros (X & HX & Hp). apply list_elem_of_In, in_map_iff in HX as (a & <- & Ha).
    exists a. by rewrite list_elem_of_In.
  - intros (a & Ha & Hp). exists (f a). split; [|done].
    apply list_elem_of_In, in_map. by apply list_elem_of_In.
Qed.

Lemma cell_at_absent (s : Series) (p : string) : p ∉ dom s -> cell_at s p = NaN.
Proof. intros H%not_elem_of_dom. unfold cell_at. by rewrite H. Qed.

(** A cell of the mean over the trials, under any label. *)
Lemma cell_at_concat_mean (series_list : list Series) (p : string) :
  cell_at (concat_mean series_list) p =
  mean (defined (map (fun s => cell_at s p) series_list)).
Proof.
  unfold concat_mean, cell_at at 1. rewrite lookup_tabulate.
  destruct (decide (p ∈ ⋃ (map dom series_list))) as [Hin|Hnotin]; [reflexivity|].
  cbn [default].
  assert (Hnil : defined (map (fun s => cell_at s p) series_list) = []).
  { apply defined_nil_iff. intros c Hc.
    apply list_elem_of_In, in_map_iff in Hc as (s & <- & Hs).
    apply cell_at_absent. intros Hp. apply Hnotin.
    apply elem_of_union_list_map. exists s. by rewrite list_elem_of_In. }
  by rewrite Hnil.
Qed.

Lemma dom_concat_mean (series_list : list Series) :
  dom (concat_mean series_list) = ⋃ (map dom series_list).
Proof. unfold concat_mean. apply dom_tabulate. Qed.

Lemma cell_at_reindex_series (labels : gset string) (s : Series) (p : string) :
  dom s ⊆ labels -> cell_at (reindex_series labels s) p = cell_at s p.
Proof.
  intros Hsub. unfold reindex_series, cell_at at 1. rewrite lookup_tabulate.
  destruct (decide (p ∈ labels)) as [Hin|Hnotin]; [reflexivity|].
  cbn [default]. symmetry. apply cell_at_absent. set_solver.
Qed.

Lemma present_values_series (trials : list trial) (p : string) :
  defined (map (fun s => cell_at s p) (series_of_trials trials)) = present_values trials p.
Proof.
  unfold defined, series_of_trials, present_values.
  induction trials as [|[values|] trials IH]; cbn [omap list_omap map]; [reflexivity| |exact IH].
  cbn [omap list_omap]. unfold cell_at at 1. rewrite lookup_fmap.
  destruct (values !! p) as [[x|text]|]; cbn [fmap option_fmap option_map default to_numeric].
  - f_equal. exact IH.
  - exact IH.
  - exact IH.
Qed.

(** *** The dict built by the outer loop *)

Lemma dict_set_fresh {A} (k : string) (v : A) (d : pydict A) :
  k ∉ map fst d -> dict_set k v d = (d ++ [(k, v)])%list.
Proof.
  induction d as [|[k' v'] d IH]; [reflexivity|].
  intros Hfresh. cbn [dict_set app].
  destruct (String.eqb_spec k' k) as [->|Hne].
  - exfalso. apply Hfresh. cbn. by left.
  - f_equal. apply IH. intros Hin. apply Hfresh. cbn. by right.
Qed.

Lemma fold_store_condition (hand : string) (items : pydict hand_entry) (acc : pydict Series) :
  NoDup (map fst acc ++ map fst items)%list ->
  fold_left (store_condition hand) items acc = (acc ++ omap (stored hand) items)%list.
Proof.
  revert acc. induction items as [|[k e] items IH]; intros acc Hnodup.
  - cbn. by rewrite app_nil_r.
  - cbn [fold_left omap list_omap]. unfold store_condition at 2, stored at 1. cbn [fst snd].
    cbn [map fst] in Hnodup.
    destruct (aggregate_condition hand e) as [s|].
    + assert (Hfresh : k ∉ map fst acc).
      { intros Hin. apply NoDup_app in Hnodup as (_ & Hdisj & _).
        apply (Hdisj k Hin). by left. }
      rewrite (dict_set_fresh _ _ _ Hfresh), IH.
      * by rewrite <- app_assoc.
      * rewrite map_app. cbn [map fst]. rewrite <- app_assoc. exact Hnodup.
    + apply IH. apply NoDup_app in Hnodup as (Hacc & Hdisj & Hitems).
      apply NoDup_cons in Hitems as [_ Hitems].
      apply NoDup_app. repeat split; [assumption| |assumption].
      intros x Hx Hin. apply (Hdisj x Hx). by right.
Qed.

Lemma aggregate_items_nodup (hand : string) (items : pydict hand_entry) :
  NoDup (map fst items) -> aggregate_items hand items = omap (stored hand) items.
Proof. intros Hnodup. unfold aggregate_items. by rewrite fold_store_condition. Qed.

Lemma stored_keys_sublist (hand : string) (items : pydict hand_entry) :
  sublist (map fst (omap (stored hand) items)) (map fst items).
Proof.
  induction items as [|[k e] items IH]; cbn [omap list_omap map fst]; [constructor|].
  unfold stored at 1. cbn [fst snd].
  destruct (aggregate_condition hand e); cbn [map fst].
  - by constructor.
  - by constructor.
Qed.

Lemma dict_get_In {A} (k : string) (v : A) (d : pydict A) :
  NoDup (map fst d) -> (k, v) ∈ d -> dict_get k d = Some v.
Proof.
  induction d as [|[k' v'] d IH]; intros Hnodup Hin.
  - by apply elem_of_nil in Hin.
  - cbn [map fst] in Hnodup. apply NoDup_cons in Hnodup as [Hfresh Hnodup].
    cbn [dict_get]. apply elem_of_cons in Hin as [Heq|Hin].
    + injection Heq as <- <-. by rewrite String.eqb_refl.
    + destruct (String.eqb_spec k' k) as [->|Hne]; [|by apply IH].
      exfalso. apply Hfresh.
      apply list_elem_of_In, in_map_iff. exists (k, v). by rewrite <- list_elem_of_In.
Qed.

Lemma loc_rows_map (f : Series -> Series) (label : string) (d : pydict Series) :
  loc_rows label (map (fun kv => (kv.1, f kv.2)) d) = f <$> dict_get label d.
Proof.
  induction d as [|[k v] d IH]; [reflexivity|].
  cbn [map loc_rows dict_get fst snd].
  destruct (String.eqb k label); [reflexivity|exact IH].
Qed.

(** *** The rows of the summary *)

Lemma aggregate_task_data_by_hand_rows (items : pydict hand_entry) (hand : string) :
  let aggregated_data := aggregate_items hand items in
  let cols : gset string := ⋃ (map (fun kv => dom kv.2) aggregated_data) in
  rows (aggregate_task_data_by_hand (TaskDict items) hand) =
  List.filter (fun r => negb (all_nan r.2))
    (map (fun l => (l, default (tabulate cols (fun _ => NaN))
                         (reindex_series cols <$> dict_get l aggregated_data)))
         (sorted sort_condition_key (map fst aggregated_data))).
Proof.
  cbv zeta. unfold aggregate_task_data_by_hand.
  generalize (aggregate_items hand items). intros agg.
  destruct agg as [|kv agg]; [reflexivity|].
  generalize (kv :: agg). clear kv agg. intros agg.
  unfold dropna_all, reindex, frame_of_dict, index, loc. cbn [rows columns].
  rewrite map_map. cbn [fst]. f_equal. apply map_ext. intros l.
  by rewrite loc_rows_map.
Qed.

Lemma labels_of_kept_rows (row_of : string -> Series) (labels : list string) :
  map fst (List.filter (fun r => negb (all_nan r.2)) (map (fun l => (l, row_of l)) labels))
  = List.filter (fun l => negb (all_nan (row_of l))) labels.
Proof.
  induction labels as [|l labels IH]; [reflexivity|].
  cbn [map List.filter snd]. destruct (negb (all_nan (row_of l))); cbn [map fst]; by rewrite IH.
Qed.

Lemma aggregate_task_data_by_hand_index (items : pydict hand_entry) (hand : string) :
  exists keep : string -> bool,
    index (aggregate_task_data_by_hand (TaskDict items) hand) =
    List.filter keep (sorted sort_condition_key (map fst (aggregate_items hand items))).
Proof.
  unfold index. rewrite aggregate_task_data_by_hand_rows. cbv zeta.
  rewrite labels_of_kept_rows. by eexists.
Qed.

(** *** C8: the order of the rows, and no undefined row *)

Lemma all_nan_or_defined (row : Series) :
  map_Forall (fun _ c => is_nan c = true) row \/ has_defined_cell row.
Proof.
  induction row as [|p c row Hfresh IH] using map_ind.
  - left. apply map_Forall_empty.
  - destruct c as [x|].
    + right. exists p, x. apply lookup_insert_eq.
    + destruct IH as [Hall|(q & x & Hq)].
      * left. by apply map_Forall_insert_2.
      * right. exists q, x. rewrite lookup_insert_ne; [assumption|].
        intros ->. congruence.
Qed.

Lemma all_nan_false (row : Series) : all_nan row = false -> has_defined_cell row.
Proof.
  unfold all_nan. intros H%bool_decide_eq_false.
  by destruct (all_nan_or_defined row).
Qed.

Lemma summary_sorted_by_key (data : task_data) (hand : string) :
  StronglySorted (fun a b => (sort_condition_key a <= sort_condition_key b)%Z)
                 (index (aggregate_task_data_by_hand data hand)).
Proof.
  destruct data as [items|]; [|constructor].
  destruct (aggregate_task_data_by_hand_index items hand) as [keep ->].
  apply StronglySorted_filter, sorted_is_sorted.
Qed.

Lemma summary_rows_defined (data : task_data) (hand c : string) (row : Series) :
  (c, row) ∈ rows (aggregate_task_data_by_hand data hand) -> has_defined_cell row.
Proof.
  destruct data as [items|]; [|intros H; by apply elem_of_nil in H].
  rewrite aggregate_task_data_by_hand_rows. cbv zeta.
  intros [_ Hkeep]%list_elem_of_In%filter_In. cbn [snd] in Hkeep.
  apply all_nan_false. by apply negb_true_iff.
Qed.

(** The sort key in terms of the tiers. *)
Lemma sort_condition_key_tier (c : string) :
  match tier_of c with
  | Baseline_like => sort_condition_key c = 0%Z
  | Numbered n => sort_condition_key c = n
  | Other_on => sort_condition_key c = 100%Z \/ sort_condition_key c = 200%Z
  | Catch_all => sort_condition_key c = 500%Z
  end.
Proof.
  unfold tier_of, sort_condition_key. cbv zeta.
  destruct (Str.contains "dbs off" (Str.lower c)); [reflexivity|].
  destruct (Str.search_program_number (Str.lower c)); [reflexivity|].
  destruct (Str.contains "dbs on" (Str.lower c)); [by left|].
  destruct (Str.contains "med on" (Str.lower c)); [by right|reflexivity].
Qed.

(** With program numbers from 1 to 99, the order of the keys is the
    domain ordering. *)
Lemma key_order_is_domain_order (a b : string) :
  (forall n, tier_of a = Numbered n -> (1 <= n <= 99)%Z) ->
  (forall n, tier_of b = Numbered n -> (1 <= n <= 99)%Z) ->
  (sort_condition_key a <= sort_condition_key b)%Z ->
  domain_order a b.
Proof.
  intros Ha Hb Hle. unfold domain_order.
  pose proof (sort_condition_key_tier a) as Hka.
  pose proof (sort_condition_key_tier b) as Hkb.
  destruct (tier_of a) as [|n| |]; destruct (tier_of b) as [|m| |];
    cbn [tier_rank];
    try specialize (Ha _ eq_refl); try specialize (Hb _ eq_refl); lia.
Qed.

Lemma StronglySorted_impl_elem_of {A} (rel1 rel2 : A -> A -> Prop) (l : list A) :
  (forall a b, a ∈ l -> b ∈ l -> rel1 a b -> rel2 a b) ->
  StronglySorted rel1 l -> StronglySorted rel2 l.
Proof.
  intros Himpl Hsorted. induction Hsorted as [|x l Hsorted IH Hall]; [constructor|].
  constructor.
  - apply IH. intros a b Ha Hb. apply Himpl; by right.
  - apply List.Forall_forall. intros y Hy. apply Himpl.
    + by left.
    + right. by apply list_elem_of_In.
    + revert y Hy. by apply List.Forall_forall.
Qed.

(** C8, as the code has it.  The rows of every summary are in
    non-decreasing order of the sort key (0 for a name with "dbs off",
    else the program number of a numbered program, else 100 for "dbs on",
    else 200 for "med on", else 500), and every row has a defined cell.
    When all program numbers in the summary lie between 1 and 99 this
    order is the domain ordering: baseline-like conditions, then numbered
    programs ascending, then other "on" conditions, then the rest. *)
Theorem summary_rows_ordered_and_defined (data : task_data) (hand : string) :
  let summary := aggregate_task_data_by_hand data hand in
  StronglySorted (fun a b => (sort_condition_key a <= sort_condition_key b)%Z)
                 (index summary)
  /\ (forall c row, (c, row) ∈ rows summary -> has_defined_cell row)
  /\ ((forall c n, c ∈ index summary -> tier_of c = Numbered n -> (1 <= n <= 99)%Z) ->
      StronglySorted domain_order (index summary)).
Proof.
  intros summary. split; [apply summary_sorted_by_key|].
  split; [apply summary_rows_defined|].
  intros Hbound.
  eapply StronglySorted_impl_elem_of; [|apply summary_sorted_by_key].
  intros a b Ha Hb. apply key_order_is_domain_order; intros n; by apply Hbound.
Qed.

(** The claim as the specification states it fails for a program numbered
    150: its key is 150, and the plain "DBS On" condition, with key 100,
    comes first. *)
Lemma program_150_after_other_on :
  index (aggregate_task_data_by_hand scenario_program_150 "Right")
  = ["Med Off - DBS On"; "Med Off - DBS On - Pr150"]
  /\ ~ StronglySorted domain_order
       (index (aggregate_task_data_by_hand scenario_program_150 "Right")).
Proof.
  assert (Hindex : index (aggregate_task_data_by_hand scenario_program_150 "Right")
                   = ["Med Off - DBS On"; "Med Off - DBS On - Pr150"])
    by (vm_compute; reflexivity).
  split; [exact Hindex|].
  rewrite Hindex. intros Hsorted.
  apply StronglySorted_inv in Hsorted as [_ Hall].
  apply Forall_inv in Hall. vm_compute in Hall. by apply Hall.
Qed.

Lemma summary_rows_ordered_and_defined_witness :
  StronglySorted domain_order (index (aggregate_task_data_by_hand scenario_b "Right")).
Proof.
  apply (summary_rows_ordered_and_defined scenario_b "Right").
  intros c n Hc Htier.
  assert (Hindex : index (aggregate_task_data_by_hand scenario_b "Right")
                   = [baseline_name; program_1; program_2])
    by (vm_compute; reflexivity).
  rewrite Hindex in Hc. clear Hindex.
  apply elem_of_cons in Hc as [->|Hc]; [vm_compute in Htier; discriminate Htier|].
  apply elem_of_cons in Hc as [->|Hc]; [vm_compute in Htier; injection Htier as <-; lia|].
  apply elem_of_cons in Hc as [->|Hc]; [vm_compute in Htier; injection Htier as <-; lia|].
  by apply elem_of_nil in Hc.
Defined.

(** *** C7: the cells of the summary *)

Lemma dict_get_elem_of {A} (k : string) (v : A) (d : pydict A) :
  dict_get k d = Some v -> (k, v) ∈ d.
Proof.
  induction d as [|[k' v'] d IH]; [discriminate|].
  cbn [dict_get]. destruct (String.eqb_spec k' k) as [->|Hne].
  - intros [= ->]. by left.
  - intros H. right. by apply IH.
Qed.

Lemma cell_at_Num (s : Series) (p : string) (x : R) :
  cell_at s p = Num x <-> s !! p = Some (Num x).
Proof.
  unfold cell_at. destruct (s !! p) as [c|]; simpl; split; congruence.
Qed.

(** The row of the summary for a key of the dict that the loop built. *)
Lemma summary_row (items : pydict hand_entry) (hand c : string) (s : Series) :
  dict_get c (aggregate_items hand items) = Some s ->
  let summary := aggregate_task_data_by_hand (TaskDict items) hand in
  (forall row, (c, row) ∈ rows summary -> forall p, cell_at row p = cell_at s p)
  /\ ((exists p x, cell_at s p = Num x) -> exists row, (c, row) ∈ rows summary).
Proof.
  intros Hget summary. subst summary.
  rewrite aggregate_task_data_by_hand_rows. cbv zeta.
  pose proof (dict_get_elem_of _ _ _ Hget) as Hin.
  revert Hget Hin. generalize (aggregate_items hand items). intros agg Hget Hin.
  set (cols := ⋃ map (fun kv : string * Series => dom kv.2) agg).
  assert (Hsub : dom s ⊆ cols).
  { intros p Hp. apply elem_of_union_list_map. by exists (c, s). }
  split.
  - intros row Hrow p.
    apply list_elem_of_In, filter_In in Hrow as [Hrow _].
    apply in_map_iff in Hrow as (l & Heq & _).
    pose proof (f_equal fst Heq) as Hl. pose proof (f_equal snd Heq) as Hr.
    cbn [fst snd] in Hl, Hr. subst l row.
    rewrite Hget. cbn [fmap option_fmap option_map default].
    by apply cell_at_reindex_series.
  - intros (p & x & Hp). exists (reindex_series cols s).
    apply list_elem_of_In, filter_In. split.
    + apply in_map_iff. exists c. split.
      * rewrite Hget. reflexivity.
      * apply list_elem_of_In. rewrite sorted_permutation.
        apply list_elem_of_In, in_map_iff. exists (c, s).
        split; [reflexivity|]. by apply list_elem_of_In.
    + cbn [snd]. apply negb_true_iff, bool_decide_eq_false. intros Hall.
      rewrite <- (cell_at_reindex_series cols s p Hsub) in Hp.
      apply cell_at_Num in Hp. specialize (Hall p _ Hp). discriminate Hall.
Qed.

Lemma mean_defined (xs : list R) :
  xs <> [] -> mean xs = Num (total xs / INR (length xs)).
Proof. by destruct xs. Qed.

(** C7.  For a condition of the dict whose hand list holds at least one
    trial table, each cell of its summary row is the mean of the values of
    that parameter that are present and numeric in the trial tables
    ([present_values]: a non-numeric value counts as missing), separately
    for each parameter; a parameter with no such value in any trial has an
    undefined cell; and the row is there as soon as one parameter has a
    value. *)
Theorem summary_cell_is_mean_of_present_values
    (items : pydict hand_entry) (hand c : string)
    (d : gmap string (list trial)) (trials : list trial) :
  NoDup (map fst items) ->
  (c, HandDict d) ∈ items ->
  d !! hand = Some trials ->
  series_of_trials trials <> [] ->
  let summary := aggregate_task_data_by_hand (TaskDict items) hand in
  (forall row p, (c, row) ∈ rows summary ->
     cell_at row p = mean (present_values trials p)
     /\ (present_values trials p <> [] ->
         cell_at row p =
         Num (total (present_values trials p) / INR (length (present_values trials p))))
     /\ (present_values trials p = [] -> cell_at row p = NaN))
  /\ ((exists p, present_values trials p <> []) -> exists row, (c, row) ∈ rows summary).
Proof.
  intros Hnodup Hin Hhand Htrials summary.
  assert (Hstored : stored hand (c, HandDict d)
                    = Some (c, concat_mean (series_of_trials trials))).
  { unfold stored, aggregate_condition. cbn [fst snd]. rewrite Hhand.
    by destruct (series_of_trials trials). }
  assert (Hget : dict_get c (aggregate_items hand items)
                 = Some (concat_mean (series_of_trials trials))).
  { rewrite aggregate_items_nodup by assumption. apply dict_get_In.
    - exact (sublist_NoDup _ _ Hnodup (stored_keys_sublist hand items)).
    - apply list_elem_of_omap. by exists (c, HandDict d). }
  destruct (summary_row items hand c _ Hget) as [Hcells Hexists].
  assert (Hcell : forall p, cell_at (concat_mean (series_of_trials trials)) p
                            = mean (present_values trials p)).
  { intros p. by rewrite cell_at_concat_mean, present_values_series. }
  split.
  - intros row p Hrow. rewrite (Hcells row Hrow p), Hcell.
    split; [reflexivity|]. split.
    + apply mean_defined.
    + by intros ->.
  - intros (p & Hp). apply Hexists. exists p. eexists.
    rewrite Hcell. by apply mean_defined.
Qed.

Lemma partial_trials_present :
  present_values partial_trials "StdSpeed" = [4; 6]
  /\ present_values partial_trials "MeanSpeed" = [].
Proof. split; vm_compute; reflexivity. Qed.

Lemma summary_cell_is_mean_of_present_values_witness :
  exists row : Series,
    (baseline_name, row) ∈ rows (aggregate_task_data_by_hand (TaskDict partial_items) "Right")
    /\ cell_at row "StdSpeed" = Num ((4 + (6 + 0)) / INR 2)
    /\ cell_at row "MeanSpeed" = NaN.
Proof.
  destruct partial_trials_present as [Hstd Hmean].
  destruct (summary_cell_is_mean_of_present_values partial_items "Right" baseline_name
              {[ "Right" := partial_trials ]} partial_trials)
    as [Hcells Hexists].
  - compute_done.
  - constructor.
  - apply lookup_singleton_eq.
  - intros H. vm_compute in H. discriminate H.
  - destruct Hexists as [row Hrow].
    + exists "StdSpeed". rewrite Hstd. intros H. discriminate H.
    + exists row. split; [exact Hrow|]. split.
      * destruct (Hcells row "StdSpeed" Hrow) as (-> & _). rewrite Hstd. reflexivity.
      * destruct (Hcells row "MeanSpeed" Hrow) as (_ & _ & Hnan). exact (Hnan Hmean).
Defined.

(** *** C9: the order of the trials *)

Lemma mean_permutation (xs ys : list R) : Permutation xs ys -> mean xs = mean ys.
Proof.
  intros Hperm. destruct xs as [|x xs].
  - apply Permutation_nil in Hperm. by subst ys.
  - destruct ys as [|y ys].
    + symmetry in Hperm. apply Permutation_nil in Hperm. discriminate Hperm.
    + unfold mean. f_equal.
      rewrite (total_permutation _ _ Hperm), (Permutation_length Hperm). reflexivity.
Qed.

Lemma concat_mean_permutation (sl sl' : list Series) :
  Permutation sl sl' -> concat_mean sl = concat_mean sl'.
Proof.
  intros Hperm.
  assert (Hlabels : ⋃ (map dom sl) = (⋃ (map dom sl') : gset string)).
  { apply set_eq. intros p. rewrite !elem_of_union_list_map.
    split; intros (s & Hs & Hp); exists s; split; try assumption.
    - by rewrite <- Hperm.
    - by rewrite Hperm. }
  apply map_eq. intros p. unfold concat_mean.
  rewrite !lookup_tabulate, Hlabels.
  destruct (decide (p ∈ ⋃ map dom sl')); [|reflexivity].
  f_equal. apply mean_permutation. unfold defined.
  apply omap_Permutation. by apply Permutation_map.
Qed.

Lemma aggregate_condition_permutation (hand h : string)
    (d : gmap string (list trial)) (trials trials' : list trial) :
  Permutation trials trials' ->
  aggregate_condition hand (HandDict (<[h:=trials]> d)) =
  aggregate_condition hand (HandDict (<[h:=trials']> d)).
Proof.
  intros Hperm. unfold aggregate_condition.
  destruct (decide (h = hand)) as [->|Hne].
  - rewrite !lookup_insert_eq.
    assert (Hseries : Permutation (series_of_trials trials) (series_of_trials trials'))
      by (by apply omap_Permutation).
    destruct (series_of_trials trials) as [|s sl].
    + apply Permutation_nil in Hseries. by rewrite Hseries.
    + destruct (series_of_trials trials') as [|s' sl'].
      * symmetry in Hseries. apply Permutation_nil in Hseries. discriminate Hseries.
      * f_equal. by apply concat_mean_permutation.
  - by rewrite !lookup_insert_ne.
Qed.

Lemma fold_store_condition_ext (hand : string) (items items' : pydict hand_entry)
    (acc : pydict Series) :
  Forall2 (fun a b => a.1 = b.1 /\ aggregate_condition hand a.2 = aggregate_condition hand b.2)
          items items' ->
  fold_left (store_condition hand) items acc = fold_left (store_condition hand) items' acc.
Proof.
  intros Hall. revert acc.
  induction Hall as [|a b items items' [Hkey Hagg] Hall IH]; intros acc; [reflexivity|].
  cbn [fold_left]. unfold store_condition at 2 4. rewrite Hkey, Hagg. apply IH.
Qed.

(** C9, as it holds.  In a dict of conditions, replacing the trial list of
    one condition and hand by a permutation of it leaves the summary
    unchanged as a table of exact numbers, whichever hand is asked for: the
    same conditions in the same order, the same parameters, the same
    undefined cells and in every cell the same mean, computed without
    rounding.  The rounded mean of the program is the subject of the next
    section. *)
Theorem aggregation_invariant_under_trial_permutation
    (before after : pydict hand_entry) (c h hand : string)
    (d : gmap string (list trial)) (trials trials' : list trial) :
  Permutation trials trials' ->
  aggregate_task_data_by_hand
    (TaskDict (before ++ (c, HandDict (<[h:=trials]> d)) :: after)%list) hand =
  aggregate_task_data_by_hand
    (TaskDict (before ++ (c, HandDict (<[h:=trials']> d)) :: after)%list) hand.
Proof.
  intros Hperm. unfold aggregate_task_data_by_hand, aggregate_items.
  rewrite (fold_store_condition_ext hand
             (before ++ (c, HandDict (<[h:=trials]> d)) :: after)%list
             (before ++ (c, HandDict (<[h:=trials']> d)) :: after)%list); [reflexivity|].
  apply Forall2_app.
  - apply Forall_Forall2_diag, List.Forall_forall. done.
  - constructor.
    + split; [reflexivity|]. by apply aggregate_condition_permutation.
    + apply Forall_Forall2_diag, List.Forall_forall. done.
Qed.

Lemma aggregation_invariant_under_trial_permutation_witness :
  aggregate_task_data_by_hand
    (TaskDict ([(program_1, HandDict {[ "Right" := [one_value "StdSpeed" 3] ]})]
               ++ (baseline_name, HandDict (<["Right" := partial_trials]> ∅)) :: [])%list)
    "Right" =
  aggregate_task_data_by_hand
    (TaskDict ([(program_1, HandDict {[ "Right" := [one_value "StdSpeed" 3] ]})]
               ++ (baseline_name, HandDict (<["Right" := rev partial_trials]> ∅)) :: [])%list)
    "Right".
Proof.
  apply aggregation_invariant_under_trial_permutation.
  apply Permutation_rev.
Defined.

(** *** The rounding of the mean *)

Section Rounding.
Import PrimFloat.
#[local] Set Warnings "-inexact-float".

(** C9 as the specification states it fails on the binary64 numbers that
    the program computes: three trials that measure 0.1, 0.2 and 0.3 have
    the mean 0.20000000000000004 in this order and 0.19999999999999998 in
    the reverse order, so that the row of the condition in the summary is
    not the same. *)
Lemma binary64_mean_depends_on_trial_order :
  let trials := [Binary64.mean_speed 0.1; Binary64.mean_speed 0.2;
                 Binary64.mean_speed 0.3] in
  Permutation trials (rev trials)
  /\ Binary64.float_concat_mean trials !! "MeanSpeed" = Some 0.20000000000000004%float
  /\ Binary64.float_concat_mean (rev trials) !! "MeanSpeed"
     = Some 0.19999999999999998%float
  /\ Binary64.float_concat_mean trials <> Binary64.float_concat_mean (rev trials).
Proof.
  cbv zeta.
  assert (Hfirst : Binary64.float_concat_mean
                     [Binary64.mean_speed 0.1; Binary64.mean_speed 0.2;
                      Binary64.mean_speed 0.3] !! "MeanSpeed"
                   = Some 0.20000000000000004%float) by (vm_compute; reflexivity).
  assert (Hsecond : Binary64.float_concat_mean
                      (rev [Binary64.mean_speed 0.1; Binary64.mean_speed 0.2;
                            Binary64.mean_speed 0.3]) !! "MeanSpeed"
                    = Some 0.19999999999999998%float) by (vm_compute; reflexivity).
  split; [apply Permutation_rev|]. split; [exact Hfirst|]. split; [exact Hsecond|].
  intros Heq. rewrite Heq, Hsecond in Hfirst.
  pose proof (f_equal (fun cell => match cell with
                                   | Some x => PrimFloat.eqb 0.19999999999999998%float x
                                   | None => false
                                   end) Hfirst) as Hcompare.
  vm_compute in Hcompare. discriminate Hcompare.
Qed.

End Rounding.

(** ** The two sorts meet the contract *)

Lemma may_precede_trans (a b c : cell) :
  may_precede a b -> may_precede b c -> may_precede a c.
Proof. destruct a, b, c; cbn [may_precede]; intros; try done; lra. Qed.

Lemma must_precede_true (a b : cell) : must_precede a b = true -> may_precede a b.
Proof.
  destruct a as [x|], b as [y|]; cbn [must_precede may_precede]; try done.
  intros H%bool_decide_eq_true. lra.
Qed.

Lemma must_precede_false (a b : cell) : must_precede a b = false -> may_precede b a.
Proof.
  destruct a as [x|], b as [y|]; cbn [must_precede may_precede]; try done.
  intros H%bool_decide_eq_false. lra.
Qed.

Lemma insert_desc_permutation (x : string * cell) (l : list (string * cell)) :
  Permutation (insert_desc x l) (x :: l).
Proof.
  induction l as [|y l IH]; cbn [insert_desc]; [reflexivity|].
  destruct (must_precede y.2 x.2); [|reflexivity].
  rewrite IH. apply perm_swap.
Qed.

Lemma stable_sort_values_permutation (s : list (string * cell)) :
  Permutation (stable_sort_values s) s.
Proof.
  induction s as [|x s IH]; cbn [stable_sort_values fold_right]; [reflexivity|].
  fold (stable_sort_values s). rewrite insert_desc_permutation. by rewrite IH.
Qed.

Lemma insert_desc_sorted (x : string * cell) (l : list (string * cell)) :
  StronglySorted (fun a b => may_precede a.2 b.2) l ->
  StronglySorted (fun a b => may_precede a.2 b.2) (insert_desc x l).
Proof.
  induction 1 as [|y l Hsorted IH Hall]; cbn [insert_desc].
  - repeat constructor.
  - destruct (must_precede y.2 x.2) eqn:Hyx.
    + constructor; [exact IH|].
      eapply Permutation_Forall; [symmetry; apply insert_desc_permutation|].
      constructor; [by apply must_precede_true | exact Hall].
    + apply must_precede_false in Hyx.
      constructor; [by constructor|].
      constructor; [exact Hyx|].
      eapply Forall_impl; [exact Hall|]. intros z Hz.
      by apply may_precede_trans with y.2.
Qed.

Lemma stable_sort_values_sorted (s : list (string * cell)) :
  StronglySorted (fun a b => may_precede a.2 b.2) (stable_sort_values s).
Proof.
  induction s as [|x s IH]; cbn [stable_sort_values fold_right]; [constructor|].
  by apply insert_desc_sorted.
Qed.

Lemma stable_sort_values_contract : sort_values_contract stable_sort_values.
Proof.
  intros s. split; [apply stable_sort_values_permutation | apply stable_sort_values_sorted].
Qed.

(** ** C10: an undefined cell makes the score undefined, and ranks last *)

Lemma cell_add_comm_assoc (a b c : cell) :
  cell_add a (cell_add b c) = cell_add b (cell_add a c).
Proof. destruct a, b, c; cbn [cell_add]; try reflexivity. f_equal. lra. Qed.

Lemma row_dot_empty (row : Series) : row_dot row ∅ = Num 0.
Proof. unfold row_dot. apply map_fold_empty. Qed.

Lemma row_dot_insert (row : Series) (w : RSeries) (q : string) (wq : R) :
  w !! q = None ->
  row_dot row (<[q:=wq]> w) = cell_add (cell_mul (cell_at row q) (Num wq)) (row_dot row w).
Proof.
  intros Hfresh. unfold row_dot.
  rewrite map_fold_insert_L; [reflexivity| |assumption].
  intros. apply cell_add_comm_assoc.
Qed.

Lemma row_dot_nan (row : Series) (w : RSeries) (p : string) :
  p ∈ dom w -> cell_at row p = NaN -> row_dot row w = NaN.
Proof.
  intros Hdom Hnan. induction w as [|q wq w Hfresh IH] using map_ind.
  - by apply not_elem_of_empty in Hdom.
  - rewrite row_dot_insert by assumption.
    destruct (decide (p = q)) as [->|Hne].
    + by rewrite Hnan.
    + rewrite IH; [by destruct (cell_mul _ _)|].
      rewrite dom_insert_L in Hdom. set_solver.
Qed.

Lemma row_dot_defined (row : Series) (w : RSeries) :
  (forall p, p ∈ dom w -> exists x, cell_at row p = Num x) ->
  exists v, row_dot row w = Num v.
Proof.
  induction w as [|q wq w Hfresh IH] using map_ind; intros Hdef.
  - exists 0. apply row_dot_empty.
  - rewrite row_dot_insert by assumption.
    destruct (Hdef q) as [x ->]; [set_solver|].
    destruct IH as [v ->]; [|by eexists].
    intros p Hp. apply Hdef. set_solver.
Qed.

Lemma dom_restrict (labels : gset string) (s : RSeries) :
  dom (restrict labels s) = labels ∩ dom s.
Proof.
  apply set_eq. intros p. unfold restrict.
  rewrite elem_of_intersection, !elem_of_dom. split.
  - intros [v (Hv & Hin)%map_lookup_filter_Some]. split; [exact Hin|by eexists].
  - intros [Hin [v Hv]]. exists v. by apply map_lookup_filter_Some.
Qed.

Lemma lookup_map {A B} (f : A -> B) (l : list A) (i : nat) :
  map f l !! i = f <$> l !! i.
Proof.
  revert i. induction l as [|x l IH]; intros [|i]; try reflexivity. apply IH.
Qed.

Lemma StronglySorted_lookup {A} (rel : A -> A -> Prop) (l : list A) (i j : nat) (a b : A) :
  StronglySorted rel l -> (i < j)%nat -> l !! i = Some a -> l !! j = Some b -> rel a b.
Proof.
  intros Hsorted. revert i j.
  induction Hsorted as [|x l Hsorted IH Hall]; intros i j Hlt Hi Hj; [done|].
  destruct j as [|j]; [lia|]. destruct i as [|i].
  - injection Hi as ->. cbn in Hj. clear IH.
    apply list_elem_of_lookup_2, list_elem_of_In in Hj.
    revert b Hj. by apply List.Forall_forall.
  - cbn in Hi, Hj. apply (IH i j); [lia|assumption..].
Qed.

(** Under the contract, every NaN entry of a ranking stands after every
    defined one. *)
Lemma contract_nan_last (sort_values : list (string * cell) -> list (string * cell))
    (s : list (string * cell)) (i j : nat) (x : R) :
  sort_values_contract sort_values ->
  map snd (sort_values s) !! i = Some NaN ->
  map snd (sort_values s) !! j = Some (Num x) ->
  (j < i)%nat.
Proof.
  intros Hcontract Hi Hj. destruct (Hcontract s) as [_ Hsorted].
  rewrite lookup_map in Hi, Hj.
  destruct (sort_values s !! i) as [a|] eqn:Ha; [|discriminate Hi].
  destruct (sort_values s !! j) as [b|] eqn:Hb; [|discriminate Hj].
  cbn in Hi, Hj. injection Hi as Hi. injection Hj as Hj.
  destruct (Nat.lt_trichotomy j i) as [Hlt|[->|Hgt]]; [assumption| |].
  - rewrite Ha in Hb. injection Hb as ->. congruence.
  - pose proof (StronglySorted_lookup _ _ _ _ _ _ Hsorted Hgt Ha Hb) as Hrel.
    cbn beta in Hrel. rewrite Hi, Hj in Hrel. destruct Hrel.
Qed.

(** C10.  A condition whose improvement row is undefined in a parameter
    that carries a weight gets the score NaN, whatever its other cells
    are; and under the contract of [sort_values] the ranking holds that
    condition, and every entry with the score NaN, after every entry with
    a defined score. *)
Theorem undefined_score_ranks_last
    (sort_values : list (string * cell) -> list (string * cell))
    (data : task_data) (hand baseline : string) (lam : R) :
  sort_values_contract sort_values ->
  let r := perform_full_hand_analysis sort_values data hand baseline lam in
  forall (c : string) (row : Series) (p : string),
    (c, row) ∈ rows (improvement_df r) ->
    p ∈ columns (improvement_df r) ∩ dom (final_dynamic_weights r) ->
    cell_at row p = NaN ->
    (c, NaN) ∈ dynamic_scores r
    /\ (exists i, ranked_names (dynamic_ranking_results r) !! i = Some c
                  /\ ranked_scores (dynamic_ranking_results r) !! i = Some NaN)
    /\ (forall i j x,
          ranked_scores (dynamic_ranking_results r) !! i = Some NaN ->
          ranked_scores (dynamic_ranking_results r) !! j = Some (Num x) ->
          (j < i)%nat).
Proof.
  intros Hcontract r c row p. subst r.
  destruct (perform_full_hand_analysis_cases sort_values data hand baseline lam)
    as [[_ ->]|[(_ & _ & ->)|(_ & _ & ->)]]; project.
  - intros H. by apply elem_of_nil in H.
  - intros _ H. apply elem_of_intersection in H as [_ H]. by apply not_elem_of_empty in H.
  - generalize (improvement_of (aggregate_task_data_by_hand data hand) baseline).
    intros improvement.
    generalize (regularized_weights lam (responsiveness_of improvement)).
    intros weights Hrow Hweighted Hnan.
    assert (Hscore : (c, NaN) ∈ scores_of improvement weights).
    { unfold scores_of, dot. apply list_elem_of_In, in_map_iff.
      exists (c, row). split; [|by apply list_elem_of_In].
      cbn [fst snd]. f_equal. apply (row_dot_nan _ _ p); [|assumption].
      rewrite dom_restrict. set_solver. }
    split; [exact Hscore|]. split.
    + destruct (Hcontract (scores_of improvement weights)) as [Hperm _].
      rewrite <- Hperm in Hscore.
      apply list_elem_of_lookup in Hscore as [i Hi].
      exists i. rewrite !lookup_map, Hi. done.
    + intros i j x. by apply contract_nan_last.
Qed.

(** ** Runs with one responsive parameter *)

Lemma responsiveness_single (improvement : DataFrame) (p : string) :
  p ∈ columns improvement ->
  1e-9 < deviation improvement p ->
  (forall q, q ∈ columns improvement -> q <> p -> deviation improvement q = 0) ->
  responsiveness_of improvement = {[ p := deviation improvement p ]}.
Proof.
  intros Hin Hlt Hothers. apply map_eq. intros q.
  destruct (decide (q = p)) as [->|Hne].
  - rewrite lookup_singleton_eq. by apply responsiveness_of_lookup.
  - rewrite lookup_singleton_ne by done.
    apply eq_None_not_Some. intros [v Hv].
    apply responsiveness_of_lookup in Hv as (Hq & Hv & Hpos).
    fold (deviation improvement q) in Hv. rewrite (Hothers q Hq Hne) in Hv. lra.
Qed.

Lemma regularized_weights_singleton (lam rho : R) (p : string) :
  rho <> 0 -> regularized_weights lam {[ p := rho ]} = {[ p := 1 ]}.
Proof.
  intros Hrho. rewrite regularized_weights_fmap, map_fmap_singleton.
  f_equal. rewrite map_size_singleton.
  rewrite <- insert_empty, series_sum_insert, series_sum_empty by apply lookup_empty.
  cbn [INR]. field. lra.
Qed.

Lemma row_dot_singleton (row : Series) (p : string) (w : R) :
  row_dot row {[ p := w ]} = cell_add (cell_mul (cell_at row p) (Num w)) (Num 0).
Proof.
  rewrite <- insert_empty, row_dot_insert by apply lookup_empty.
  by rewrite row_dot_empty.
Qed.

Lemma restrict_singleton (labels : gset string) (p : string) (w : R) :
  p ∈ labels -> restrict labels {[ p := w ]} = {[ p := w ]}.
Proof.
  intros Hin. apply map_eq. intros q. unfold restrict.
  destruct (decide (q = p)) as [->|Hne].
  - rewrite lookup_singleton_eq. apply map_lookup_filter_Some.
    split; [apply lookup_singleton_eq | exact Hin].
  - rewrite lookup_singleton_ne by done.
    apply map_lookup_filter_None. left. by apply lookup_singleton_ne.
Qed.

Lemma scores_of_singleton (improvement : DataFrame) (p : string) (w : R) :
  p ∈ columns improvement ->
  scores_of improvement {[ p := w ]} =
  combine (index improvement)
          (map (fun c => cell_add (cell_mul c (Num w)) (Num 0)) (column improvement p)).
Proof.
  intros Hin. unfold scores_of, dot, index, column.
  rewrite restrict_singleton by (rewrite dom_singleton_L; set_solver).
  induction (rows improvement) as [|[l r] rs IH]; [reflexivity|].
  cbn [map combine fst snd]. by rewrite IH, row_dot_singleton.
Qed.

Lemma run_single_parameter
    (sort_values : list (string * cell) -> list (string * cell))
    (data : task_data) (hand baseline : string) (lam : R) (p : string) :
  let summary := aggregate_task_data_by_hand data hand in
  let improvement := improvement_of summary baseline in
  let scores := combine (index improvement)
                  (map (fun c => cell_add (cell_mul c (Num 1)) (Num 0))
                       (column improvement p)) in
  aborts_early summary baseline = false ->
  p ∈ columns improvement ->
  1e-9 < deviation improvement p ->
  (forall q, q ∈ columns improvement -> q <> p -> deviation improvement q = 0) ->
  perform_full_hand_analysis sort_values data hand baseline lam =
  {| summary_df := summary; improvement_df := improvement;
     responsiveness_scores := {[ p := deviation improvement p ]};
     final_dynamic_weights := {[ p := 1 ]};
     dynamic_scores := scores;
     dynamic_ranking_results :=
       {| ranked_names := map fst (sort_values scores);
          ranked_scores := map snd (sort_values scores) |} |}.
Proof.
  intros summary improvement scores Hrun Hin Hlt Hothers.
  pose proof (responsiveness_single improvement p Hin Hlt Hothers) as Hresp.
  assert (Hne : responsiveness_of improvement <> ∅).
  { rewrite Hresp. apply insert_non_empty. }
  rewrite (run_complete sort_values data hand baseline lam Hrun Hne).
  fold summary. fold improvement.
  unfold result_complete. cbv zeta. rewrite Hresp.
  rewrite regularized_weights_singleton by lra.
  rewrite scores_of_singleton by assumption. reflexivity.
Qed.

(** *** Scenario B, to the end *)

Lemma scenario_b_index :
  index (improvement_of (aggregate_task_data_by_hand scenario_b "Right") baseline_name)
  = [program_1; program_2].
Proof. vm_compute. reflexivity. Qed.

Lemma scenario_b_columns :
  columns (improvement_of (aggregate_task_data_by_hand scenario_b "Right") baseline_name)
  = {[ "StdSpeed" ]}.
Proof. vm_compute. reflexivity. Qed.

(** Scenario B of the specification: improvements +2 and -1, one
    responsive parameter with weight 1, scores 2 and -1. *)
Lemma scenario_b_result
    (sort_values : list (string * cell) -> list (string * cell)) (lam : R) :
  let r := perform_full_hand_analysis sort_values scenario_b "Right" baseline_name lam in
  final_dynamic_weights r = {[ "StdSpeed" := 1 ]}
  /\ dynamic_scores r = [(program_1, Num 2); (program_2, Num (-1))]
  /\ dynamic_ranking_results r =
     {| ranked_names := map fst (sort_values [(program_1, Num 2); (program_2, Num (-1))]);
        ranked_scores := map snd (sort_values [(program_1, Num 2); (program_2, Num (-1))]) |}.
Proof.
  intros r. subst r.
  rewrite (run_single_parameter sort_values scenario_b "Right" baseline_name lam "StdSpeed").
  - rewrite scenario_b_index, scenario_b_column.
    cbn [map combine cell_mul cell_add].
    replace (2 * 1 + 0) with 2 by lra. replace (-1 * 1 + 0) with (-1) by lra.
    cbn [final_dynamic_weights dynamic_scores dynamic_ranking_results]. done.
  - apply scenario_b_not_aborted.
  - apply scenario_b_in_columns.
  - apply scenario_b_deviation.
  - intros q Hq Hne. rewrite scenario_b_columns in Hq.
    apply elem_of_singleton in Hq. contradiction.
Qed.

Lemma stable_sort_scenario_b :
  stable_sort_values [(program_1, Num 2); (program_2, Num (-1))]
  = [(program_1, Num 2); (program_2, Num (-1))].
Proof.
  unfold stable_sort_values. cbn [fold_right insert_desc must_precede snd].
  rewrite bool_decide_eq_false_2 by lra. reflexivity.
Qed.

(** The ranking of scenario B: program 1, then program 2. *)
Lemma scenario_b_ranking :
  dynamic_ranking_results
    (perform_full_hand_analysis stable_sort_values scenario_b "Right" baseline_name
       default_shrinkage_lambda)
  = {| ranked_names := [program_1; program_2]; ranked_scores := [Num 2; Num (-1)] |}.
Proof.
  destruct (scenario_b_result stable_sort_values default_shrinkage_lambda) as (_ & _ & ->).
  rewrite stable_sort_scenario_b. reflexivity.
Qed.

(** *** The scenario with an undefined cell *)

Lemma scenario_nan_not_aborted :
  aborts_early (aggregate_task_data_by_hand scenario_nan "Right") baseline_name = false.
Proof. vm_compute. reflexivity. Qed.

Lemma scenario_nan_columns :
  columns (improvement_of (aggregate_task_data_by_hand scenario_nan "Right") baseline_name)
  = {[ "StdSpeed"; "MeanSpeed" ]}.
Proof. vm_compute. reflexivity. Qed.

Lemma scenario_nan_column_std :
  column (improvement_of (aggregate_task_data_by_hand scenario_nan "Right") baseline_name)
         "StdSpeed"
  = [Num 2; Num (-1); NaN].
Proof. vm_compute. real_leaves. Qed.

Lemma scenario_nan_column_mean :
  column (improvement_of (aggregate_task_data_by_hand scenario_nan "Right") baseline_name)
         "MeanSpeed"
  = [NaN; NaN; NaN].
Proof. vm_compute. reflexivity. Qed.

(** The responsiveness of a column with an undefined cell: the
    improvements of [StdSpeed] are 2, -1 and an undefined cell, and the
    deviation is that of 2 and -1 alone, over 1.  Scenario A, with its one
    improvement value, takes the exit. *)
Lemma responsiveness_estimator_witness :
  responsiveness_scores
    (perform_full_hand_analysis stable_sort_values scenario_nan "Right" baseline_name
       default_shrinkage_lambda) !! "StdSpeed" = Some (sqrt (9 / 2))
  /\ (let r := perform_full_hand_analysis stable_sort_values scenario_a "Right"
                 baseline_name default_shrinkage_lambda in
      final_dynamic_weights r = ∅ /\ dynamic_scores r = [] /\
      dynamic_ranking_results r = {| ranked_names := []; ranked_scores := [] |}).
Proof.
  split.
  - pose proof (responsiveness_estimator stable_sort_values scenario_nan "Right"
                  baseline_name default_shrinkage_lambda) as Hrun.
    cbv zeta in Hrun. destruct Hrun as [Hscores _]. apply Hscores. clear Hscores.
    rewrite (run_improvement _ _ _ _ _ scenario_nan_not_aborted).
    split.
    { rewrite scenario_nan_columns. apply elem_of_union. left. by apply elem_of_singleton. }
    rewrite scenario_nan_column_std.
    cbn [defined omap list_omap length total map fold_right INR].
    split; [lia|]. split.
    + f_equal. field.
    + apply sqrt_above_epsilon. lra.
  - intros r.
    apply (responsiveness_estimator stable_sort_values scenario_a "Right" baseline_name
             default_shrinkage_lambda).
    left. unfold r.
    rewrite (run_responsiveness _ _ _ _ _ scenario_a_not_aborted).
    apply scenario_a_unresponsive.
Defined.

Lemma scenario_nan_third_row :
  (program_3,
   default ∅ (loc (improvement_of (aggregate_task_data_by_hand scenario_nan "Right")
                                  baseline_name) program_3))
  ∈ rows (improvement_of (aggregate_task_data_by_hand scenario_nan "Right") baseline_name).
Proof. vm_compute. do 2 apply list_elem_of_further. apply list_elem_of_here. Qed.

Lemma scenario_nan_cell :
  cell_at (default ∅ (loc (improvement_of (aggregate_task_data_by_hand scenario_nan "Right")
                                          baseline_name) program_3))
          "StdSpeed" = NaN.
Proof. vm_compute. reflexivity. Qed.

Lemma scenario_nan_run
    (sort_values : list (string * cell) -> list (string * cell)) (lam : R) :
  let r := perform_full_hand_analysis sort_values scenario_nan "Right" baseline_name lam in
  improvement_df r
  = improvement_of (aggregate_task_data_by_hand scenario_nan "Right") baseline_name
  /\ final_dynamic_weights r = {[ "StdSpeed" := 1 ]}
  /\ dynamic_scores r = [(program_1, Num 2); (program_2, Num (-1)); (program_3, NaN)].
Proof.
  intros r. subst r.
  rewrite (run_single_parameter sort_values scenario_nan "Right" baseline_name lam "StdSpeed").
  - cbn [improvement_df final_dynamic_weights dynamic_scores].
    split; [reflexivity|]. split; [reflexivity|].
    rewrite scenario_nan_column_std.
    assert (Hindex : index (improvement_of (aggregate_task_data_by_hand scenario_nan "Right")
                                           baseline_name)
                     = [program_1; program_2; program_3]) by (vm_compute; reflexivity).
    rewrite Hindex. cbn [map combine cell_mul cell_add].
    replace (2 * 1 + 0) with 2 by lra. replace (-1 * 1 + 0) with (-1) by lra. reflexivity.
  - apply scenario_nan_not_aborted.
  - rewrite scenario_nan_columns. set_solver.
  - unfold deviation. rewrite scenario_nan_column_std.
    cbn [defined omap list_omap std fillna total length map fold_right INR].
    apply sqrt_above_epsilon. lra.
  - intros q Hq Hne. rewrite scenario_nan_columns in Hq.
    assert (q = "MeanSpeed") as -> by set_solver.
    unfold deviation. rewrite scenario_nan_column_mean. reflexivity.
Qed.

Lemma undefined_score_ranks_last_witness :
  let r := perform_full_hand_analysis stable_sort_values scenario_nan "Right" baseline_name
             default_shrinkage_lambda in
  (program_3, NaN) ∈ dynamic_scores r
  /\ (exists i, ranked_names (dynamic_ranking_results r) !! i = Some program_3
                /\ ranked_scores (dynamic_ranking_results r) !! i = Some NaN)
  /\ (forall i j x,
        ranked_scores (dynamic_ranking_results r) !! i = Some NaN ->
        ranked_scores (dynamic_ranking_results r) !! j = Some (Num x) ->
        (j < i)%nat).
Proof.
  intros r.
  destruct (scenario_nan_run stable_sort_values default_shrinkage_lambda)
    as (Himp & Hweights & _).
  apply (undefined_score_ranks_last stable_sort_values scenario_nan "Right" baseline_name
           default_shrinkage_lambda stable_sort_values_contract program_3
           (default ∅ (loc (improvement_of (aggregate_task_data_by_hand scenario_nan "Right")
                                           baseline_name) program_3))
           "StdSpeed").
  - rewrite Himp. apply scenario_nan_third_row.
  - rewrite Himp, Hweights, scenario_nan_columns, dom_singleton_L.
    apply elem_of_intersection. split.
    + apply elem_of_union. left. by apply elem_of_singleton.
    + by apply elem_of_singleton.
  - apply scenario_nan_cell.
Defined.

(* ================================================================== *)
(** * Further properties of the code *)
(* ================================================================== *)

(** ** The summary: its labels *)

Lemma dict_set_keys {A} (k x : string) (v : A) (d : pydict A) :
  x ∈ map fst (dict_set k v d) -> x = k \/ x ∈ map fst d.
Proof.
  induction d as [|[k' v'] d IH]; cbn [dict_set map fst].
  - intros Hx. apply list_elem_of_singleton in Hx. by left.
  - destruct (String.eqb_spec k' k) as [->|Hne]; cbn [map fst].
    + intros Hx. by right.
    + intros [->|Hx]%elem_of_cons; [right; by left|].
      destruct (IH Hx) as [->|Hin]; [by left|right; by right].
Qed.

Lemma dict_set_NoDup {A} (k : string) (v : A) (d : pydict A) :
  NoDup (map fst d) -> NoDup (map fst (dict_set k v d)).
Proof.
  induction d as [|[k' v'] d IH]; cbn [dict_set map fst]; intros Hnodup.
  - apply NoDup_singleton.
  - apply NoDup_cons in Hnodup as [Hfresh Hnodup].
    destruct (String.eqb_spec k' k) as [->|Hne]; cbn [map fst].
    + by apply NoDup_cons.
    + apply NoDup_cons. split; [|by apply IH].
      intros [->|Hin]%dict_set_keys; [done|contradiction].
Qed.

Lemma fold_store_condition_NoDup (hand : string) (items : pydict hand_entry)
    (acc : pydict Series) :
  NoDup (map fst acc) -> NoDup (map fst (fold_left (store_condition hand) items acc)).
Proof.
  revert acc. induction items as [|item items IH]; intros acc Hnodup; [exact Hnodup|].
  cbn [fold_left]. apply IH. unfold store_condition.
  destruct (aggregate_condition hand item.2); [by apply dict_set_NoDup|exact Hnodup].
Qed.

Lemma NoDup_list_filter {A} (f : A -> bool) (l : list A) :
  NoDup l -> NoDup (List.filter f l).
Proof.
  induction 1 as [|x l Hfresh Hnodup IH]; cbn [List.filter]; [constructor|].
  destruct (f x); [|exact IH].
  apply NoDup_cons. split; [|exact IH].
  intros [Hin _]%list_elem_of_In%filter_In. apply Hfresh. by apply list_elem_of_In.
Qed.

(** X1.  The labels of a summary are pairwise distinct, whatever the
    input: a condition has one row, so that [loc] by the baseline name is
    unambiguous. *)
Theorem summary_index_NoDup (data : task_data) (hand : string) :
  NoDup (index (aggregate_task_data_by_hand data hand)).
Proof.
  destruct data as [items|]; [|constructor].
  destruct (aggregate_task_data_by_hand_index items hand) as [keep ->].
  apply NoDup_list_filter. rewrite sorted_permutation.
  unfold aggregate_items. apply fold_store_condition_NoDup. constructor.
Qed.

Lemma fold_store_condition_keys (hand : string) (items : pydict hand_entry)
    (acc : pydict Series) (k : string) :
  k ∈ map fst (fold_left (store_condition hand) items acc) ->
  k ∈ map fst acc \/
  exists e, (k, e) ∈ items /\ is_Some (aggregate_condition hand e).
Proof.
  revert acc. induction items as [|[k' e] items IH]; intros acc Hk; [by left|].
  cbn [fold_left] in Hk. apply IH in Hk as [Hk|(e0 & Hin & Hsome)].
  - unfold store_condition in Hk. cbn [fst snd] in Hk.
    destruct (aggregate_condition hand e) as [s|] eqn:Hagg; [|by left].
    apply dict_set_keys in Hk as [->|Hk]; [|by left].
    right. exists e. split; [by left|]. rewrite Hagg. by eexists.
  - right. exists e0. split; [by right|exact Hsome].
Qed.

Lemma aggregate_condition_is_Some (hand : string) (e : hand_entry) :
  is_Some (aggregate_condition hand e) ->
  exists d trials, e = HandDict d /\ d !! hand = Some trials /\
                   series_of_trials trials <> [].
Proof.
  unfold aggregate_condition. destruct e as [d|]; [|by intros [? ?]].
  destruct (d !! hand) as [trials|] eqn:Hhand; [|by intros [? ?]].
  destruct (series_of_trials trials) eqn:Hseries; [by intros [? ?]|].
  intros _. exists d, trials. by rewrite Hseries.
Qed.

(** X2.  A summary holds only conditions of the input that have data for
    the hand: each of its labels is a key of the dict whose value is a
    dict that has the hand, with at least one trial table in the list. *)
Theorem summary_labels_have_trials
    (items : pydict hand_entry) (hand c : string) :
  c ∈ index (aggregate_task_data_by_hand (TaskDict items) hand) ->
  exists d trials,
    (c, HandDict d) ∈ items /\ d !! hand = Some trials /\
    series_of_trials trials <> [].
Proof.
  destruct (aggregate_task_data_by_hand_index items hand) as [keep ->].
  intros [Hc _]%list_elem_of_In%filter_In.
  apply list_elem_of_In in Hc. rewrite sorted_permutation in Hc.
  unfold aggregate_items in Hc.
  apply fold_store_condition_keys in Hc as [Hc|(e & Hin & Hsome)].
  - by apply elem_of_nil in Hc.
  - apply aggregate_condition_is_Some in Hsome as (d & trials & -> & Hhand & Hne).
    by exists d, trials.
Qed.

(** X3.  The hands are analysed independently: whatever the trial list of
    another hand is, the summary of the hand asked for is the same. *)
Theorem summary_independent_of_other_hand
    (before after : pydict hand_entry) (c h hand : string)
    (d : gmap string (list trial)) (trials trials' : list trial) :
  h <> hand ->
  aggregate_task_data_by_hand
    (TaskDict (before ++ (c, HandDict (<[h:=trials]> d)) :: after)%list) hand =
  aggregate_task_data_by_hand
    (TaskDict (before ++ (c, HandDict (<[h:=trials']> d)) :: after)%list) hand.
Proof.
  intros Hne. unfold aggregate_task_data_by_hand, aggregate_items.
  rewrite (fold_store_condition_ext hand
             (before ++ (c, HandDict (<[h:=trials]> d)) :: after)%list
             (before ++ (c, HandDict (<[h:=trials']> d)) :: after)%list); [reflexivity|].
  apply Forall2_app.
  - apply Forall_Forall2_diag, List.Forall_forall. done.
  - constructor.
    + split; [reflexivity|]. unfold aggregate_condition. cbn [snd].
      by rewrite !lookup_insert_ne.
    + apply Forall_Forall2_diag, List.Forall_forall. done.
Qed.

Lemma summary_labels_have_trials_witness :
  exists d trials,
    (baseline_name, HandDict d) ∈ partial_items /\ d !! "Right" = Some trials /\
    series_of_trials trials <> [].
Proof.
  apply (summary_labels_have_trials partial_items "Right" baseline_name).
  vm_compute. apply list_elem_of_here.
Defined.

Lemma summary_independent_of_other_hand_witness :
  aggregate_task_data_by_hand
    (TaskDict ([] ++ (baseline_name,
                      HandDict (<["Left" := partial_trials]> {[ "Right" := partial_trials ]}))
               :: [])%list) "Right" =
  aggregate_task_data_by_hand
    (TaskDict ([] ++ (baseline_name,
                      HandDict (<["Left" := []]> {[ "Right" := partial_trials ]}))
               :: [])%list) "Right".
Proof.
  apply summary_independent_of_other_hand.
  intros Heq. discriminate Heq.
Defined.

(** ** The improvement matrix: its shape *)

Lemma improvement_of_index (summary : DataFrame) (baseline : string) :
  index (improvement_of summary baseline) = drop_label baseline (index summary).
Proof.
  unfold improvement_of. generalize parameter_directions. intros directions.
  unfold index at 1. rewrite correct_directions_rows.
  unfold raw_change_of, subtract, reindex. cbn [rows columns].
  rewrite !map_map. cbn [fst]. apply map_id.
Qed.

(** X4.  The improvement matrix of a run has the columns of the summary
    and one row for each label of the summary other than the baseline, in
    the order of the summary; after an early exit it has neither rows nor
    columns. *)
Theorem improvement_rows_are_the_other_conditions
    (sort_values : list (string * cell) -> list (string * cell))
    (data : task_data) (hand baseline : string) (lam : R) :
  let r := perform_full_hand_analysis sort_values data hand baseline lam in
  let aborted := aborts_early (summary_df r) baseline in
  columns (improvement_df r) = (if aborted then ∅ else columns (summary_df r))
  /\ index (improvement_df r)
     = (if aborted then [] else drop_label baseline (index (summary_df r))).
Proof.
  cbv zeta. rewrite run_summary.
  destruct (aborts_early (aggregate_task_data_by_hand data hand) baseline) eqn:Hab.
  - destruct (perform_full_hand_analysis_cases sort_values data hand baseline lam)
      as [[_ ->]|[(Hrun & _)|(Hrun & _)]]; [by split|congruence..].
  - rewrite (run_improvement _ _ _ _ _ Hab).
    split; [apply improvement_of_columns | apply improvement_of_index].
Qed.

(** ** The responsiveness: what is never responsive *)

Lemma length_defined (cs : list cell) : (length (defined cs) <= length cs)%nat.
Proof.
  unfold defined. induction cs as [|[x|] cs IH]; cbn [omap list_omap length]; lia.
Qed.

Lemma std_short (xs : list R) : (length xs <= 1)%nat -> std xs = NaN.
Proof. destruct xs as [|x [|y xs]]; cbn [length]; [done|done|lia]. Qed.

Lemma responsiveness_of_short (improvement : DataFrame) :
  (length (rows improvement) <= 1)%nat -> responsiveness_of improvement = ∅.
Proof.
  intros Hshort. apply map_eq. intros p. rewrite lookup_empty.
  apply eq_None_not_Some. intros [v Hv].
  apply responsiveness_of_lookup in Hv as (_ & Hv & Hlt).
  rewrite std_short in Hv; [cbn [fillna] in Hv; lra|].
  etrans; [apply length_defined|]. unfold column. by rewrite length_map.
Qed.

(** X5.  With at most one condition besides the baseline no parameter is
    responsive (the deviation of one value is undefined and counts as 0):
    the run ends without weights, scores or ranking. *)
Theorem single_condition_is_never_ranked
    (sort_values : list (string * cell) -> list (string * cell))
    (data : task_data) (hand baseline : string) (lam : R) :
  let r := perform_full_hand_analysis sort_values data hand baseline lam in
  (length (rows (improvement_df r)) <= 1)%nat ->
  responsiveness_scores r = ∅ /\ final_dynamic_weights r = ∅ /\
  dynamic_scores r = [] /\
  dynamic_ranking_results r = {| ranked_names := []; ranked_scores := [] |}.
Proof.
  cbv zeta.
  destruct (perform_full_hand_analysis_cases sort_values data hand baseline lam)
    as [[_ ->]|[(_ & Hempty & ->)|(_ & Hne & ->)]]; project.
  - done.
  - intros _. by rewrite Hempty.
  - intros Hshort. destruct Hne. by apply responsiveness_of_short.
Qed.

Lemma single_condition_is_never_ranked_witness :
  let r := perform_full_hand_analysis stable_sort_values scenario_a "Right" baseline_name
             default_shrinkage_lambda in
  responsiveness_scores r = ∅ /\ final_dynamic_weights r = ∅ /\
  dynamic_scores r = [] /\
  dynamic_ranking_results r = {| ranked_names := []; ranked_scores := [] |}.
Proof.
  apply (single_condition_is_never_ranked stable_sort_values scenario_a "Right"
           baseline_name default_shrinkage_lambda).
  rewrite (run_improvement _ _ _ _ _ scenario_a_not_aborted).
  vm_compute. constructor.
Defined.

(** ** The weights: positive fractions *)

Lemma series_sum_ge (s : RSeries) (p : string) (v : R) :
  (forall q w, s !! q = Some w -> 0 < w) -> s !! p = Some v -> v <= series_sum s.
Proof.
  induction s as [|q w s Hfresh IH] using map_ind; intros Hpos Hp.
  - by rewrite lookup_empty in Hp.
  - rewrite series_sum_insert by assumption.
    assert (Hrest : forall q' w', s !! q' = Some w' -> 0 < w').
    { intros q' w' Hq'. apply (Hpos q'). rewrite lookup_insert_ne; [assumption|].
      intros ->. congruence. }
    assert (0 <= series_sum s).
    { destruct (decide (s = ∅)) as [->|Hne]; [rewrite series_sum_empty; lra|].
      left. by apply series_sum_positive. }
    destruct (decide (p = q)) as [->|Hne].
    + rewrite lookup_insert_eq in Hp. injection Hp as ->. lra.
    + rewrite lookup_insert_ne in Hp by done.
      assert (0 < w) by (apply (Hpos q); apply lookup_insert_eq).
      specialize (IH Hrest Hp). lra.
Qed.

Lemma regularized_weight_bounds (lam : R) (rs : RSeries) (p : string) (w : R) :
  0 <= lam <= 1 ->
  (forall q v, rs !! q = Some v -> 0 < v) ->
  regularized_weights lam rs !! p = Some w ->
  0 < w <= 1.
Proof.
  intros Hlam Hpos Hw. rewrite regularized_weights_lookup in Hw.
  destruct (rs !! p) as [rho|] eqn:Hp; [|discriminate Hw].
  cbn in Hw. injection Hw as <-.
  assert (Hne : rs <> ∅) by (intros ->; by rewrite lookup_empty in Hp).
  pose proof (series_sum_positive rs Hne Hpos) as Hsum.
  pose proof (series_sum_ge rs p rho Hpos Hp) as Hle.
  pose proof (Hpos p rho Hp) as Hrho.
  assert (Hsize : 1 <= INR (size rs)).
  { change 1 with (INR 1). apply le_INR.
    destruct (size rs) eqn:Hsz; [|lia].
    apply map_size_empty_iff in Hsz. contradiction. }
  assert (Hdd : 0 < rho / series_sum rs <= 1).
  { split; [by apply Rdiv_lt_0_compat|].
    apply Rmult_le_reg_r with (series_sum rs); [assumption|].
    unfold Rdiv. rewrite Rmult_assoc, Rinv_l by lra. lra. }
  assert (Hu : 0 < 1 / INR (size rs) <= 1).
  { split; [apply Rdiv_lt_0_compat; lra|].
    apply Rmult_le_reg_r with (INR (size rs)); [lra|].
    unfold Rdiv. rewrite Rmult_assoc, Rinv_l by lra. lra. }
  revert Hdd Hu. generalize (rho / series_sum rs) (1 / INR (size rs)).
  intros a u Ha Hu.
  assert (0 <= (1 - lam) * a <= 1 - lam) by nra.
  assert (0 <= lam * u <= lam) by nra.
  split; [|lra].
  destruct (Rle_lt_dec lam (1 / 2)); nra.
Qed.

(** X7.  For a shrinkage parameter in [[0, 1]], every final weight is
    positive and at most 1, and the parameters that carry a weight are the
    responsive ones. *)
Theorem final_weights_are_positive_fractions
    (sort_values : list (string * cell) -> list (string * cell))
    (data : task_data) (hand baseline : string) (lam : R) :
  0 <= lam <= 1 ->
  let r := perform_full_hand_analysis sort_values data hand baseline lam in
  dom (final_dynamic_weights r) = dom (responsiveness_scores r)
  /\ forall p w, final_dynamic_weights r !! p = Some w -> 0 < w <= 1.
Proof.
  intros Hlam. cbv zeta.
  destruct (perform_full_hand_analysis_cases sort_values data hand baseline lam)
    as [[_ ->]|[(_ & Hempty & ->)|(_ & Hne & ->)]]; project.
  - split; [reflexivity|]. intros p w Hw. by rewrite lookup_empty in Hw.
  - split; [by rewrite Hempty|]. intros p w Hw. by rewrite lookup_empty in Hw.
  - split; [apply dom_regularized_weights|].
    intros p w. apply regularized_weight_bounds; [assumption|].
    intros q v. apply responsiveness_of_positive.
Qed.

Lemma final_weights_are_positive_fractions_witness :
  let r := perform_full_hand_analysis stable_sort_values scenario_b "Right" baseline_name
             default_shrinkage_lambda in
  dom (final_dynamic_weights r) = dom (responsiveness_scores r)
  /\ forall p w, final_dynamic_weights r !! p = Some w -> 0 < w <= 1.
Proof.
  apply (final_weights_are_positive_fractions stable_sort_values scenario_b "Right"
           baseline_name default_shrinkage_lambda).
  unfold default_shrinkage_lambda. lra.
Defined.

(** ** The scores: weighted means of the improvements *)





(** ** The ranking: the other conditions, the best first *)

Lemma drop_label_summary_NoDup (data : task_data) (hand baseline : string) :
  NoDup (drop_label baseline (index (aggregate_task_data_by_hand data hand))).
Proof.
  unfold drop_label. apply NoDup_list_filter.
  destruct data as [items|]; [|constructor].
  destruct (aggregate_task_data_by_hand_index items hand) as [keep ->].
  apply NoDup_list_filter. rewrite sorted_permutation.
  unfold aggregate_items. apply fold_store_condition_NoDup. constructor.
Qed.

Lemma scores_of_names (improvement : DataFrame) (weights : RSeries) :
  map fst (scores_of improvement weights) = index improvement.
Proof. unfold scores_of, dot, index. rewrite map_map. reflexivity. Qed.

(** X9.  Under the contract of [sort_values], the ranked names of a run
    that reached the weights are the labels of the summary other than the
    baseline, each once; in every run the ranked names are distinct labels
    of the summary, none of them the baseline, and there are as many
    names as scores. *)
Theorem ranking_lists_the_other_conditions
    (sort_values : list (string * cell) -> list (string * cell))
    (data : task_data) (hand baseline : string) (lam : R) :
  sort_values_contract sort_values ->
  let r := perform_full_hand_analysis sort_values data hand baseline lam in
  let names := ranked_names (dynamic_ranking_results r) in
  NoDup names
  /\ length names = length (ranked_scores (dynamic_ranking_results r))
  /\ (forall c, c ∈ names -> c ∈ index (summary_df r) /\ c <> baseline)
  /\ (final_dynamic_weights r <> ∅ ->
      Permutation names (drop_label baseline (index (summary_df r)))).
Proof.
  intros Hcontract. cbv zeta. rewrite run_summary.
  destruct (perform_full_hand_analysis_cases sort_values data hand baseline lam)
    as [[_ ->]|[(_ & _ & ->)|(_ & _ & ->)]]; project.
  - split; [constructor|]. split; [reflexivity|]. split; [|done].
    intros c Hc. by apply elem_of_nil in Hc.
  - split; [constructor|]. split; [reflexivity|]. split; [|done].
    intros c Hc. by apply elem_of_nil in Hc.
  - pose proof (drop_label_summary_NoDup data hand baseline) as Hnodup.
    pose proof (improvement_of_index (aggregate_task_data_by_hand data hand) baseline)
      as Hindex.
    revert Hnodup Hindex.
    generalize (aggregate_task_data_by_hand data hand). intros summary.
    generalize (improvement_of summary baseline). intros improvement.
    generalize (regularized_weights lam (responsiveness_of improvement)).
    intros weights Hnodup Hindex.
    destruct (Hcontract (scores_of improvement weights)) as [Hperm _].
    assert (Hnames : Permutation (map fst (sort_values (scores_of improvement weights)))
                                 (drop_label baseline (index summary))).
    { rewrite Hperm, scores_of_names. by rewrite Hindex. }
    split; [by rewrite Hnames|].
    split; [by rewrite !length_map|].
    split; [|done].
    intros c Hc. rewrite Hnames in Hc. by apply elem_of_drop_label in Hc.
Qed.

(** X10.  Under the contract of [sort_values], the first entry of the
    ranking (the "best" condition of the callers) is a scored condition,
    and when any condition has a defined score, the first entry has a
    defined score that no other defined score exceeds. *)
Theorem first_ranked_has_the_highest_score
    (sort_values : list (string * cell) -> list (string * cell))
    (data : task_data) (hand baseline : string) (lam : R) :
  sort_values_contract sort_values ->
  let r := perform_full_hand_analysis sort_values data hand baseline lam in
  forall (best : string) (top : cell),
    ranked_names (dynamic_ranking_results r) !! 0%nat = Some best ->
    ranked_scores (dynamic_ranking_results r) !! 0%nat = Some top ->
    (best, top) ∈ dynamic_scores r
    /\ forall c x, (c, Num x) ∈ dynamic_scores r ->
                   exists x0, top = Num x0 /\ x <= x0.
Proof.
  intros Hcontract. cbv zeta. intros best top.
  destruct (perform_full_hand_analysis_cases sort_values data hand baseline lam)
    as [[_ ->]|[(_ & _ & ->)|(_ & _ & ->)]]; project; [done|done|].
  generalize (scores_of (improvement_of (aggregate_task_data_by_hand data hand) baseline)
                (regularized_weights lam
                   (responsiveness_of
                      (improvement_of (aggregate_task_data_by_hand data hand) baseline)))).
  intros scores. destruct (Hcontract scores) as [Hperm Hsorted].
  rewrite !lookup_map.
  destruct (sort_values scores !! 0%nat) as [[c0 s0]|] eqn:Hfirst; [|done].
  cbn. intros [= ->] [= ->]. split.
  - rewrite <- Hperm. by apply list_elem_of_lookup_2 in Hfirst.
  - intros c x Hin. rewrite <- Hperm in Hin.
    apply list_elem_of_lookup in Hin as [j Hj].
    destruct j as [|j].
    + rewrite Hfirst in Hj. injection Hj as _ ->. exists x. split; [reflexivity|lra].
    + pose proof (StronglySorted_lookup _ _ 0%nat (S j) _ _ Hsorted
                    ltac:(lia) Hfirst Hj) as Hrel.
      cbn in Hrel. destruct top as [x0|]; [|destruct Hrel].
      exists x0. by split.
Qed.



Lemma ranking_lists_the_other_conditions_witness :
  let r := perform_full_hand_analysis stable_sort_values scenario_b "Right" baseline_name
             default_shrinkage_lambda in
  let names := ranked_names (dynamic_ranking_results r) in
  NoDup names
  /\ length names = length (ranked_scores (dynamic_ranking_results r))
  /\ (forall c, c ∈ names -> c ∈ index (summary_df r) /\ c <> baseline_name)
  /\ (final_dynamic_weights r <> ∅ ->
      Permutation names (drop_label baseline_name (index (summary_df r)))).
Proof.
  apply (ranking_lists_the_other_conditions stable_sort_values scenario_b "Right"
           baseline_name default_shrinkage_lambda).
  apply stable_sort_values_contract.
Defined.

Lemma first_ranked_has_the_highest_score_witness :
  let r := perform_full_hand_analysis stable_sort_values scenario_b "Right" baseline_name
             default_shrinkage_lambda in
  (program_1, Num 2) ∈ dynamic_scores r
  /\ forall c x, (c, Num x) ∈ dynamic_scores r -> exists x0, Num 2 = Num x0 /\ x <= x0.
Proof.
  apply (first_ranked_has_the_highest_score stable_sort_values scenario_b "Right"
           baseline_name default_shrinkage_lambda stable_sort_values_contract
           program_1 (Num 2)).
  - rewrite scenario_b_ranking. reflexivity.
  - rewrite scenario_b_ranking. reflexivity.
Defined.

(** ** The sort key: the baseline-like names come first *)

Lemma int_of_digits_acc_nonneg (ds : list ascii) (acc : Z) :
  (0 <= acc)%Z ->
  (0 <= fold_left (fun acc c => 10 * acc + Str.digit_value c) ds acc)%Z.
Proof.
  revert acc. induction ds as [|c ds IH]; intros acc Hacc; [exact Hacc|].
  cbn [fold_left]. apply IH. unfold Str.digit_value. lia.
Qed.

Lemma search_program_number_nonneg (s : string) (n : Z) :
  Str.search_program_number s = Some n -> (0 <= n)%Z.
Proof.
  assert (Hblank : forall t m, Str.blank_then_number t = Some m -> (0 <= m)%Z).
  { intros t m. unfold Str.blank_then_number.
    destruct (Str.leading_digits _); [discriminate|].
    intros [= <-]. unfold Str.int_of_digits. by apply int_of_digits_acc_nonneg. }
  induction s as [|c s IH]; cbn [Str.search_program_number].
  - destruct (Str.program_number_at EmptyString) as [m|] eqn:Hat; [|discriminate].
    intros [= <-]. unfold Str.program_number_at in Hat.
    destruct (Str.strip_prefix "pr" EmptyString); [by eapply Hblank|].
    destruct (Str.strip_prefix "level" EmptyString); [by eapply Hblank|discriminate].
  - destruct (Str.program_number_at (String c s)) as [m|] eqn:Hat; [|exact IH].
    intros [= <-]. unfold Str.program_number_at in Hat.
    destruct (Str.strip_prefix "pr" (String c s)); [by eapply Hblank|].
    destruct (Str.strip_prefix "level" (String c s)); [by eapply Hblank|discriminate].
Qed.

Lemma sort_condition_key_nonneg (c : string) : (0 <= sort_condition_key c)%Z.
Proof.
  unfold sort_condition_key. cbv zeta.
  destruct (Str.contains "dbs off" (Str.lower c)); [lia|].
  destruct (Str.search_program_number (Str.lower c)) as [n|] eqn:Hn.
  - by apply search_program_number_nonneg in Hn.
  - destruct (Str.contains "dbs on" (Str.lower c)); [lia|].
    destruct (Str.contains "med on" (Str.lower c)); lia.
Qed.

(** X11.  A condition whose name contains "dbs off", in any letter case,
    has the least sort key there is: no name has a smaller one, whatever
    program number it bears. *)
Theorem dbs_off_has_the_least_key (c c' : string) :
  Str.contains "dbs off" (Str.lower c) = true ->
  (sort_condition_key c <= sort_condition_key c')%Z.
Proof.
  intros Hoff. pose proof (sort_condition_key_nonneg c') as Hnonneg.
  unfold sort_condition_key at 1. cbv zeta. by rewrite Hoff.
Qed.

Lemma dbs_off_has_the_least_key_witness :
  (sort_condition_key "Med On - dbs OFF - Pr7" <= sort_condition_key "Med Off - DBS On - Pr0")%Z.
Proof. apply dbs_off_has_the_least_key. reflexivity. Defined.

(** ** The names of the parameters *)

Lemma name_map_values_fixed :
  Forall (fun kv => standardize_name kv.2 = kv.2) name_map.
Proof. apply bool_decide_unpack with (dec := Forall_dec _ _). vm_compute. exact I. Qed.

Lemma standardize_name_idempotent (a : string) :
  standardize_name (standardize_name a) = standardize_name a.
Proof.
  unfold standardize_name at 2 3.
  destruct (dict_get (Str.lower a) name_map) as [name|] eqn:Hget.
  - apply dict_get_elem_of, list_elem_of_In in Hget.
    pose proof name_map_values_fixed as Hfixed.
    rewrite List.Forall_forall in Hfixed. exact (Hfixed _ Hget).
  - unfold standardize_name. by rewrite Hget.
Qed.

(** X12.  Standardizing the parameter names of a table twice is the same
    as standardizing them once; the table keeps its rows, in order, with
    their values. *)
Theorem standardize_parameter_names_idempotent {V} (df : list (string * V)) :
  standardize_parameter_names (standardize_parameter_names df)
  = standardize_parameter_names df
  /\ map snd (standardize_parameter_names df) = map snd df.
Proof.
  unfold standardize_parameter_names. rewrite !map_map. cbn [fst snd]. split.
  - apply map_ext. intros [a v]. cbn [fst snd]. by rewrite standardize_name_idempotent.
  - reflexivity.
Qed.

Lemma name_map_values_have_direction :
  Forall (fun kv => is_Some (dict_get kv.2 parameter_directions)) name_map.
Proof.
  apply bool_decide_unpack with (dec := Forall_dec _ _). vm_compute. exact I.
Qed.

(** X13.  A parameter name that the table of names knows, in any letter
    case, is standardized to a name that has an entry in
    [parameter_directions]: the direction correction of the analysis
    applies to it. *)
Theorem standardized_name_has_direction (a name : string) :
  dict_get (Str.lower a) name_map = Some name ->
  standardize_name a = name /\ is_Some (dict_get name parameter_directions).
Proof.
  intros Hget. split; [unfold standardize_name; by rewrite Hget|].
  apply dict_get_elem_of, list_elem_of_In in Hget.
  pose proof name_map_values_have_direction as Hdir.
  rewrite List.Forall_forall in Hdir. exact (Hdir _ Hget).
Qed.

Lemma standardized_name_has_direction_witness :
  standardize_name "RATE" = "Frequency"
  /\ is_Some (dict_get "Frequency" parameter_directions).
Proof. apply standardized_name_has_direction. reflexivity. Defined.

(** *** The interactive baseline selection *)

Lemma index_of_nth (x : string) (l : list string) (i : nat) :
  index_of x l = Some i -> (i < length l)%nat /\ nth i l EmptyString = x.
Proof.
  revert i. induction l as [|y l IH]; intros i; cbn [index_of]; [discriminate|].
  destruct (String.eqb y x) eqn:Hy.
  - intros [= <-]. apply String.eqb_eq in Hy. cbn. split; [lia|exact Hy].
  - destruct (index_of x l) as [j|]; [|discriminate].
    intros [= <-]. destruct (IH j eq_refl) as [Hlt Hnth]. cbn. split; [lia|exact Hnth].
Qed.

Lemma index_of_elem (x : string) (l : list string) :
  x ∈ l -> exists i, index_of x l = Some i.
Proof.
  induction 1 as [x l|x y l _ IH]; cbn [index_of].
  - rewrite String.eqb_refl. by eexists.
  - destruct (String.eqb y x); [by eexists|]. destruct IH as [i ->]. by eexists.
Qed.

Lemma nth_elem (l : list string) (i : nat) :
  (i < length l)%nat -> nth i l EmptyString ∈ l.
Proof. intros Hi. apply list_elem_of_In. by apply nth_In. Qed.

Lemma selection_loop_elem (int_of : string -> option Z) (available : list string)
    (default_idx : option nat) (lines : list string) (c : string) :
  (forall i, default_idx = Some i -> (i < length available)%nat) ->
  selection_loop int_of available default_idx lines = Some (Some c) ->
  c ∈ available.
Proof.
  intros Hdefault. induction lines as [|line lines IH]; cbn [selection_loop]; [discriminate|].
  cbv zeta. destruct (String.eqb (Str.lower (strip line)) "skip"); [discriminate|].
  assert (Hint : match int_of (Str.lower (strip line)) with
                 | Some selected_num =>
                     if (1 <=? selected_num)%Z && (selected_num <=? Z.of_nat (length available))%Z
                     then Some (Some (nth (Z.to_nat (selected_num - 1)) available EmptyString))
                     else selection_loop int_of available default_idx lines
                 | None => selection_loop int_of available default_idx lines
                 end = Some (Some c) -> c ∈ available).
  { destruct (int_of (Str.lower (strip line))) as [n|]; [|exact IH].
    destruct ((1 <=? n)%Z && (n <=? Z.of_nat (length available))%Z) eqn:Hrange; [|exact IH].
    intros [= <-]. apply andb_true_iff in Hrange as [H1 H2].
    apply nth_elem. lia. }
  destruct (String.eqb (Str.lower (strip line)) EmptyString); [|exact Hint].
  destruct default_idx as [i|]; [|exact Hint].
  intros [= <-]. apply nth_elem. by apply Hdefault.
Qed.

(** X17.  Whatever the user types and whatever strings [int] accepts, a
    condition returned by the selection is one of the available
    conditions. *)
Theorem selected_baseline_is_available (int_of : string -> option Z)
    (available_conditions lines : list string) (c : string) :
  get_user_baseline_selection int_of available_conditions lines = Some (Some c) ->
  c ∈ available_conditions.
Proof.
  unfold get_user_baseline_selection.
  destruct available_conditions as [|c0 rest]; [discriminate|].
  cbv zeta. apply selection_loop_elem.
  intros i Hi. by apply index_of_nth in Hi as [Hlt _].
Qed.

Lemma selected_baseline_is_available_witness :
  "Med Off - DBS On" ∈ ["Med Off - DBS Off"; "Med Off - DBS On"].
Proof.
  apply (selected_baseline_is_available
           (fun s => if String.eqb s "2" then Some 2%Z else None)
           ["Med Off - DBS Off"; "Med Off - DBS On"] ["seven"; " 2 "]).
  reflexivity.
Defined.

(** X18.  When "Med Off - DBS Off" is among the available conditions and
    the first answer is blank (only white space), the selection returns
    "Med Off - DBS Off". *)
Theorem blank_answer_selects_default_baseline (int_of : string -> option Z)
    (available_conditions lines : list string) (line : string) :
  "Med Off - DBS Off" ∈ available_conditions ->
  strip line = EmptyString ->
  get_user_baseline_selection int_of available_conditions (line :: lines)
  = Some (Some "Med Off - DBS Off").
Proof.
  intros Helem Hblank. unfold get_user_baseline_selection.
  destruct available_conditions as [|c0 rest]; [by apply elem_of_nil in Helem|].
  cbv zeta. destruct (index_of_elem _ _ Helem) as [i Hi]. rewrite Hi.
  cbn [selection_loop]. cbv zeta. rewrite Hblank. cbn [Str.lower].
  change (String.eqb EmptyString "skip") with false. cbv iota.
  change (String.eqb EmptyString EmptyString) with true. cbv iota.
  apply index_of_nth in Hi as [_ ->]. reflexivity.
Qed.

Lemma blank_answer_selects_default_baseline_witness :
  get_user_baseline_selection (fun _ => None)
    ["Med On - DBS On"; "Med Off - DBS Off"] ["   "; "1"]
  = Some (Some "Med Off - DBS Off").
Proof.
  apply blank_answer_selects_default_baseline; [|reflexivity].
  apply list_elem_of_further, list_elem_of_here.
Defined.

(** ** The loader: how the tables of a directory are filed *)

Lemma dict_get_set_eq {A} (k : string) (v : A) (d : pydict A) :
  dict_get k (dict_set k v d) = Some v.
Proof.
  induction d as [|[k' v'] d IH]; cbn [dict_set dict_get].
  - by rewrite String.eqb_refl.
  - destruct (String.eqb k' k) eqn:Hk; cbn [dict_get].
    + by rewrite String.eqb_refl.
    + by rewrite Hk.
Qed.

Lemma dict_get_set_ne {A} (k k' : string) (v : A) (d : pydict A) :
  k' <> k -> dict_get k (dict_set k' v d) = dict_get k d.
Proof.
  intros Hne. induction d as [|[k0 v0] d IH]; cbn [dict_set dict_get].
  - by rewrite (proj2 (String.eqb_neq k' k) Hne).
  - destruct (String.eqb_spec k0 k') as [->|Hne0]; cbn [dict_get].
    + by rewrite (proj2 (String.eqb_neq k' k) Hne).
    + by rewrite IH.
Qed.

Lemma dict_set_elem {A} (k x : string) (v w : A) (d : pydict A) :
  (x, w) ∈ dict_set k v d -> (x = k /\ w = v) \/ (x, w) ∈ d.
Proof.
  induction d as [|[k' v'] d IH]; cbn [dict_set].
  - intros Hx. apply list_elem_of_singleton in Hx. left. by inversion Hx.
  - destruct (String.eqb_spec k' k) as [->|Hne].
    + intros Hx. apply elem_of_cons in Hx as [Hx|Hx].
      * left. by inversion Hx.
      * right. by right.
    + intros Hx. apply elem_of_cons in Hx as [Hx|Hx].
      * right. rewrite Hx. by left.
      * destruct (IH Hx) as [?|?]; [by left|right; by right].
Qed.

Lemma tables_at_setdefault_append {T} (c h c' h' : string) (df : T)
    (file_dict : pydict (pydict (list T))) :
  tables_at c h (setdefault_append c' h' df file_dict)
  = if String.eqb c' c && String.eqb h' h
    then (tables_at c h file_dict ++ [df])%list
    else tables_at c h file_dict.
Proof.
  unfold tables_at, setdefault_append. cbv zeta.
  destruct (String.eqb_spec c' c) as [->|Hc]; cbn [andb].
  - rewrite dict_get_set_eq. simpl.
    destruct (String.eqb_spec h' h) as [->|Hh].
    + by rewrite dict_get_set_eq.
    + by rewrite dict_get_set_ne.
  - by rewrite dict_get_set_ne.
Qed.

Lemma hand_of_filename_cases (filename : string) :
  hand_of_filename filename = "Left" \/ hand_of_filename filename = "Right"
  \/ hand_of_filename filename = "Unknown".
Proof.
  unfold hand_of_filename.
  destruct (Str.contains "left" _); [by left|].
  destruct (Str.contains "right" _); [right; by left|right; by right].
Qed.

Lemma tables_at_fold_load_file {V} (csv_files : list (csv_file V)) (condition hand : string)
    (file_dict : pydict (pydict (list (list (string * V))))) :
  tables_at condition hand (fold_left load_file csv_files file_dict)
  = (tables_at condition hand file_dict
     ++ if String.eqb hand "Unknown" then [] else tables_of condition hand csv_files)%list.
Proof.
  revert file_dict. induction csv_files as [|[filename read] csv_files IH]; intros file_dict.
  - cbn [fold_left tables_of omap]. destruct (String.eqb hand "Unknown"); by rewrite app_nil_r.
  - cbn [fold_left]. rewrite IH. unfold tables_of at 2. cbn [omap list_omap fst snd].
    fold (tables_of condition hand csv_files).
    unfold load_file. cbn [fst snd]. destruct read as [df|]; [|reflexivity].
    cbv zeta.
    destruct (String.eqb_spec (hand_of_filename filename) "Unknown") as [Hunknown|Hknown].
    + rewrite Hunknown.
      destruct (String.eqb_spec hand "Unknown") as [Hhand|Hhand]; [reflexivity|].
      rewrite (proj2 (String.eqb_neq "Unknown" hand)) by congruence.
      by rewrite andb_false_r.
    + rewrite tables_at_setdefault_append.
      destruct (String.eqb (condition_of_filename filename) condition); cbn [andb];
        [|reflexivity].
      destruct (String.eqb_spec (hand_of_filename filename) hand) as [Hhand|Hhand];
        [|reflexivity].
      subst hand. rewrite (proj2 (String.eqb_neq _ _) Hknown).
      by rewrite <- app_assoc.
Qed.

(** X19.  The tables that the loader files under a condition and a hand
    are the standardized tables of the readable files whose names bear
    that condition and that hand, in the order of the files; nothing is
    filed under the hand "Unknown". *)
Theorem loaded_tables_are_grouped {V} (csv_files : list (csv_file V))
    (condition hand : string) :
  tables_at condition hand (load_csv_files_by_hand (Some csv_files))
  = if String.eqb hand "Unknown" then [] else tables_of condition hand csv_files.
Proof.
  unfold load_csv_files_by_hand. rewrite tables_at_fold_load_file. reflexivity.
Qed.

Lemma fold_load_file_filed {V} (csv_files : list (csv_file V))
    (file_dict : pydict (pydict (list (list (string * V))))) :
  let filed (d : pydict (pydict (list (list (string * V))))) :=
    NoDup (map fst d)
    /\ forall condition hands, (condition, hands) ∈ d ->
         hands <> [] /\ NoDup (map fst hands)
         /\ forall hand dfs, (hand, dfs) ∈ hands ->
              (hand = "Left" \/ hand = "Right") /\ dfs <> [] in
  filed file_dict -> filed (fold_left load_file csv_files file_dict).
Proof.
  cbv zeta. revert file_dict.
  induction csv_files as [|[filename read] csv_files IH]; intros file_dict Hfiled;
    [exact Hfiled|].
  cbn [fold_left]. apply IH. unfold load_file. cbn [fst snd].
  destruct read as [df|]; [|exact Hfiled]. cbv zeta.
  destruct (String.eqb_spec (hand_of_filename filename) "Unknown") as [_|Hknown];
    [exact Hfiled|].
  destruct Hfiled as [Hnodup Hentries]. unfold setdefault_append. cbv zeta. split.
  - by apply dict_set_NoDup.
  - intros condition hands Hin. apply dict_set_elem in Hin as [[-> ->]|Hin];
      [|exact (Hentries _ _ Hin)].
    assert (Hold : NoDup (map fst (default [] (dict_get (condition_of_filename filename)
                                                  file_dict)))
                   /\ forall hand dfs,
                        (hand, dfs) ∈ default [] (dict_get (condition_of_filename filename)
                                                    file_dict) ->
                        (hand = "Left" \/ hand = "Right") /\ dfs <> []).
    { destruct (dict_get (condition_of_filename filename) file_dict) as [hands|] eqn:Hget;
        simpl.
      - apply dict_get_elem_of in Hget. by destruct (Hentries _ _ Hget) as (_ & ? & ?).
      - split; [apply NoDup_nil_2|]. intros hand dfs Hin. by apply elem_of_nil in Hin. }
    destruct Hold as [Hnodup_hands Hhands]. split; [|split].
    + generalize (default [] (dict_get (condition_of_filename filename) file_dict)).
      intros [|[k v] d]; cbn [dict_set]; [discriminate|].
      destruct (String.eqb k (hand_of_filename filename)); discriminate.
    + by apply dict_set_NoDup.
    + intros hand dfs Hin. apply dict_set_elem in Hin as [[-> ->]|Hin];
        [|exact (Hhands _ _ Hin)].
      split.
      * destruct (hand_of_filename_cases filename) as [?|[?|?]]; [by left|by right|done].
      * intros Hnil. by apply app_eq_nil in Hnil as [_ ?].
Qed.

(** X20.  In what the loader returns no condition is listed twice, every
    condition has at least one hand, no hand is listed twice under a
    condition, the hands are "Left" and "Right" only, and every hand
    listed has at least one table. *)
Theorem loaded_entries_have_tables {V} (directory : option (list (csv_file V))) :
  NoDup (map fst (load_csv_files_by_hand directory))
  /\ forall condition hands, (condition, hands) ∈ load_csv_files_by_hand directory ->
       hands <> [] /\ NoDup (map fst hands)
       /\ forall hand dfs, (hand, dfs) ∈ hands ->
            (hand = "Left" \/ hand = "Right") /\ dfs <> [].
Proof.
  assert (Hempty : NoDup (map fst ([] : pydict (pydict (list (list (string * V))))))
                   /\ forall condition hands,
                        (condition, hands) ∈ ([] : pydict (pydict (list (list (string * V))))) ->
                        hands <> [] /\ NoDup (map fst hands)
                        /\ forall hand dfs, (hand, dfs) ∈ hands ->
                             (hand = "Left" \/ hand = "Right") /\ dfs <> []).
  { split; [apply NoDup_nil_2|]. intros condition hands Hin. by apply elem_of_nil in Hin. }
  destruct directory as [csv_files|]; [|exact Hempty].
  unfold load_csv_files_by_hand. by apply (fold_load_file_filed csv_files []).
Qed.

(** ** The loader: the sort keys of the conditions it makes *)

Lemma ascii_classes (a : ascii) :
  ((97 <=? nat_of_ascii (Str.lower_ascii a))%nat
   && (nat_of_ascii (Str.lower_ascii a) <=? 122)%nat = true ->
   Str.is_space a = false /\ Ascii.eqb a "_" = false /\ Str.is_digit a = false)
  /\ (Str.is_digit a = true ->
      Str.is_space a = false /\ Ascii.eqb a "_" = false /\ Str.lower_ascii a = a
      /\ a <> "d"%char)
  /\ (is_gap a = true ->
      Str.is_space (if Ascii.eqb a "_" then " "%char else a) = true
      /\ Str.lower_ascii (if Ascii.eqb a "_" then " "%char else a)
         = (if Ascii.eqb a "_" then " "%char else a)
      /\ (if Ascii.eqb a "_" then " "%char else a) <> "d"%char
      /\ Str.is_digit a = false).
Proof.
  destruct a as [[] [] [] [] [] [] [] []]; vm_compute;
    (split; [|split]); intros H; try discriminate H;
    repeat split; try (intros H'; discriminate H').
Qed.

Lemma letter_is_plain (l a : ascii) :
  (97 <=? nat_of_ascii l)%nat && (nat_of_ascii l <=? 122)%nat = true ->
  Ascii.eqb l (Str.lower_ascii a) = true ->
  Str.lower_ascii a = l /\ Str.is_space a = false /\ Ascii.eqb a "_" = false
  /\ Str.is_digit a = false.
Proof.
  intros Hletter Heq. apply Ascii.eqb_eq in Heq. subst l.
  split; [reflexivity|]. by apply ascii_classes.
Qed.

Lemma strip_prefix_ignorecase_cons (l : ascii) (pat s letters rest : string) :
  (97 <=? nat_of_ascii l)%nat && (nat_of_ascii l <=? 122)%nat = true ->
  strip_prefix_ignorecase (String l pat) s = Some (letters, rest) ->
  exists a s' letters',
    s = String a s' /\ letters = String a letters'
    /\ strip_prefix_ignorecase pat s' = Some (letters', rest)
    /\ Str.lower_ascii a = l /\ Str.is_space a = false /\ Ascii.eqb a "_" = false
    /\ Str.is_digit a = false.
Proof.
  intros Hletter. destruct s as [|a s']; cbn [strip_prefix_ignorecase]; [discriminate|].
  destruct (Ascii.eqb l (Str.lower_ascii a)) eqn:Heq; [|discriminate].
  destruct (strip_prefix_ignorecase pat s') as [[letters' rest']|] eqn:Hstrip;
    [|discriminate].
  intros [= <- <-]. exists a, s', letters'.
  split; [reflexivity|]. split; [reflexivity|]. split; [exact Hstrip|].
  by apply letter_is_plain.
Qed.

Lemma leading_digits_are_digits (s : string) :
  Forall (fun c => Str.is_digit c = true) (Str.leading_digits s).
Proof.
  induction s as [|c s IH]; cbn [Str.leading_digits]; [constructor|].
  destruct (Str.is_digit c) eqn:Hc; [by constructor|constructor].
Qed.

Lemma digits_text_Some (s digits : string) :
  digits_text s = Some digits ->
  exists d ds, digits = string_of_list_ascii (d :: ds)
               /\ Forall (fun c => Str.is_digit c = true) (d :: ds).
Proof.
  unfold digits_text. pose proof (leading_digits_are_digits s) as Hdigits.
  destruct (Str.leading_digits s) as [|d ds]; [discriminate|].
  intros [= <-]. by exists d, ds.
Qed.

Lemma rstrip_cons (c : ascii) (s : string) :
  rstrip s = s -> s <> EmptyString -> rstrip (String c s) = String c s.
Proof.
  intros Hs Hne. cbn [rstrip]. rewrite Hs. destruct s; [contradiction|reflexivity].
Qed.

Lemma contains_cons_ne (p c : ascii) (pat s : string) :
  p <> c -> Str.contains (String p pat) (String c s) = Str.contains (String p pat) s.
Proof.
  intros Hne. cbn [Str.contains String.prefix].
  destruct (ascii_dec p c) as [Heq|_]; [contradiction|reflexivity].
Qed.

Lemma digit_string (ds : list ascii) :
  Forall (fun c => Str.is_digit c = true) ds ->
  replace_underscores (string_of_list_ascii ds) = string_of_list_ascii ds
  /\ rstrip (string_of_list_ascii ds) = string_of_list_ascii ds
  /\ Str.lower (string_of_list_ascii ds) = string_of_list_ascii ds
  /\ Str.leading_digits (string_of_list_ascii ds) = ds
  /\ Str.contains "dbs off" (string_of_list_ascii ds) = false
  /\ List.filter Str.is_digit ds = ds.
Proof.
  induction 1 as [|c ds Hc _ IH]; [by repeat split|].
  destruct IH as (Hreplace & Hrstrip & Hlower & Hleading & Hcontains & Hfilter).
  destruct (proj1 (proj2 (ascii_classes c)) Hc) as (Hspace & Hunder & Hlow & Hd).
  cbn [string_of_list_ascii]. repeat split.
  - cbn [replace_underscores]. by rewrite Hunder, Hreplace.
  - cbn [rstrip]. rewrite Hrstrip. destruct (string_of_list_ascii ds); [|reflexivity].
    by rewrite Hspace.
  - cbn [Str.lower]. by rewrite Hlow, Hlower.
  - cbn [Str.leading_digits]. by rewrite Hc, Hleading.
  - rewrite contains_cons_ne by congruence. exact Hcontains.
  - cbn [List.filter]. by rewrite Hc, Hfilter.
Qed.

Lemma gap_then_digits_key (g d : ascii) (ds : list ascii) (gap : bool) :
  Str.is_space g = true -> Str.lower_ascii g = g -> g <> "d"%char ->
  Forall (fun c => Str.is_digit c = true) (d :: ds) ->
  let rest := if gap then String g (string_of_list_ascii (d :: ds))
              else string_of_list_ascii (d :: ds) in
  rstrip rest = rest /\ rest <> EmptyString /\ Str.lower rest = rest
  /\ Str.contains "dbs off" rest = false
  /\ Str.blank_then_number rest = Some (Str.int_of_digits (d :: ds)).
Proof.
  intros Hspace Hlow Hd Hdigits. cbv zeta.
  destruct (digit_string _ Hdigits) as (_ & Hrstrip & Hlower & Hleading & Hcontains & _).
  assert (Hfirst : Str.is_space d = false).
  { apply Forall_cons in Hdigits as [Hdigit _]. by apply ascii_classes. }
  destruct gap.
  - split; [|split; [|split; [|split]]].
    + apply rstrip_cons; [exact Hrstrip|discriminate].
    + discriminate.
    + cbn [Str.lower]. by rewrite Hlow, Hlower.
    + rewrite contains_cons_ne by congruence. exact Hcontains.
    + unfold Str.blank_then_number. rewrite Hspace, Hleading. reflexivity.
  - split; [exact Hrstrip|]. split; [discriminate|]. split; [exact Hlower|].
    split; [exact Hcontains|].
    unfold Str.blank_then_number. cbn [string_of_list_ascii]. rewrite Hfirst.
    change (String d (string_of_list_ascii ds)) with (string_of_list_ascii (d :: ds)).
    rewrite Hleading. reflexivity.
Qed.

Lemma append_nonempty (s t : string) : t <> EmptyString -> s ++ t <> EmptyString.
Proof. destruct s; [trivial|discriminate]. Qed.

Lemma ignorecase_letters (word s letters rest X : string) :
  forallb (fun l => (97 <=? nat_of_ascii l)%nat && (nat_of_ascii l <=? 122)%nat)
          (list_ascii_of_string word) = true ->
  strip_prefix_ignorecase word s = Some (letters, rest) ->
  replace_underscores (letters ++ X) = letters ++ replace_underscores X
  /\ (word <> EmptyString -> lstrip (letters ++ X) = letters ++ X)
  /\ (rstrip X = X -> X <> EmptyString -> rstrip (letters ++ X) = letters ++ X)
  /\ Str.lower (letters ++ X) = word ++ Str.lower X
  /\ digits_of (letters ++ X) = digits_of X.
Proof.
  revert s letters. induction word as [|l word IH]; intros s letters Hword Hstrip.
  - cbn [strip_prefix_ignorecase] in Hstrip. injection Hstrip as <- _.
    by repeat split.
  - cbn [list_ascii_of_string forallb] in Hword.
    apply andb_true_iff in Hword as [Hl Hword].
    apply strip_prefix_ignorecase_cons in Hstrip
      as (a & s' & letters' & -> & -> & Hstrip & Hlow & Hspace & Hunder & Hdigit);
      [|exact Hl].
    destruct (IH s' letters' Hword Hstrip) as (Hreplace & _ & Hrstrip & Hlower & Hdigits).
    change (String a letters' ++ X) with (String a (letters' ++ X)).
    split; [|split; [|split; [|split]]].
    + cbn [replace_underscores]. by rewrite Hunder, Hreplace.
    + intros _. cbn [lstrip]. by rewrite Hspace.
    + intros HX Hne. apply rstrip_cons; [by apply Hrstrip|by apply append_nonempty].
    + cbn [Str.lower]. by rewrite Hlow, Hlower.
    + unfold digits_of in *. cbn [list_ascii_of_string List.filter].
      by rewrite Hdigit, Hdigits.
Qed.

Lemma digits_of_digit_string (ds : list ascii) :
  Forall (fun c => Str.is_digit c = true) ds ->
  digits_of (string_of_list_ascii ds) = ds.
Proof.
  intros Hds. unfold digits_of. rewrite list_ascii_of_string_of_list_ascii.
  by apply digit_string.
Qed.

Lemma extra_cond_at_key (s text : string) :
  extra_cond_at s = Some text ->
  strip (replace_underscores text) <> EmptyString
  /\ Str.contains "dbs off" (Str.lower (strip (replace_underscores text))) = false
  /\ Str.search_program_number (Str.lower (strip (replace_underscores text)))
     = Some (Str.int_of_digits (digits_of text)).
Proof.
  assert (Htag : forall word letters rest X n,
            forallb (fun l => (97 <=? nat_of_ascii l)%nat && (nat_of_ascii l <=? 122)%nat)
                    (list_ascii_of_string word) = true ->
            word <> EmptyString ->
            strip_prefix_ignorecase word s = Some (letters, rest) ->
            rstrip X = X -> X <> EmptyString -> Str.lower X = X ->
            Str.contains "dbs off" (word ++ X) = false ->
            Str.search_program_number (word ++ X) = Some n ->
            strip (letters ++ X) <> EmptyString
            /\ Str.contains "dbs off" (Str.lower (strip (letters ++ X))) = false
            /\ Str.search_program_number (Str.lower (strip (letters ++ X))) = Some n).
  { intros word letters rest X n Hword Hne Hstrip Hrstrip HX Hlower Hcontains Hsearch.
    destruct (ignorecase_letters word s letters rest X Hword Hstrip)
      as (_ & Hl & Hr & Hlow & _).
    unfold strip. rewrite (Hl Hne), (Hr Hrstrip HX), Hlow, Hlower.
    split; [by apply append_nonempty|]. by split. }
  unfold extra_cond_at. destruct (pr_at s) as [text'|] eqn:Hpr.
  - intros [= <-]. unfold pr_at in Hpr.
    destruct (strip_prefix_ignorecase "pr" s) as [[letters rest]|] eqn:Hstrip;
      [|discriminate Hpr].
    destruct (digits_text rest) as [digits|] eqn:Hdigits; [|discriminate Hpr].
    injection Hpr as <-.
    apply digits_text_Some in Hdigits as (d & ds & -> & Hds).
    destruct (gap_then_digits_key " " d ds false eq_refl eq_refl ltac:(discriminate) Hds)
      as (Hrstrip & Hne & Hlower & Hcontains & Hblank).
    destruct (ignorecase_letters "pr" s letters rest (string_of_list_ascii (d :: ds))
                eq_refl Hstrip) as (Hreplace & _ & _ & _ & Hdigits).
    rewrite Hreplace, Hdigits, (proj1 (digit_string _ Hds)), (digits_of_digit_string _ Hds).
    assert (Hcontains' : Str.contains "dbs off" ("pr" ++ string_of_list_ascii (d :: ds))
                         = false).
    { change ("pr" ++ string_of_list_ascii (d :: ds))
        with (String "p" (String "r" (string_of_list_ascii (d :: ds)))).
      rewrite !contains_cons_ne by discriminate. exact Hcontains. }
    assert (Hsearch' : Str.search_program_number ("pr" ++ string_of_list_ascii (d :: ds))
                       = Some (Str.int_of_digits (d :: ds))).
    { change ("pr" ++ string_of_list_ascii (d :: ds))
        with (String "p" (String "r" (string_of_list_ascii (d :: ds)))).
      cbn [Str.search_program_number].
      change (Str.program_number_at (String "p" (String "r" (string_of_list_ascii (d :: ds)))))
        with (Str.blank_then_number (string_of_list_ascii (d :: ds))).
      by rewrite Hblank. }
    by apply (Htag "pr" letters rest).
  - clear Hpr. unfold level_at.
    destruct (strip_prefix_ignorecase "level" s) as [[letters rest]|] eqn:Hstrip;
      [|discriminate].
    assert (Hlevel : forall X n,
              Str.contains "dbs off" X = false ->
              Str.blank_then_number X = Some n ->
              Str.contains "dbs off" ("level" ++ X) = false
              /\ Str.search_program_number ("level" ++ X) = Some n).
    { intros X n Hcontains Hblank.
      change ("level" ++ X)
        with (String "l" (String "e" (String "v" (String "e" (String "l" X))))).
      split.
      - rewrite !contains_cons_ne by discriminate. exact Hcontains.
      - cbn [Str.search_program_number].
        change (Str.program_number_at
                  (String "l" (String "e" (String "v" (String "e" (String "l" X))))))
          with (Str.blank_then_number X).
        by rewrite Hblank. }
    destruct rest as [|c rest']; [discriminate|].
    destruct (is_gap c) eqn:Hgap.
    + destruct (digits_text rest') as [digits|] eqn:Hdigits; [|discriminate].
      intros [= <-].
      apply digits_text_Some in Hdigits as (d & ds & -> & Hds).
      destruct (proj2 (proj2 (ascii_classes c)) Hgap) as (Hspace & Hlow & Hd & Hdigit).
      destruct (gap_then_digits_key _ d ds true Hspace Hlow Hd Hds)
        as (Hrstrip & Hne & Hlower & Hcontains & Hblank).
      destruct (ignorecase_letters "level" s letters (String c rest')
                  (String c (string_of_list_ascii (d :: ds))) eq_refl Hstrip)
        as (Hreplace & _ & _ & _ & Hdigits).
      rewrite Hreplace, Hdigits. cbn [replace_underscores].
      rewrite (proj1 (digit_string _ Hds)).
      replace (digits_of (String c (string_of_list_ascii (d :: ds)))) with (d :: ds).
      2:{ unfold digits_of. cbn [list_ascii_of_string List.filter]. rewrite Hdigit.
          symmetry. apply (digits_of_digit_string _ Hds). }
      destruct (Hlevel _ _ Hcontains Hblank) as [Hcontains' Hsearch'].
      by apply (Htag "level" letters (String c rest')).
    + destruct (digits_text (String c rest')) as [digits|] eqn:Hdigits; [|discriminate].
      intros [= <-].
      apply digits_text_Some in Hdigits as (d & ds & -> & Hds).
      destruct (gap_then_digits_key " " d ds false eq_refl eq_refl ltac:(discriminate) Hds)
        as (Hrstrip & Hne & Hlower & Hcontains & Hblank).
      destruct (ignorecase_letters "level" s letters (String c rest')
                  (string_of_list_ascii (d :: ds)) eq_refl Hstrip)
        as (Hreplace & _ & _ & _ & Hdigits).
      rewrite Hreplace, Hdigits, (proj1 (digit_string _ Hds)),
        (digits_of_digit_string _ Hds).
      destruct (Hlevel _ _ Hcontains Hblank) as [Hcontains' Hsearch'].
      by apply (Htag "level" letters (String c rest')).
Qed.

Lemma search_extra_cond_at (s text : string) :
  search_extra_cond s = Some text -> exists s', extra_cond_at s' = Some text.
Proof.
  induction s as [|c s IH]; cbn [search_extra_cond].
  - destruct (extra_cond_at EmptyString) as [text'|] eqn:Hat; [|discriminate].
    intros [= <-]. by eexists.
  - destruct (extra_cond_at (String c s)) as [text'|] eqn:Hat; [|exact IH].
    intros [= <-]. by eexists.
Qed.

Lemma sort_condition_key_dbs_off (med : bool) (extra : string) :
  sort_condition_key ((if med then "Med On" else "Med Off") ++ " - " ++ "DBS Off") = 0%Z
  /\ sort_condition_key (((if med then "Med On" else "Med Off") ++ " - " ++ "DBS Off")
                         ++ " - " ++ extra) = 0%Z.
Proof. destruct med; split; vm_compute; reflexivity. Qed.

Lemma sort_condition_key_dbs_on (med : bool) (extra : string) :
  sort_condition_key ((if med then "Med On" else "Med Off") ++ " - " ++ "DBS On") = 100%Z
  /\ sort_condition_key (((if med then "Med On" else "Med Off") ++ " - " ++ "DBS On")
                         ++ " - " ++ extra)
     = if Str.contains "dbs off" (Str.lower extra) then 0%Z
       else match Str.search_program_number (Str.lower extra) with
            | Some n => n
            | None => 100%Z
            end.
Proof. destruct med; split; vm_compute; reflexivity. Qed.

(** X21.  The sort key of the condition that the loader reads off a file
    name is 0 when the name is not of a DBS-on recording; for a DBS-on
    recording it is the number that the digits of the program tag spell,
    and 100 when the name has no program tag. *)
Theorem loaded_condition_sort_key (filename : string) :
  sort_condition_key (condition_of_filename filename)
  = if search_gap_pattern "dbs" "on" (Str.lower filename) then
      match search_extra_cond filename with
      | Some text => Str.int_of_digits (digits_of text)
      | None => 100%Z
      end
    else 0%Z.
Proof.
  unfold condition_of_filename. cbv zeta.
  generalize (search_gap_pattern "med" "on" (Str.lower filename)). intros med.
  destruct (search_gap_pattern "dbs" "on" (Str.lower filename)).
  - destruct (search_extra_cond filename) as [text|] eqn:Hextra.
    + apply search_extra_cond_at in Hextra as [s' Hat].
      destruct (extra_cond_at_key _ _ Hat) as (Hne & Hcontains & Hsearch).
      revert Hne Hcontains Hsearch.
      generalize (strip (replace_underscores text)) (Str.int_of_digits (digits_of text)).
      intros extra n Hne Hcontains Hsearch.
      destruct extra as [|c extra]; [contradiction|].
      rewrite (proj2 (sort_condition_key_dbs_on med (String c extra))).
      by rewrite Hcontains, Hsearch.
    + apply sort_condition_key_dbs_on. exact EmptyString.
  - destruct (match search_extra_cond filename with
              | Some text => strip (replace_underscores text)
              | None => EmptyString
              end) as [|c extra].
    + apply sort_condition_key_dbs_off. exact EmptyString.
    + apply sort_condition_key_dbs_off.
Qed.

Lemma loaded_condition_sort_key_program_12 :
  sort_condition_key (condition_of_filename "P01_MedOff_DBS_On_Level_12_left.csv") = 12%Z.
Proof. reflexivity. Qed.
